(** * Weekly planner (App.tsx): the task store as a state machine

    A shallow embedding of the state held by the [WeeklyPlanner] component
    and of its event handlers.  Every handler runs to completion on one
    rendered snapshot, so a handler is a function from the state before the
    event to the state after it.  A handler that reads [newTasks[day]] for a
    name that is not a property of the object raises a [TypeError] in
    JavaScript; such a run is [None] here.

    Strings are sequences of bytes, the UTF-8 encoding of the JavaScript
    string.  Task ids are modelled as exact integers ([Z]): the page
    allocates them one by one from the eight ids of the seed data.  Points
    are [number]s, the binary64 numbers the points field can produce. *)

From Stdlib Require Import ZArith List String Ascii Bool Lia.
From Stdlib Require Import DecimalString DecimalNat.
Import ListNotations.
Local Open Scope string_scope.
Local Open Scope list_scope.
Local Open Scope Z_scope.

(** ** Data model *)

(** The numbers that can be the points of a task: the seed data give
    integers, the form gives the result of [parseInt(value, 10) || 0], an
    integer-valued binary64 number or an infinity, and the page adds such
    numbers up.  [Num z] is the finite number with the integer value [z]
    (a negative zero never arises: [-0 || 0] is [0], and a sum that
    starts from [0] is never [-0]). *)
Inductive number :=
| Num (z : Z)
| PosInfinity
| NegInfinity
| NaN.

Coercion Num : Z >-> number.

Record Task := mkTask {
  id : Z;
  title : string;
  description : string;
  points : number
}.

(** [Record<string, Task[]>]: an object with string keys, kept in property
    order (the order [Object.keys] and [Object.values] enumerate). *)
Definition TasksState := list (string * list Task).

Inductive DraggedPayload :=
| singleTask (t : Task)
| multiTasks (ts : list Task).

(** [null | { singleTask } | { multiTasks }] *)
Definition DraggedTaskState := option DraggedPayload.

Inductive ClipboardMode := copy | cut.

Record TaskFormData := mkForm {
  f_title : string;
  f_description : string;
  f_points : number
}.

Record State := mkState {
  tasks : TasksState;
  folder : list Task;
  draggedTask : DraggedTaskState;
  selectedTasks : list Task;
  clipboard : list Task;
  clipboardMode : ClipboardMode;
  isModalOpen : bool;
  currentTask : option Task;
  formData : TaskFormData
}.

Definition weekdays : list string :=
  ["Lundi"; "Mardi"; "Mercredi"; "Jeudi"; "Vendredi"; "Samedi"; "Dimanche"].

(** ** Objects and arrays as the handlers use them *)

Module Js.

(** [obj[key]]; [None] is [undefined]. *)
Fixpoint get (o : TasksState) (key : string) : option (list Task) :=
  match o with
  | [] => None
  | (k, v) :: rest => if String.eqb k key then Some v else get rest key
  end.

(** [obj[key] = v]: overwrites an existing property in place, otherwise adds
    the property after the existing ones. *)
Fixpoint set (o : TasksState) (key : string) (v : list Task) : TasksState :=
  match o with
  | [] => [(key, v)]
  | (k, old) :: rest =>
      if String.eqb k key then (k, v) :: rest else (k, old) :: set rest key v
  end.

Definition keys (o : TasksState) : list string := map fst o.
Definition values (o : TasksState) : list (list Task) := map snd o.

(** [arr.some(p)] *)
Definition some {A} (p : A -> bool) (l : list A) : bool := existsb p l.

(** [arr.findIndex(p)]; [None] is [-1]. *)
Fixpoint findIndex {A} (p : A -> bool) (l : list A) : option nat :=
  match l with
  | [] => None
  | x :: rest =>
      if p x then Some O
      else match findIndex p rest with
           | Some i => Some (S i)
           | None => None
           end
  end.

(** [arr[i] = x] for an index inside the array. *)
Fixpoint setAt {A} (l : list A) (i : nat) (x : A) : list A :=
  match l, i with
  | [], _ => []
  | _ :: rest, O => x :: rest
  | y :: rest, S j => y :: setAt rest j x
  end.

(** [Math.max(...l)] for a non-empty argument list. *)
Definition max (x : Z) (l : list Z) : Z := fold_left Z.max l x.

(** Truthiness of a string: only the empty string is falsy. *)
Definition truthy (s : string) : bool := negb (String.eqb s "").

(** The binary64 number nearest to the integer [z], ties going to the even
    significand, as an integer: an integer of magnitude below 2^53 is a
    binary64 number; above, the 53 leading bits are kept and the rest is
    rounded. *)
Definition round64 (z : Z) : Z :=
  let a := Z.abs z in
  if a <? 2 ^ 53 then z
  else
    let e := Z.log2 a - 52 in
    let q := Z.shiftr a e in
    let r := a - Z.shiftl q e in
    let half := Z.shiftl 1 (e - 1) in
    let q' := if (half <? r) || ((r =? half) && Z.odd q) then q + 1 else q in
    Z.sgn z * Z.shiftl q' e.

(** The number an exact integer result becomes: rounded to binary64, an
    infinity once the rounded magnitude reaches 2^1024. *)
Definition ofInteger (z : Z) : number :=
  let r := round64 z in
  if 2 ^ 1024 <=? Z.abs r then (if z <? 0 then NegInfinity else PosInfinity)
  else Num r.

(** [a + b] on numbers. *)
Definition plus (a b : number) : number :=
  match a, b with
  | NaN, _ | _, NaN => NaN
  | PosInfinity, NegInfinity | NegInfinity, PosInfinity => NaN
  | PosInfinity, _ | _, PosInfinity => PosInfinity
  | NegInfinity, _ | _, NegInfinity => NegInfinity
  | Num x, Num y => ofInteger (x + y)
  end.

(** [n || 0]: [NaN] and [0] are the falsy numbers. *)
Definition orZero (n : number) : number :=
  match n with
  | NaN => Num 0
  | _ => n
  end.

(** [parseInt(s, 10)] on the bytes of [s]: leading white space is skipped,
    one sign is read, then decimal digits up to the first other character;
    the integer read is rounded to a number, and without a digit the result
    is [NaN].  (For a numeral of more than 20 significant digits the
    language lets an engine round after the 20th digit; the engines round
    the whole numeral, as here.) *)
Definition digit (c : ascii) : option Z :=
  let n := Z.of_nat (nat_of_ascii c) in
  if (48 <=? n) && (n <=? 57) then Some (n - 48) else None.

Fixpoint digits (acc : option Z) (s : string) : option Z :=
  match s with
  | EmptyString => acc
  | String c rest =>
      match digit c with
      | Some d =>
          digits (Some (10 * match acc with Some a => a | None => 0 end + d)) rest
      | None => acc
      end
  end.

(** The white space and line terminators of the language, by the bytes of
    their encoding: U+0009 to U+000D and U+0020; U+00A0; U+1680, U+2000 to
    U+200A, U+2028, U+2029, U+202F, U+205F, U+3000 and U+FEFF. *)
Definition blank (c : ascii) : bool :=
  let n := nat_of_ascii c in
  (Nat.eqb n 32 || Nat.eqb n 9 || Nat.eqb n 10 || Nat.eqb n 13
   || Nat.eqb n 11 || Nat.eqb n 12)%bool.

Definition blank2 (c1 c2 : ascii) : bool :=
  (Nat.eqb (nat_of_ascii c1) 194 && Nat.eqb (nat_of_ascii c2) 160)%bool.

Definition blank3 (c1 c2 c3 : ascii) : bool :=
  let n1 := nat_of_ascii c1 in
  let n2 := nat_of_ascii c2 in
  let n3 := nat_of_ascii c3 in
  (Nat.eqb n1 225 && Nat.eqb n2 154 && Nat.eqb n3 128
   || Nat.eqb n1 226 && Nat.eqb n2 128
      && (Nat.leb 128 n3 && Nat.leb n3 138 || Nat.eqb n3 168
          || Nat.eqb n3 169 || Nat.eqb n3 175)
   || Nat.eqb n1 226 && Nat.eqb n2 129 && Nat.eqb n3 159
   || Nat.eqb n1 227 && Nat.eqb n2 128 && Nat.eqb n3 128
   || Nat.eqb n1 239 && Nat.eqb n2 187 && Nat.eqb n3 191)%bool.

Fixpoint skipBlanks (s : string) : string :=
  match s with
  | String c1 rest1 =>
      if blank c1 then skipBlanks rest1
      else
        match rest1 with
        | String c2 rest2 =>
            if blank2 c1 c2 then skipBlanks rest2
            else
              match rest2 with
              | String c3 rest3 =>
                  if blank3 c1 c2 c3 then skipBlanks rest3 else s
              | EmptyString => s
              end
        | EmptyString => s
        end
  | EmptyString => s
  end.

Definition numberOf (sign : Z) (ds : option Z) : number :=
  match ds with
  | Some n => ofInteger (sign * n)
  | None => NaN
  end.

Definition parseInt (s : string) : number :=
  match skipBlanks s with
  | String "-"%char rest => numberOf (-1) (digits None rest)
  | String "+"%char rest => numberOf 1 (digits None rest)
  | t => numberOf 1 (digits None t)
  end.

End Js.

(** Failure propagation for the handlers that can raise. *)
Notation "x <- c ;; k" := (match c with Some x => k | None => None end)
  (at level 61, c at next level, right associativity).

Definition sameId (a : Task) (b : Task) : bool := id b =? id a.
Definition otherId (a : Task) (b : Task) : bool := negb (id b =? id a).

(** ** Initial state (the [useState] initialisers) *)

Definition initialTasks : TasksState :=
  [ ("Lundi",
      [ mkTask 1 "Réunion d'équipe" "9h - Point hebdomadaire" 2;
        mkTask 2 "Analyse des besoins" "Recueillir les besoins client" 5 ]);
    ("Mardi",
      [ mkTask 3 "Conception UI" "Créer les maquettes" 8;
        mkTask 4 "Revue de code" "Revue des PR en attente" 3 ]);
    ("Mercredi",
      [ mkTask 5 "Développement API" "Endpoints backend" 13 ]);
    ("Jeudi",
      [ mkTask 6 "Tests fonctionnels" "Tests d'acceptation" 5;
        mkTask 7 "Documentation" "Mise à jour de la doc technique" 3 ]);
    ("Vendredi",
      [ mkTask 8 "Déploiement" "Mise en production v1.2" 8 ]);
    ("Samedi", []);
    ("Dimanche", []) ].

Definition initialState : State :=
  {| tasks := initialTasks;
     folder := [];
     draggedTask := None;
     selectedTasks := [];
     clipboard := [];
     clipboardMode := copy;
     isModalOpen := false;
     currentTask := None;
     formData := mkForm "" "" 0 |}.

(** ** Event handlers *)

(** [selectTask] *)
Definition selectTask (task : Task) (isCtrlPressed : bool) (s : State) : State :=
  let sel := selectedTasks s in
  let sel' :=
    if isCtrlPressed then
      let isAlreadySelected := Js.some (sameId task) sel in
      if isAlreadySelected then filter (otherId task) sel else sel ++ [task]
    else
      match sel with
      | [t0] => if id t0 =? id task then [] else [task]
      | _ => [task]
      end in
  {| tasks := tasks s; folder := folder s; draggedTask := draggedTask s;
     selectedTasks := sel';
     clipboard := clipboard s; clipboardMode := clipboardMode s;
     isModalOpen := isModalOpen s; currentTask := currentTask s;
     formData := formData s |}.

(** [copySelectedTasks] *)
Definition copySelectedTasks (s : State) : State :=
  match selectedTasks s with
  | [] => s
  | _ :: _ =>
      {| tasks := tasks s; folder := folder s; draggedTask := draggedTask s;
         selectedTasks := selectedTasks s;
         clipboard := selectedTasks s; clipboardMode := copy;
         isModalOpen := isModalOpen s; currentTask := currentTask s;
         formData := formData s |}
  end.

(** [newTasks[day].some(t => t.id === task.id)] for a [day] taken from the
    object's own keys. *)
Definition holdsId (newTasks : TasksState) (task : Task) (day : string) : bool :=
  match Js.get newTasks day with
  | Some arr => Js.some (sameId task) arr
  | None => false
  end.

(** The body of the [forEach] in [cutSelectedTasks]: the first property of
    [newTasks] whose array holds the id loses every task with that id.
    ([sourceDay] comes from the object's keys, so its array is defined.) *)
Definition cutOne (newTasks : TasksState) (taskToCut : Task) : TasksState :=
  match find (holdsId newTasks taskToCut) (Js.keys newTasks) with
  | Some sourceDay =>
      if Js.truthy sourceDay then
        match Js.get newTasks sourceDay with
        | Some arr => Js.set newTasks sourceDay (filter (otherId taskToCut) arr)
        | None => newTasks
        end
      else newTasks
  | None => newTasks
  end.

(** [cutSelectedTasks] *)
Definition cutSelectedTasks (s : State) : State :=
  match selectedTasks s with
  | [] => s
  | _ :: _ =>
      {| tasks := fold_left cutOne (selectedTasks s) (tasks s);
         folder := folder s; draggedTask := draggedTask s;
         selectedTasks := [];
         clipboard := selectedTasks s; clipboardMode := cut;
         isModalOpen := isModalOpen s; currentTask := currentTask s;
         formData := formData s |}
  end.

(** [Object.values(newTasks).flat().map(task => task.id)] *)
Definition allTaskIds (o : TasksState) : list Z :=
  map id (List.concat (Js.values o)).

(** [allTaskIds.length > 0 ? Math.max(...allTaskIds) + 1 : 1] *)
Definition nextId (o : TasksState) : Z :=
  match allTaskIds o with
  | [] => 1
  | x :: rest => Js.max x rest + 1
  end.

(** [clipboard.map(task => ({ ...task, id: nextId++ }))] *)
Fixpoint taskCopies (n : Z) (clip : list Task) : list Task :=
  match clip with
  | [] => []
  | task :: rest =>
      mkTask n (title task) (description task) (points task)
      :: taskCopies (n + 1) rest
  end.

(** [pasteTasksToDay] *)
Definition pasteTasksToDay (day : string) (s : State) : option State :=
  match clipboard s with
  | [] => Some s
  | _ :: _ =>
      let newTasks := tasks s in
      let n := nextId newTasks in
      match clipboardMode s with
      | cut =>
          old <- Js.get newTasks day ;;
          Some {| tasks := Js.set newTasks day (old ++ clipboard s);
                  folder := folder s; draggedTask := draggedTask s;
                  selectedTasks := selectedTasks s;
                  clipboard := []; clipboardMode := copy;
                  isModalOpen := isModalOpen s; currentTask := currentTask s;
                  formData := formData s |}
      | copy =>
          old <- Js.get newTasks day ;;
          Some {| tasks := Js.set newTasks day (old ++ taskCopies n (clipboard s));
                  folder := folder s; draggedTask := draggedTask s;
                  selectedTasks := selectedTasks s;
                  clipboard := clipboard s; clipboardMode := clipboardMode s;
                  isModalOpen := isModalOpen s; currentTask := currentTask s;
                  formData := formData s |}
      end
  end.

(** The filter shared by both folder handlers:
    [!folder.some(folderTask => folderTask.id === task.id)] *)
Definition notInFolder (fold : list Task) (task : Task) : bool :=
  negb (Js.some (fun folderTask => id folderTask =? id task) fold).

(** [addSelectedTasksToFolder] *)
Definition addSelectedTasksToFolder (s : State) : State :=
  match selectedTasks s with
  | [] => s
  | _ :: _ =>
      let newTasksForFolder := filter (notInFolder (folder s)) (selectedTasks s) in
      {| tasks := tasks s;
         folder := match newTasksForFolder with
                   | [] => folder s
                   | _ :: _ => folder s ++ newTasksForFolder
                   end;
         draggedTask := draggedTask s;
         selectedTasks := [];
         clipboard := clipboard s; clipboardMode := clipboardMode s;
         isModalOpen := isModalOpen s; currentTask := currentTask s;
         formData := formData s |}
  end.

(** [removeFromFolder] *)
Definition removeFromFolder (taskId : Z) (s : State) : State :=
  {| tasks := tasks s;
     folder := filter (fun task => negb (id task =? taskId)) (folder s);
     draggedTask := draggedTask s; selectedTasks := selectedTasks s;
     clipboard := clipboard s; clipboardMode := clipboardMode s;
     isModalOpen := isModalOpen s; currentTask := currentTask s;
     formData := formData s |}.

(** [openEditModal] *)
Definition openEditModal (task : Task) (s : State) : State :=
  {| tasks := tasks s; folder := folder s; draggedTask := draggedTask s;
     selectedTasks := selectedTasks s;
     clipboard := clipboard s; clipboardMode := clipboardMode s;
     isModalOpen := true; currentTask := Some task;
     formData := mkForm (title task) (description task) (points task) |}.

(** [closeModal] *)
Definition closeModal (s : State) : State :=
  {| tasks := tasks s; folder := folder s; draggedTask := draggedTask s;
     selectedTasks := selectedTasks s;
     clipboard := clipboard s; clipboardMode := clipboardMode s;
     isModalOpen := false; currentTask := None;
     formData := formData s |}.

(** [{ ...t, ...updatedTaskData }] *)
Definition applyForm (fd : TaskFormData) (t : Task) : Task :=
  mkTask (id t) (f_title fd) (f_description fd) (f_points fd).

(** [t.id === currentTask.id ? { ...t, ...updatedTaskData } : t] *)
Definition editOf (cur : Task) (fd : TaskFormData) (t : Task) : Task :=
  if id t =? id cur then applyForm fd t else t.

(** The [for (const day of weekdays)] loop of [saveChanges], stopping at
    the first day whose array holds the id. *)
Fixpoint saveLoop (days : list string) (newTasks : TasksState)
    (cur : Task) (fd : TaskFormData) : option TasksState :=
  match days with
  | [] => Some newTasks
  | day :: rest =>
      arr <- Js.get newTasks day ;;
      match Js.findIndex (sameId cur) arr with
      | Some taskIndex =>
          match nth_error arr taskIndex with
          | Some old => Some (Js.set newTasks day (Js.setAt arr taskIndex (applyForm fd old)))
          | None => Some newTasks
          end
      | None => saveLoop rest newTasks cur fd
      end
  end.

(** [saveChanges] *)
Definition saveChanges (s : State) : option State :=
  match currentTask s with
  | None => Some s
  | Some cur =>
      let fd := formData s in
      newTasks <- saveLoop weekdays (tasks s) cur fd ;;
      Some {| tasks := newTasks;
              folder := map (editOf cur fd) (folder s);
              draggedTask := draggedTask s;
              selectedTasks := map (editOf cur fd) (selectedTasks s);
              clipboard := clipboard s; clipboardMode := clipboardMode s;
              isModalOpen := false; currentTask := None;
              formData := formData s |}
  end.

(** [handleDragStart] *)
Definition handleDragStart (task : Task) (s : State) : State :=
  let sel := selectedTasks s in
  let isTaskSelected := Js.some (sameId task) sel in
  if isTaskSelected && (1 <? List.length sel)%nat then
    {| tasks := tasks s; folder := folder s;
       draggedTask := Some (multiTasks sel);
       selectedTasks := sel;
       clipboard := clipboard s; clipboardMode := clipboardMode s;
       isModalOpen := isModalOpen s; currentTask := currentTask s;
       formData := formData s |}
  else
    {| tasks := tasks s; folder := folder s;
       draggedTask := Some (singleTask task);
       selectedTasks :=
         if negb isTaskSelected || (1 <? List.length sel)%nat then [task] else sel;
       clipboard := clipboard s; clipboardMode := clipboardMode s;
       isModalOpen := isModalOpen s; currentTask := currentTask s;
       formData := formData s |}.

(** ["multiTasks" in draggedTask ? draggedTask.multiTasks : [draggedTask.singleTask]] *)
Definition payloadTasks (d : DraggedPayload) : list Task :=
  match d with
  | multiTasks ts => ts
  | singleTask t => [t]
  end.

(** The scan [for (const day of weekdays) ... break] of [handleDayDrop]:
    the first weekday whose array holds the id. *)
Fixpoint findSourceDay (days : list string) (newTasks : TasksState)
    (taskToMove : Task) : option (option string) :=
  match days with
  | [] => Some None
  | day :: rest =>
      arr <- Js.get newTasks day ;;
      if Js.some (sameId taskToMove) arr then Some (Some day)
      else findSourceDay rest newTasks taskToMove
  end.

(** The body of the [forEach] in [handleDayDrop], on the pair
    [(newTasks, changed)]. *)
Definition moveOne (targetDayName : string) (acc : TasksState * bool)
    (taskToMove : Task) : option (TasksState * bool) :=
  let '(newTasks, changed) := acc in
  sourceDay <- findSourceDay weekdays newTasks taskToMove ;;
  match sourceDay with
  | Some src =>
      if Js.truthy src && negb (String.eqb src targetDayName) then
        srcArr <- Js.get newTasks src ;;
        let newTasks1 := Js.set newTasks src (filter (otherId taskToMove) srcArr) in
        tgtArr <- Js.get newTasks1 targetDayName ;;
        if negb (Js.some (sameId taskToMove) tgtArr)
        then Some (Js.set newTasks1 targetDayName (tgtArr ++ [taskToMove]), true)
        else Some (newTasks1, true)
      else Some (newTasks, changed)
  | None => Some (newTasks, changed)
  end.

Fixpoint moveAll (targetDayName : string) (acc : TasksState * bool)
    (tasksToMove : list Task) : option (TasksState * bool) :=
  match tasksToMove with
  | [] => Some acc
  | t :: rest =>
      acc1 <- moveOne targetDayName acc t ;;
      moveAll targetDayName acc1 rest
  end.

(** [handleDayDrop] *)
Definition handleDayDrop (targetDayName : string) (s : State) : option State :=
  match draggedTask s with
  | None => Some s
  | Some d =>
      r <- moveAll targetDayName (tasks s, false) (payloadTasks d) ;;
      Some {| tasks := if snd r then fst r else tasks s;
              folder := folder s;
              draggedTask := None;
              selectedTasks := selectedTasks s;
              clipboard := clipboard s; clipboardMode := clipboardMode s;
              isModalOpen := isModalOpen s; currentTask := currentTask s;
              formData := formData s |}
  end.

(** [handleFolderDrop] *)
Definition handleFolderDrop (s : State) : State :=
  match draggedTask s with
  | None => s
  | Some d =>
      let newTasksForFolder := filter (notInFolder (folder s)) (payloadTasks d) in
      {| tasks := tasks s;
         folder := match newTasksForFolder with
                   | [] => folder s
                   | _ :: _ => folder s ++ newTasksForFolder
                   end;
         draggedTask := None;
         selectedTasks := selectedTasks s;
         clipboard := clipboard s; clipboardMode := clipboardMode s;
         isModalOpen := isModalOpen s; currentTask := currentTask s;
         formData := formData s |}
  end.

(** [handleFormChange]: [[name]: name === "points" ? parseInt(value, 10) || 0 : value].
    A name other than the three fields adds a property nothing reads. *)
Definition handleFormChange (name value : string) (s : State) : State :=
  let fd := formData s in
  let fd' :=
    if String.eqb name "points" then
      mkForm (f_title fd) (f_description fd)
             (Js.orZero (Js.parseInt value))
    else if String.eqb name "title" then
      mkForm value (f_description fd) (f_points fd)
    else if String.eqb name "description" then
      mkForm (f_title fd) value (f_points fd)
    else fd in
  {| tasks := tasks s; folder := folder s; draggedTask := draggedTask s;
     selectedTasks := selectedTasks s;
     clipboard := clipboard s; clipboardMode := clipboardMode s;
     isModalOpen := isModalOpen s; currentTask := currentTask s;
     formData := fd' |}.

(** ** The store as a transition system *)

Inductive Op :=
| OpSelect (task : Task) (isCtrlPressed : bool)
| OpCopy
| OpCut
| OpPaste (day : string)
| OpAddToFolder
| OpRemoveFromFolder (taskId : Z)
| OpOpenEdit (task : Task)
| OpCloseModal
| OpFormChange (name value : string)
| OpSave
| OpDragStart (task : Task)
| OpDayDrop (day : string)
| OpFolderDrop.

Definition run (op : Op) (s : State) : option State :=
  match op with
  | OpSelect task c => Some (selectTask task c s)
  | OpCopy => Some (copySelectedTasks s)
  | OpCut => Some (cutSelectedTasks s)
  | OpPaste day => pasteTasksToDay day s
  | OpAddToFolder => Some (addSelectedTasksToFolder s)
  | OpRemoveFromFolder i => Some (removeFromFolder i s)
  | OpOpenEdit task => Some (openEditModal task s)
  | OpCloseModal => Some (closeModal s)
  | OpFormChange n v => Some (handleFormChange n v s)
  | OpSave => saveChanges s
  | OpDragStart task => Some (handleDragStart task s)
  | OpDayDrop day => handleDayDrop day s
  | OpFolderDrop => Some (handleFolderDrop s)
  end.


(** ** Predicates on states *)

(** The object always has exactly the seven weekdays as its properties, in
    this order: no handler adds or deletes one. *)
Definition wfKeys (o : TasksState) : Prop := Js.keys o = weekdays.

(** A task with id [x] is in the array of [day]. *)
Definition inBucket (o : TasksState) (day : string) (x : Z) : Prop :=
  exists l, Js.get o day = Some l /\ In x (map id l).

Definition inSomeBucket (o : TasksState) (x : Z) : Prop :=
  exists day, inBucket o day x.

(** No id twice inside one bucket, and no id in two buckets. *)
Definition uniqueBuckets (o : TasksState) : Prop :=
  (forall day l, Js.get o day = Some l -> NoDup (map id l)) /\
  (forall d1 d2 x, inBucket o d1 x -> inBucket o d2 x -> d1 = d2).

Definition uniqueFolder (f : list Task) : Prop := NoDup (map id f).

Definition Uniqueness (s : State) : Prop :=
  uniqueBuckets (tasks s) /\ uniqueFolder (folder s).

Definition payloadOf (d : DraggedTaskState) : list Task :=
  match d with
  | Some p => payloadTasks p
  | None => []
  end.

(** The invariant that carries [Uniqueness] through every handler: the
    selection and the drag payload name each id once, and what was cut is
    held by the clipboard only. *)
Record Inv (s : State) : Prop := mkInv {
  inv_keys : wfKeys (tasks s);
  inv_buckets : uniqueBuckets (tasks s);
  inv_folder : NoDup (map id (folder s));
  inv_sel : NoDup (map id (selectedTasks s));
  inv_drag : NoDup (map id (payloadOf (draggedTask s)));
  inv_cut : clipboardMode s = cut ->
            NoDup (map id (clipboard s)) /\
            forall x, In x (map id (clipboard s)) -> ~ inSomeBucket (tasks s) x
}.

(** A task card is rendered for every task of every weekday's array
    ([weekdays.map(day => tasks[day].map(task => <TaskCard .../>))]). *)
Definition rendered (s : State) (t : Task) : Prop :=
  exists day l, In day weekdays /\ Js.get (tasks s) day = Some l /\ In t l.

(** Which events the rendered page can deliver: cards exist for the tasks
    of the buckets, the three selection buttons and the paste buttons are
    [disabled] on an empty selection or clipboard, the modal exists while
    [isModalOpen && currentTask], a folder row carries its own id, and the
    drop zones are the seven day columns and the folder. *)
Definition enabled (op : Op) (s : State) : Prop :=
  match op with
  | OpSelect t _ => rendered s t
  | OpDragStart t => rendered s t
  | OpOpenEdit t => rendered s t
  | OpCopy => selectedTasks s <> []
  | OpCut => selectedTasks s <> []
  | OpAddToFolder => selectedTasks s <> []
  | OpPaste day => In day weekdays /\ clipboard s <> []
  | OpRemoveFromFolder i => exists t, In t (folder s) /\ id t = i
  | OpCloseModal => isModalOpen s = true /\ currentTask s <> None
  | OpSave => isModalOpen s = true /\ currentTask s <> None
  | OpFormChange name _ =>
      isModalOpen s = true /\ currentTask s <> None /\
      In name ["title"; "description"; "points"]
  | OpDayDrop day => In day weekdays
  | OpFolderDrop => True
  end.

Inductive reachable : State -> Prop :=
| reachable_init : reachable initialState
| reachable_step (s : State) (op : Op) (s' : State) :
    reachable s -> enabled op s -> run op s = Some s' -> reachable s'.

(** What a cut of the selection [sel] leaves in an array: the tasks whose id
    no selected task has. *)
Definition keptBy (sel : list Task) (x : Task) : bool :=
  forallb (fun t => otherId t x) sel.

(** Some bucket other than [target] holds a task with the id of [t]: under
    [uniqueBuckets], the drop on [target] moves exactly these tasks. *)
Definition ownedElsewhere (o : TasksState) (target : string) (t : Task) : bool :=
  existsb (fun e => negb (String.eqb (fst e) target) && Js.some (sameId t) (snd e)) o.

(** The object after one payload task found in [src] was dropped on another
    day [target]. *)
Definition movedTo (o : TasksState) (src target : string)
    (srcArr tgtArr : list Task) (t : Task) : TasksState :=
  let o1 := Js.set o src (filter (otherId t) srcArr) in
  if Js.some (sameId t) tgtArr then o1 else Js.set o1 target (tgtArr ++ [t]).

(** The task value [t] itself (same id, title, description and points) is
    in the array of [day]. *)
Definition hasTask (o : TasksState) (day : string) (t : Task) : Prop :=
  exists l, Js.get o day = Some l /\ In t l.

(** Deciding [enabled], to replay concrete event sequences. *)
Definition number_eqb (a b : number) : bool :=
  match a, b with
  | Num x, Num y => x =? y
  | PosInfinity, PosInfinity => true
  | NegInfinity, NegInfinity => true
  | NaN, NaN => true
  | _, _ => false
  end.

Definition task_eqb (a b : Task) : bool :=
  (id a =? id b) && String.eqb (title a) (title b)
  && String.eqb (description a) (description b)
  && number_eqb (points a) (points b).

Definition renderedb (s : State) (t : Task) : bool :=
  existsb (fun day => match Js.get (tasks s) day with
                      | Some l => existsb (task_eqb t) l
                      | None => false
                      end) weekdays.

Definition nonEmpty {A} (l : list A) : bool :=
  match l with [] => false | _ :: _ => true end.

Definition isSome {A} (x : option A) : bool :=
  match x with Some _ => true | None => false end.

Definition enabledb (op : Op) (s : State) : bool :=
  match op with
  | OpSelect t _ => renderedb s t
  | OpDragStart t => renderedb s t
  | OpOpenEdit t => renderedb s t
  | OpCopy => nonEmpty (selectedTasks s)
  | OpCut => nonEmpty (selectedTasks s)
  | OpAddToFolder => nonEmpty (selectedTasks s)
  | OpPaste day => existsb (String.eqb day) weekdays && nonEmpty (clipboard s)
  | OpRemoveFromFolder i => existsb (fun t => id t =? i) (folder s)
  | OpCloseModal => isModalOpen s && isSome (currentTask s)
  | OpSave => isModalOpen s && isSome (currentTask s)
  | OpFormChange name _ =>
      isModalOpen s && isSome (currentTask s)
      && existsb (String.eqb name) ["title"; "description"; "points"]
  | OpDayDrop day => existsb (String.eqb day) weekdays
  | OpFolderDrop => true
  end.

(** Replays a sequence of events, each of which the page must be able to
    deliver in the state it meets. *)
Fixpoint replay (ops : list Op) (s : State) : option State :=
  match ops with
  | [] => Some s
  | op :: rest =>
      if enabledb op s then s1 <- run op s ;; replay rest s1 else None
  end.

(** The move law of cut and paste, with the absence read literally: the
    task is gone from the bucket that held it before the cut. *)
Definition cutPasteMoveLaw (s : State) (B : string) : Prop :=
  exists s2,
    pasteTasksToDay B (cutSelectedTasks s) = Some s2 /\
    (forall t, In t (selectedTasks s) -> hasTask (tasks s2) B t) /\
    (forall t d, In t (selectedTasks s) -> inBucket (tasks s) d (id t) ->
                 ~ inBucket (tasks s2) d (id t)) /\
    clipboard s2 = [] /\ clipboardMode s2 = copy /\
    pasteTasksToDay B s2 = Some s2.

(** Three tasks of the seed data, for concrete event sequences. *)
Definition task1 : Task := mkTask 1 "Réunion d'équipe" "9h - Point hebdomadaire" 2.
Definition task2 : Task := mkTask 2 "Analyse des besoins" "Recueillir les besoins client" 5.
Definition task8 : Task := mkTask 8 "Déploiement" "Mise en production v1.2" 8.

(** [c] carries the title, description and points of [t]. *)
Definition sameContent (t c : Task) : Prop :=
  title c = title t /\ description c = description t /\ points c = points t.

(** One duplicate per task of [sel], in the same order. *)
Definition duplicatesOf (sel copies : list Task) : Prop :=
  Forall2 sameContent sel copies.

(** The events of the id-reuse scenario: task 8 is put in the folder and
    cut, then task 1 is copied, which replaces the clipboard. *)
Definition reuseEvents : list Op :=
  [OpSelect task8 false; OpAddToFolder; OpSelect task8 false; OpCut;
   OpSelect task1 false; OpCopy].

(** The events of the lost-task scenario: task 1 is cut, then task 2 is
    copied before any paste. *)
Definition lossEvents : list Op :=
  [OpSelect task1 false; OpCut; OpSelect task2 false; OpCopy].

(** Reading of "never destroyed": an id that was in a bucket of [s0] is, in
    [s], in a bucket or in the clipboard. *)
Definition conserved (s0 s : State) : Prop :=
  forall x, inSomeBucket (tasks s0) x ->
            inSomeBucket (tasks s) x \/ In x (map id (clipboard s)).

(** The task the form makes of id [i]. *)
Definition edited (fd : TaskFormData) (i : Z) : Task :=
  mkTask i (f_title fd) (f_description fd) (f_points fd).

(** Entry [t'] is what an edit of the task [cur] leaves of entry [t]: the
    id stays; the content is the form's if the id is the edited one, and
    the entry is untouched otherwise. *)
Definition editedEntry (cur : Task) (fd : TaskFormData) (t t' : Task) : Prop :=
  id t' = id t /\
  (id t = id cur -> t' = edited fd (id cur)) /\
  (id t <> id cur -> t' = t).

(** The same, position by position. *)
Definition editedList (cur : Task) (fd : TaskFormData) (l l' : list Task) : Prop :=
  Forall2 (editedEntry cur fd) l l'.

(** Every field but the selection is the same in both states. *)
Definition sameButSelection (s s' : State) : Prop :=
  tasks s' = tasks s /\ folder s' = folder s /\ draggedTask s' = draggedTask s /\
  clipboard s' = clipboard s /\ clipboardMode s' = clipboardMode s /\
  isModalOpen s' = isModalOpen s /\ currentTask s' = currentTask s /\
  formData s' = formData s.

(** The id [x] occurs somewhere in the state. *)
Definition idInState (s : State) (x : Z) : Prop :=
  inSomeBucket (tasks s) x \/ In x (map id (clipboard s)) \/
  In x (map id (selectedTasks s)) \/
  In x (map id (payloadOf (draggedTask s))) \/
  In x (map id (folder s)) \/
  (exists c, currentTask s = Some c /\ id c = x).

(** The states the page can get to from [s0]. *)
Inductive evolves (s0 : State) : State -> Prop :=
| evolves_refl : evolves s0 s0
| evolves_step (s : State) (op : Op) (s' : State) :
    evolves s0 s -> enabled op s -> run op s = Some s' -> evolves s0 s'.

(** Every id of the state is above [x], and the buckets are not all empty
    while there is a selection or a copy waiting in the clipboard. *)
Record Above (x : Z) (s : State) : Prop := mkAbove {
  above_keys : wfKeys (tasks s);
  above_ids : forall y, idInState s y -> x < y;
  above_sel : selectedTasks s <> [] -> exists y, inSomeBucket (tasks s) y;
  above_clip : clipboardMode s = copy -> clipboard s <> [] ->
               exists y, inSomeBucket (tasks s) y
}.

(** ** What the page computes for display *)

(** [arr.reduce((sum, task) => sum + task.points, 0)] *)
Definition pointsTotal (arr : list Task) : number :=
  fold_left (fun sum task => Js.plus sum (points task)) arr (Num 0).

(** The "Total: ... pts" line of a day column,
    [tasks[day].reduce((sum, task) => sum + task.points, 0)]. *)
Definition dayTotal (s : State) (day : string) : option number :=
  arr <- Js.get (tasks s) day ;; Some (pointsTotal arr).

(** The highlight of a card, [selectedTasks.some(t => t.id === task.id)]. *)
Definition isSelected (s : State) (task : Task) : bool :=
  Js.some (sameId task) (selectedTasks s).

(** The cards of the page, column after column:
    [weekdays.map(day => tasks[day].map(task => <TaskCard .../>))]. *)
Fixpoint cards (days : list string) (o : TasksState) : option (list Task) :=
  match days with
  | [] => Some []
  | day :: rest =>
      arr <- Js.get o day ;;
      cs <- cards rest o ;;
      Some (arr ++ cs)
  end.

(** A sequence of [onChange] events of the form, each a field name and the
    value typed. *)
Definition formChanges (chs : list (string * string)) (s : State) : State :=
  fold_left (fun st ch => handleFormChange (fst ch) (snd ch) st) chs s.

(** Every selected id is the id of a task of some bucket. *)
Definition selectionInBuckets (s : State) : Prop :=
  forall x, In x (map id (selectedTasks s)) -> inSomeBucket (tasks s) x.

(** The ids [n], [n + 1], ..., one per element of a list of length [k]. *)
Fixpoint idsFrom (n : Z) (k : nat) : list Z :=
  match k with
  | O => []
  | S k' => n :: idsFrom (n + 1) k'
  end.


(** The events that leave a stale selection entry: task 1 is dragged,
    edited to 21 points while the drag is pending, and dropped on "Mardi",
    which receives the record captured by the drag. *)
Definition staleEvents : list Op :=
  [OpDragStart task1; OpOpenEdit task1; OpFormChange "points" "21"; OpSave;
   OpDayDrop "Mardi"].

(** The events before the copy of the id-reuse scenario: task 8 is in the
    folder and in the clipboard (cut), task 1 is selected. *)
Definition folderEvents : list Op :=
  [OpSelect task8 false; OpAddToFolder; OpSelect task8 false; OpCut;
   OpSelect task1 false].

(** The duplication law of copy and paste, with "fresh" read as: the id of
    a duplicate is the id of nothing in the state before the copy. *)
Definition copyPasteLaw (s : State) (B : string) : Prop :=
  exists s2 s3 old new,
    pasteTasksToDay B (copySelectedTasks s) = Some s2 /\
    pasteTasksToDay B s2 = Some s3 /\
    Js.get (tasks s) B = Some old /\
    Js.get (tasks s3) B = Some (old ++ new) /\
    NoDup (map id new) /\
    (forall x, In x (map id new) -> ~ idInState s x) /\
    clipboard s3 <> [] /\ clipboardMode s3 = copy.

(** The id [x] is kept by the state: a bucket holds it, or the clipboard
    holds it for a move. *)
Definition held (s : State) (x : Z) : Prop :=
  inSomeBucket (tasks s) x \/
  (clipboardMode s = cut /\ In x (map id (clipboard s))).

(** A sequence of operations, run one after the other. *)
Fixpoint runAll (ops : list Op) (s : State) : option State :=
  match ops with
  | [] => Some s
  | op :: rest => s1 <- run op s ;; runAll rest s1
  end.

(** [op] replaces the contents of the clipboard: a copy or a cut of a
    non-empty selection. *)
Definition overwrites (op : Op) (s : State) : Prop :=
  (op = OpCopy \/ op = OpCut) /\ selectedTasks s <> [].

(** Along the run of [ops] from [s], the clipboard is never replaced while
    no bucket holds [x]. *)
Fixpoint spared (x : Z) (ops : list Op) (s : State) : Prop :=
  match ops with
  | [] => True
  | op :: rest =>
      ~ (overwrites op s /\ ~ inSomeBucket (tasks s) x) /\
      match run op s with
      | Some s1 => spared x rest s1
      | None => True
      end
  end.

(** [l'] is [l] without its entries of id [i], the other entries in their
    order. *)
Inductive withoutId (i : Z) : list Task -> list Task -> Prop :=
| withoutId_nil : withoutId i [] []
| withoutId_drop (a : Task) (l l' : list Task) :
    id a = i -> withoutId i l l' -> withoutId i (a :: l) l'
| withoutId_keep (a : Task) (l l' : list Task) :
    id a <> i -> withoutId i l l' -> withoutId i (a :: l) (a :: l').

(** Every field but the folder is the same in both states. *)
Definition sameButFolder (s s' : State) : Prop :=
  tasks s' = tasks s /\ draggedTask s' = draggedTask s /\
  selectedTasks s' = selectedTasks s /\
  clipboard s' = clipboard s /\ clipboardMode s' = clipboardMode s /\
  isModalOpen s' = isModalOpen s /\ currentTask s' = currentTask s /\
  formData s' = formData s.

(** The sum of the absolute values of the points of [arr], when they are
    all finite. *)
Fixpoint magnitude (arr : list Task) : option Z :=
  match arr with
  | [] => Some 0
  | task :: rest =>
      match points task, magnitude rest with
      | Num z, Some m => Some (Z.abs z + m)
      | _, _ => None
      end
  end.

(** The exact sum of the finite points of [arr]. *)
Fixpoint exactTotal (arr : list Task) : Z :=
  match arr with
  | [] => 0
  | task :: rest =>
      match points task with
      | Num z => z + exactTotal rest
      | _ => exactTotal rest
      end
  end.


(** ** Properties of objects and arrays *)

Section ObjectFacts.

Lemma get_set_eq (o : TasksState) (k : string) (v : list Task) :
  Js.get (Js.set o k v) k = Some v.
Proof.
  induction o as [|[k0 v0] o IH]; simpl.
  - now rewrite String.eqb_refl.
  - destruct (String.eqb k0 k) eqn:E; simpl; rewrite E; auto.
Qed.

Lemma get_set_ne (o : TasksState) (k k' : string) (v : list Task) :
  k <> k' -> Js.get (Js.set o k v) k' = Js.get o k'.
Proof.
  intros Hne. induction o as [|[k0 v0] o IH]; simpl.
  - destruct (String.eqb k k') eqn:E; auto.
    apply String.eqb_eq in E. contradiction.
  - destruct (String.eqb k0 k) eqn:E; simpl.
    + apply String.eqb_eq in E. subst k0.
      destruct (String.eqb k k') eqn:E'; auto.
      apply String.eqb_eq in E'. contradiction.
    + now rewrite IH.
Qed.

Lemma get_set (o : TasksState) (k k' : string) (v : list Task) :
  Js.get (Js.set o k v) k' = if String.eqb k k' then Some v else Js.get o k'.
Proof.
  destruct (String.eqb k k') eqn:E.
  - apply String.eqb_eq in E. subst. apply get_set_eq.
  - apply String.eqb_neq in E. now apply get_set_ne.
Qed.

Lemma get_Some_key (o : TasksState) (k : string) (l : list Task) :
  Js.get o k = Some l -> In k (Js.keys o).
Proof.
  induction o as [|[k0 v0] o IH]; simpl; [discriminate|].
  destruct (String.eqb k0 k) eqn:E.
  - apply String.eqb_eq in E. auto.
  - auto.
Qed.

Lemma key_get (o : TasksState) (k : string) :
  In k (Js.keys o) -> exists l, Js.get o k = Some l.
Proof.
  induction o as [|[k0 v0] o IH]; simpl; [tauto|].
  intros [->|H].
  - rewrite String.eqb_refl. eauto.
  - destruct (String.eqb k0 k); eauto.
Qed.

Lemma keys_set (o : TasksState) (k : string) (v : list Task) :
  In k (Js.keys o) -> Js.keys (Js.set o k v) = Js.keys o.
Proof.
  induction o as [|[k0 v0] o IH]; simpl; [tauto|].
  intros H. destruct (String.eqb k0 k) eqn:E; simpl; auto.
  f_equal. apply IH. destruct H as [->|H]; auto.
  now rewrite String.eqb_refl in E.
Qed.

Lemma get_In (o : TasksState) (k : string) (l : list Task) :
  Js.get o k = Some l -> In (k, l) o.
Proof.
  induction o as [|[k0 v0] o IH]; simpl; [discriminate|].
  destruct (String.eqb k0 k) eqn:E.
  - apply String.eqb_eq in E. intros [= ->]. subst. auto.
  - auto.
Qed.

Lemma In_get (o : TasksState) (k : string) (l : list Task) :
  NoDup (Js.keys o) -> In (k, l) o -> Js.get o k = Some l.
Proof.
  induction o as [|[k0 v0] o IH]; simpl; [tauto|].
  intros Hnd [H|H].
  - injection H as -> ->. now rewrite String.eqb_refl.
  - inversion Hnd as [|? ? Hnotin Hnd']; subst.
    destruct (String.eqb k0 k) eqn:E.
    + apply String.eqb_eq in E. subst k0. exfalso. apply Hnotin.
      change (In (fst (k, l)) (map fst o)). now apply in_map.
    + auto.
Qed.

Lemma findIndex_Some {A} (p : A -> bool) (l : list A) (i : nat) :
  Js.findIndex p l = Some i ->
  exists x, nth_error l i = Some x /\ p x = true /\
            forall j y, (j < i)%nat -> nth_error l j = Some y -> p y = false.
Proof.
  revert i. induction l as [|a l IH]; simpl; intros i; [discriminate|].
  destruct (p a) eqn:Pa.
  - intros [= <-]. exists a. repeat split; auto. intros j y Hj. lia.
  - destruct (Js.findIndex p l) as [i0|] eqn:F; [|discriminate].
    intros [= <-]. destruct (IH i0 eq_refl) as (x & Hx & Px & Hlt).
    exists x. repeat split; auto.
    intros [|j] y Hj; simpl.
    + now intros [= <-].
    + apply Hlt. lia.
Qed.

Lemma findIndex_None {A} (p : A -> bool) (l : list A) :
  Js.findIndex p l = None -> existsb p l = false.
Proof.
  induction l as [|a l IH]; simpl; auto.
  destruct (p a); [discriminate|].
  destruct (Js.findIndex p l); [discriminate|]. auto.
Qed.

Lemma setAt_nth {A} (l : list A) (i : nat) (x : A) (j : nat) :
  (i < List.length l)%nat ->
  nth_error (Js.setAt l i x) j = if Nat.eqb j i then Some x else nth_error l j.
Proof.
  revert i j. induction l as [|a l IH]; simpl; intros i j Hi; [lia|].
  destruct i as [|i]; destruct j as [|j]; simpl; auto.
  apply IH. lia.
Qed.

Lemma setAt_length {A} (l : list A) (i : nat) (x : A) :
  List.length (Js.setAt l i x) = List.length l.
Proof.
  revert i. induction l as [|a l IH]; simpl; intros [|i]; simpl; auto.
Qed.

Lemma setAt_map {A B} (f : A -> B) (l : list A) (i : nat) (x y : A) :
  nth_error l i = Some y -> f x = f y ->
  map f (Js.setAt l i x) = map f l.
Proof.
  revert i. induction l as [|a l IH]; simpl; intros [|i]; simpl; try discriminate.
  - intros [= ->] ->. reflexivity.
  - intros H1 H2. f_equal. now apply IH.
Qed.

Lemma max_ge_init (l : list Z) (x : Z) : x <= Js.max x l.
Proof.
  unfold Js.max. revert x. induction l as [|a l IH]; simpl; intros x; [lia|].
  specialize (IH (Z.max x a)). lia.
Qed.

Lemma max_ge_elem (l : list Z) (x y : Z) : In y l -> y <= Js.max x l.
Proof.
  unfold Js.max. revert x. induction l as [|a l IH]; simpl; intros x; [tauto|].
  intros [->|H].
  - pose proof (max_ge_init l (Z.max x y)) as M. unfold Js.max in M. lia.
  - now apply IH.
Qed.

End ObjectFacts.

(** ** Buckets: keys, membership and uniqueness *)

Section BucketFacts.

Lemma weekdays_NoDup : NoDup weekdays.
Proof.
  unfold weekdays.
  repeat (constructor; [simpl; intros H; repeat destruct H as [H|H]; try discriminate; auto|]).
  constructor.
Qed.

Lemma weekday_truthy (d : string) : In d weekdays -> Js.truthy d = true.
Proof.
  unfold weekdays. simpl. intros H.
  repeat destruct H as [H|H]; subst; try reflexivity. contradiction.
Qed.

Lemma wfKeys_NoDup (o : TasksState) : wfKeys o -> NoDup (Js.keys o).
Proof. unfold wfKeys. intros ->. apply weekdays_NoDup. Qed.

Lemma wfKeys_get (o : TasksState) (d : string) :
  wfKeys o -> In d weekdays -> exists l, Js.get o d = Some l.
Proof. unfold wfKeys. intros <- H. now apply key_get. Qed.

Lemma wfKeys_weekday (o : TasksState) (d : string) (l : list Task) :
  wfKeys o -> Js.get o d = Some l -> In d weekdays.
Proof. unfold wfKeys. intros <- H. eapply get_Some_key; eauto. Qed.

Lemma wfKeys_set (o : TasksState) (d : string) (v : list Task) :
  wfKeys o -> In d weekdays -> wfKeys (Js.set o d v).
Proof.
  unfold wfKeys. intros H Hd. rewrite keys_set; auto. now rewrite H.
Qed.

Lemma some_sameId (t : Task) (l : list Task) :
  Js.some (sameId t) l = true <-> In (id t) (map id l).
Proof.
  unfold Js.some, sameId. rewrite existsb_exists, in_map_iff.
  split; intros (x & H1 & H2).
  - exists x. split; auto. now apply Z.eqb_eq.
  - exists x. split; auto. now apply Z.eqb_eq.
Qed.

Lemma some_sameId_false (t : Task) (l : list Task) :
  Js.some (sameId t) l = false <-> ~ In (id t) (map id l).
Proof.
  rewrite <- some_sameId. destruct (Js.some (sameId t) l); split; intros; congruence.
Qed.

Lemma in_ids_filter (p : Task -> bool) (l : list Task) (x : Z) :
  In x (map id (filter p l)) -> In x (map id l).
Proof.
  rewrite !in_map_iff. intros (t & H1 & H2). apply filter_In in H2.
  exists t. tauto.
Qed.

Lemma NoDup_ids_filter (p : Task -> bool) (l : list Task) :
  NoDup (map id l) -> NoDup (map id (filter p l)).
Proof.
  induction l as [|a l IH]; simpl; intros H; [constructor|].
  inversion H as [|? ? Hn Hd]; subst.
  destruct (p a); simpl; auto.
  constructor; auto. intros Hin. apply Hn. eapply in_ids_filter; eauto.
Qed.

Lemma filter_otherId_absent (t : Task) (l : list Task) :
  ~ In (id t) (map id l) -> filter (otherId t) l = l.
Proof.
  induction l as [|a l IH]; simpl; intros H; auto.
  unfold otherId at 1.
  destruct (id a =? id t) eqn:E; simpl.
  - apply Z.eqb_eq in E. exfalso. apply H. auto.
  - f_equal. apply IH. tauto.
Qed.

Lemma in_ids_filter_otherId (t : Task) (l : list Task) (x : Z) :
  In x (map id (filter (otherId t) l)) <-> In x (map id l) /\ x <> id t.
Proof.
  rewrite !in_map_iff. split.
  - intros (a & H1 & H2). apply filter_In in H2. destruct H2 as [H2 H3].
    unfold otherId in H3. apply negb_true_iff, Z.eqb_neq in H3.
    split; [exists a; auto | congruence].
  - intros [(a & H1 & H2) Hne]. exists a. split; auto.
    apply filter_In. split; auto. unfold otherId.
    apply negb_true_iff, Z.eqb_neq. congruence.
Qed.

Lemma inBucket_set (o : TasksState) (d d' : string) (v : list Task) (x : Z) :
  inBucket (Js.set o d v) d' x <->
  (d = d' /\ In x (map id v)) \/ (d <> d' /\ inBucket o d' x).
Proof.
  unfold inBucket. rewrite get_set.
  destruct (String.eqb d d') eqn:E.
  - apply String.eqb_eq in E. subst. split.
    + intros (l & [= <-] & H). auto.
    + intros [[_ H]|[H _]]; [eauto | congruence].
  - apply String.eqb_neq in E. split.
    + intros H. auto.
    + intros [[H _]|[_ H]]; [congruence | auto].
Qed.

Lemma uniqueBuckets_set (o : TasksState) (d : string) (v : list Task) :
  uniqueBuckets o ->
  NoDup (map id v) ->
  (forall x d', In x (map id v) -> d' <> d -> ~ inBucket o d' x) ->
  uniqueBuckets (Js.set o d v).
Proof.
  intros [U1 U2] Hv Hfresh. split.
  - intros day l. rewrite get_set.
    destruct (String.eqb d day); [intros [= <-]; auto | apply U1].
  - intros d1 d2 x H1 H2.
    apply inBucket_set in H1. apply inBucket_set in H2.
    destruct H1 as [[<- H1]|[N1 H1]]; destruct H2 as [[<- H2]|[N2 H2]]; auto.
    + exfalso. eapply Hfresh; eauto.
    + exfalso. eapply Hfresh; eauto.
    + eapply U2; eauto.
Qed.

(** A handler that only filters arrays keeps the buckets unique. *)
Lemma uniqueBuckets_filtered (p : Task -> bool) (o o' : TasksState) :
  wfKeys o -> wfKeys o' ->
  (forall d l, Js.get o d = Some l -> Js.get o' d = Some (filter p l)) ->
  uniqueBuckets o -> uniqueBuckets o'.
Proof.
  intros K K' Hf [U1 U2].
  assert (back : forall d l', Js.get o' d = Some l' ->
                 exists l, Js.get o d = Some l /\ l' = filter p l).
  { intros d l' H. destruct (wfKeys_get o d K (wfKeys_weekday _ _ _ K' H)) as [l Hl].
    exists l. split; auto. rewrite (Hf _ _ Hl) in H. congruence. }
  split.
  - intros day l' H. destruct (back _ _ H) as (l & Hl & ->).
    apply NoDup_ids_filter. eauto.
  - intros d1 d2 x (l1 & G1 & I1) (l2 & G2 & I2).
    destruct (back _ _ G1) as (m1 & M1 & ->).
    destruct (back _ _ G2) as (m2 & M2 & ->).
    apply (U2 d1 d2 x); [exists m1 | exists m2]; split; auto;
      eapply in_ids_filter; eauto.
Qed.

Lemma cutOne_source (o : TasksState) (t : Task) (src : string) :
  find (holdsId o t) (Js.keys o) = Some src ->
  exists arr, Js.get o src = Some arr /\ In (id t) (map id arr).
Proof.
  intros F. apply find_some in F. destruct F as [_ H]. unfold holdsId in H.
  destruct (Js.get o src) as [arr|]; [|discriminate].
  exists arr. split; auto. now apply some_sameId.
Qed.

(** [cutOne] seen through the properties of the object. *)
Lemma cutOne_get (o : TasksState) (t : Task) (d : string) (l : list Task) :
  wfKeys o -> uniqueBuckets o -> Js.get o d = Some l ->
  Js.get (cutOne o t) d = Some (filter (otherId t) l).
Proof.
  intros K [U1 U2] G. unfold cutOne.
  destruct (find _ (Js.keys o)) as [src|] eqn:F.
  - destruct (cutOne_source o t src F) as (arr & Gsrc & Hin).
    rewrite (weekday_truthy src (wfKeys_weekday _ _ _ K Gsrc)), Gsrc.
    rewrite get_set. destruct (String.eqb src d) eqn:E.
    + apply String.eqb_eq in E. subst. congruence.
    + apply String.eqb_neq in E. rewrite G. f_equal. symmetry.
      apply filter_otherId_absent. intros Hin'. apply E.
      apply (U2 src d (id t)); [exists arr | exists l]; split; auto.
  - rewrite G. f_equal. symmetry. apply filter_otherId_absent.
    intros Hin. pose proof (find_none _ _ F d (get_Some_key _ _ _ G)) as N.
    unfold holdsId in N. rewrite G in N.
    apply some_sameId_false in N. contradiction.
Qed.

Lemma cutOne_keys (o : TasksState) (t : Task) : wfKeys o -> wfKeys (cutOne o t).
Proof.
  intros K. unfold cutOne.
  destruct (find _ (Js.keys o)) as [src|] eqn:F; auto.
  destruct (cutOne_source o t src F) as (arr & Gsrc & _).
  rewrite Gsrc. destruct (Js.truthy src); auto.
  apply wfKeys_set; auto. eapply wfKeys_weekday; eauto.
Qed.

Lemma cutAll_spec (sel : list Task) (o : TasksState) :
  wfKeys o -> uniqueBuckets o ->
  wfKeys (fold_left cutOne sel o) /\
  uniqueBuckets (fold_left cutOne sel o) /\
  forall d l, Js.get o d = Some l ->
    Js.get (fold_left cutOne sel o) d = Some (filter (keptBy sel) l).
Proof.
  revert o. induction sel as [|t sel IH]; simpl; intros o K U.
  - repeat split; auto; try apply U.
    intros d l G. rewrite G. f_equal. unfold keptBy. simpl.
    clear. induction l; simpl; congruence.
  - assert (K1 := cutOne_keys o t K).
    assert (U1 : uniqueBuckets (cutOne o t)).
    { apply (uniqueBuckets_filtered (otherId t) o); auto.
      intros d l G. now apply cutOne_get. }
    destruct (IH _ K1 U1) as (K2 & U2 & G2). repeat split; auto; try apply U2.
    intros d l G. rewrite (G2 d _ (cutOne_get o t d l K U G)). f_equal.
    clear. induction l as [|a l IHl]; [reflexivity|].
    cbn [filter]. change (keptBy (t :: sel) a) with (otherId t a && keptBy sel a).
    destruct (otherId t a); cbn [filter andb]; rewrite IHl; reflexivity.
Qed.

Lemma keptBy_true (sel : list Task) (x : Task) :
  keptBy sel x = true <-> ~ In (id x) (map id sel).
Proof.
  unfold keptBy. rewrite forallb_forall, in_map_iff. split.
  - intros H (t & E & Hin). specialize (H t Hin). unfold otherId in H.
    apply negb_true_iff, Z.eqb_neq in H. congruence.
  - intros H t Hin. unfold otherId. apply negb_true_iff, Z.eqb_neq.
    intros E. apply H. exists t. split; auto.
Qed.

End BucketFacts.

(** ** Dropping on a day: [moveOne] and [moveAll] *)

Section DropFacts.

Variable target : string.
Hypothesis target_day : In target weekdays.

Lemma findSourceDay_spec (days : list string) (o : TasksState) (t : Task) :
  wfKeys o -> incl days weekdays ->
  exists r, findSourceDay days o t = Some r /\
    match r with
    | Some d => In d days /\ inBucket o d (id t)
    | None => forall d, In d days -> ~ inBucket o d (id t)
    end.
Proof.
  intros K. induction days as [|day days IH]; simpl; intros Hincl.
  - exists None. split; auto.
  - destruct (wfKeys_get o day K (Hincl day (or_introl eq_refl))) as [arr G].
    rewrite G. destruct (Js.some (sameId t) arr) eqn:S.
    + exists (Some day). split; auto. split; auto.
      exists arr. split; auto. now apply some_sameId.
    + destruct IH as (r & Hr & Hspec).
      { intros d Hd. apply Hincl. now right. }
      exists r. split; auto. destruct r as [d|].
      * destruct Hspec. split; auto.
      * intros d [<-|Hd]; [|now apply Hspec].
        intros (l & G' & Hin). rewrite G in G'. injection G' as <-.
        apply some_sameId_false in S. contradiction.
Qed.

(** The two outcomes of the loop body. *)
Lemma moveOne_cases (o : TasksState) (c : bool) (t : Task) :
  wfKeys o ->
  (moveOne target (o, c) t = Some (o, c) /\
   (findSourceDay weekdays o t = Some (Some target) \/
    (findSourceDay weekdays o t = Some None /\
     forall d, In d weekdays -> ~ inBucket o d (id t))))
  \/
  (exists src srcArr tgtArr,
     findSourceDay weekdays o t = Some (Some src) /\
     src <> target /\ In src weekdays /\
     Js.get o src = Some srcArr /\ In (id t) (map id srcArr) /\
     Js.get o target = Some tgtArr /\
     moveOne target (o, c) t = Some (movedTo o src target srcArr tgtArr t, true)).
Proof.
  intros K.
  destruct (findSourceDay_spec weekdays o t K (incl_refl _)) as (r & Hr & Hspec).
  unfold moveOne. rewrite Hr. destruct r as [src|].
  - destruct Hspec as [Hsrc (srcArr & G & Hin)].
    rewrite (weekday_truthy src Hsrc). simpl.
    destruct (String.eqb src target) eqn:E; simpl.
    + apply String.eqb_eq in E. subst. left. auto.
    + apply String.eqb_neq in E. right.
      destruct (wfKeys_get o target K target_day) as [tgtArr Gt].
      exists src, srcArr, tgtArr. repeat split; auto.
      rewrite G. rewrite get_set_ne by auto. rewrite Gt.
      unfold movedTo. destruct (Js.some (sameId t) tgtArr); reflexivity.
  - left. auto.
Qed.

Lemma movedTo_keys (o : TasksState) (src : string) (srcArr tgtArr : list Task) (t : Task) :
  wfKeys o -> In src weekdays -> wfKeys (movedTo o src target srcArr tgtArr t).
Proof.
  intros K Hs. unfold movedTo.
  destruct (Js.some (sameId t) tgtArr); repeat apply wfKeys_set; auto.
Qed.

Lemma moveOne_keys (o o' : TasksState) (c c' : bool) (t : Task) :
  wfKeys o -> moveOne target (o, c) t = Some (o', c') -> wfKeys o'.
Proof.
  intros K H. destruct (moveOne_cases o c t K) as [[E _]|(src & sa & ta & _ & _ & Hs & _ & _ & _ & E)];
    rewrite E in H; injection H as <- <-; auto.
  now apply movedTo_keys.
Qed.

(** A drop moves ids between buckets; it neither adds nor loses one. *)
Lemma movedTo_ids (o : TasksState) (src : string) (srcArr tgtArr : list Task)
    (t : Task) (x : Z) :
  src <> target ->
  Js.get o src = Some srcArr -> In (id t) (map id srcArr) ->
  Js.get o target = Some tgtArr ->
  inSomeBucket (movedTo o src target srcArr tgtArr t) x <-> inSomeBucket o x.
Proof.
  intros Hne Gs Hin Gt. unfold movedTo, inSomeBucket.
  destruct (Z.eq_dec x (id t)) as [->|Hx].
  - split; intros _.
    + exists src, srcArr. auto.
    + exists target. destruct (Js.some (sameId t) tgtArr) eqn:S.
      * apply inBucket_set. right. split; auto.
        exists tgtArr. split; auto. now apply some_sameId.
      * apply inBucket_set. left. split; auto.
        rewrite map_app, in_app_iff. right. simpl. auto.
  - assert (step1 : forall d, inBucket (Js.set o src (filter (otherId t) srcArr)) d x
                              <-> inBucket o d x).
    { intros d. rewrite inBucket_set. split.
      - intros [[<- H]|[_ H]]; auto.
        exists srcArr. split; auto. now apply in_ids_filter_otherId in H.
      - intros H. destruct (string_dec src d) as [<-|N]; [left|right]; split; auto.
        destruct H as (l & G & Hl). rewrite Gs in G. injection G as <-.
        apply in_ids_filter_otherId. auto. }
    destruct (Js.some (sameId t) tgtArr).
    + split; intros [d H]; exists d; now apply step1.
    + split; intros [d H]; exists d.
      * apply inBucket_set in H. destruct H as [[<- H]|[_ H]].
        -- rewrite map_app, in_app_iff in H. simpl in H.
           destruct H as [H|[H|[]]]; [|congruence].
           exists tgtArr. auto.
        -- now apply step1.
      * apply inBucket_set. destruct (string_dec target d) as [<-|N]; [left|right].
        -- split; auto. destruct H as (l & G & Hl).
           rewrite Gt in G. injection G as <-.
           rewrite map_app, in_app_iff. auto.
        -- split; auto. now apply step1.
Qed.

Lemma moveOne_ids (o o' : TasksState) (c c' : bool) (t : Task) (x : Z) :
  wfKeys o -> moveOne target (o, c) t = Some (o', c') ->
  inSomeBucket o' x <-> inSomeBucket o x.
Proof.
  intros K H.
  destruct (moveOne_cases o c t K)
    as [[E _]|(src & sa & ta & _ & Hne & Hs & Gs & Hin & Gt & E)];
    rewrite E in H; injection H as <- <-; [tauto|].
  now apply movedTo_ids.
Qed.

Lemma moveAll_total (P : list Task) (o : TasksState) (c : bool) :
  wfKeys o ->
  exists o' c', moveAll target (o, c) P = Some (o', c') /\ wfKeys o' /\
    (c' = false -> o' = o) /\
    (forall x, inSomeBucket o' x <-> inSomeBucket o x).
Proof.
  revert o c. induction P as [|t P IH]; cbn [moveAll]; intros o c K.
  - exists o, c. repeat split; auto.
  - assert (exists o1 c1, moveOne target (o, c) t = Some (o1, c1) /\
                          (c1 = false -> o1 = o) /\ (c1 = true \/ c1 = c)) as (o1 & c1 & E & Hc & Hc').
    { destruct (moveOne_cases o c t K) as [[E _]|(src & sa & ta & _ & _ & _ & _ & _ & _ & E)].
      - exists o, c. auto.
      - eexists _, true. split; [exact E|]. split; [discriminate|auto]. }
    rewrite E.
    pose proof (moveOne_keys _ _ _ _ _ K E) as K1.
    destruct (IH o1 c1 K1) as (o' & c' & E' & K' & Hf & Hids).
    exists o', c'. repeat split; auto.
    + intros F. rewrite (Hf F).
      destruct (moveOne_cases o c t K) as [[E2 _]|(src & sa & ta & _ & _ & _ & _ & _ & _ & E2)];
        rewrite E2 in E; injection E as <- <-; auto.
      (* the flag was set by this task, so it cannot be false at the end *)
      exfalso. clear - E' F target_day.
      assert (G : forall P o c o' c', moveAll target (o, c) P = Some (o', c') ->
                  c = true -> c' = true).
      { clear. induction P as [|t P IH]; cbn [moveAll]; intros o c o' c' H Hc.
        - injection H as <- <-. auto.
        - destruct (moveOne target (o, c) t) as [[o1 c1]|] eqn:E; [|discriminate].
          apply (IH _ _ _ _ H). subst c. unfold moveOne in E.
          destruct (findSourceDay weekdays o t) as [[src|]|]; try discriminate.
          + destruct (Js.truthy src && negb (String.eqb src target)).
            * destruct (Js.get o src); [|discriminate].
              destruct (Js.get _ target); [|discriminate].
              destruct (negb _); injection E as <- <-; auto.
            * injection E as <- <-; auto.
          + injection E as <- <-; auto. }
      specialize (G _ _ _ _ _ E' eq_refl). congruence.
    + intros H. apply (moveOne_ids _ _ _ _ _ x K E). now apply Hids.
    + intros H. apply Hids. now apply (moveOne_ids _ _ _ _ _ x K E).
Qed.

Lemma ownedElsewhere_true (o : TasksState) (t : Task) :
  NoDup (Js.keys o) ->
  ownedElsewhere o target t = true <->
  exists d, d <> target /\ inBucket o d (id t).
Proof.
  intros Hnd. unfold ownedElsewhere. rewrite existsb_exists. split.
  - intros ([d l] & Hin & H). simpl in H. apply andb_true_iff in H.
    destruct H as [H1 H2]. apply negb_true_iff, String.eqb_neq in H1.
    exists d. split; auto. exists l. split; [now apply In_get|now apply some_sameId].
  - intros (d & Hne & l & G & Hin). exists (d, l). split; [now apply get_In|].
    simpl. apply andb_true_iff. split.
    + now apply negb_true_iff, String.eqb_neq.
    + now apply some_sameId.
Qed.

Lemma ownedElsewhere_false (o : TasksState) (t : Task) :
  NoDup (Js.keys o) ->
  ownedElsewhere o target t = false <->
  forall d, d <> target -> ~ inBucket o d (id t).
Proof.
  intros Hnd. pose proof (ownedElsewhere_true o t Hnd) as H.
  destruct (ownedElsewhere o target t); split; intros H1.
  - discriminate.
  - destruct (proj1 H eq_refl) as (d & Hne & Hin). exfalso. eapply H1; eauto.
  - intros d Hne Hin. assert (false = true) by (apply H; eauto). discriminate.
  - reflexivity.
Qed.

Lemma movedTo_unique (o : TasksState) (src : string) (srcArr tgtArr : list Task)
    (t : Task) :
  wfKeys o -> uniqueBuckets o -> src <> target ->
  Js.get o src = Some srcArr -> In (id t) (map id srcArr) ->
  Js.get o target = Some tgtArr ->
  uniqueBuckets (movedTo o src target srcArr tgtArr t) /\
  forall k l, Js.get o k = Some l ->
    Js.get (movedTo o src target srcArr tgtArr t) k =
    Some (if String.eqb k target then l ++ [t] else filter (otherId t) l).
Proof.
  intros K U Hne Gs Hin Gt.
  assert (Hsrc : inBucket o src (id t)) by (exists srcArr; auto).
  assert (Hnot : ~ In (id t) (map id tgtArr)).
  { intros H. apply Hne. apply (proj2 U src target (id t)); auto.
    exists tgtArr. auto. }
  unfold movedTo. rewrite (proj2 (some_sameId_false t tgtArr) Hnot).
  set (o1 := Js.set o src (filter (otherId t) srcArr)).
  assert (U1 : uniqueBuckets o1).
  { apply uniqueBuckets_set; auto.
    - apply NoDup_ids_filter. apply (proj1 U src). auto.
    - intros x d' Hx Hd' Hb. apply Hd'. apply (proj2 U d' src x); auto.
      exists srcArr. split; auto. eapply in_ids_filter; eauto. }
  assert (G1 : Js.get o1 target = Some tgtArr).
  { unfold o1. rewrite get_set_ne; auto. }
  split.
  - apply uniqueBuckets_set; auto.
    + rewrite map_app. simpl. apply NoDup_app. repeat split.
      * apply (proj1 U target). auto.
      * repeat constructor. simpl. tauto.
      * intros x Hx [<-|[]]. contradiction.
    + intros x d' Hx Hd' Hb. rewrite map_app, in_app_iff in Hx. simpl in Hx.
      destruct Hx as [Hx|[<-|[]]].
      * apply Hd'. apply (proj2 U1 d' target x); auto. exists tgtArr. auto.
      * unfold o1 in Hb. apply inBucket_set in Hb.
        destruct Hb as [[<- Hb]|[N Hb]].
        -- apply in_ids_filter_otherId in Hb. tauto.
        -- apply N. apply (proj2 U src d' (id t)); auto.
  - intros k l G. rewrite get_set. rewrite String.eqb_sym.
    destruct (String.eqb k target) eqn:E.
    + apply String.eqb_eq in E. subst. congruence.
    + unfold o1. rewrite get_set. destruct (String.eqb src k) eqn:E2.
      * apply String.eqb_eq in E2. subst. congruence.
      * rewrite G. f_equal. symmetry. apply filter_otherId_absent.
        intros H. apply String.eqb_neq in E2. apply E2.
        apply (proj2 U src k (id t)); auto. exists l. auto.
Qed.

Lemma moveOne_unique (o : TasksState) (c : bool) (t : Task) :
  wfKeys o -> uniqueBuckets o ->
  exists o' c', moveOne target (o, c) t = Some (o', c') /\
    wfKeys o' /\ uniqueBuckets o' /\
    forall k l, Js.get o k = Some l ->
      Js.get o' k =
      Some (if String.eqb k target
            then (if ownedElsewhere o target t then l ++ [t] else l)
            else filter (otherId t) l).
Proof.
  intros K U. pose proof (wfKeys_NoDup o K) as Hnd.
  destruct (moveOne_cases o c t K)
    as [[E Hstay]|(src & sa & ta & _ & Hne & Hs & Gs & Hin & Gt & E)].
  - exists o, c. repeat split; auto; try apply U.
    assert (Hown : forall d, inBucket o d (id t) -> d = target).
    { intros d Hd. destruct Hstay as [F|[_ F]].
      - destruct (findSourceDay_spec weekdays o t K (incl_refl _)) as (r & Hr & Hspec).
        rewrite F in Hr. injection Hr as <-. destruct Hspec as [_ Ht].
        apply (proj2 U d target (id t)); auto.
      - exfalso. apply (F d); auto. destruct Hd as (l & G & _).
        eapply wfKeys_weekday; eauto. }
    assert (Hoe : ownedElsewhere o target t = false).
    { apply ownedElsewhere_false; [exact Hnd|]. intros d Hne Hd. apply Hne. auto. }
    intros k l G. rewrite Hoe, G. f_equal.
    destruct (String.eqb k target) eqn:E2; auto.
    symmetry. apply filter_otherId_absent. intros H.
    apply String.eqb_neq in E2. apply E2. apply Hown. exists l. auto.
  - exists (movedTo o src target sa ta t), true.
    destruct (movedTo_unique o src sa ta t K U Hne Gs Hin Gt) as [U' G'].
    repeat split; auto; try apply U'.
    + now apply movedTo_keys.
    + assert (Hoe : ownedElsewhere o target t = true).
      { apply ownedElsewhere_true; auto. exists src. split; auto. exists sa. auto. }
      rewrite Hoe. exact G'.
Qed.

Lemma moveAll_unique (P : list Task) (o : TasksState) (c : bool) :
  wfKeys o -> uniqueBuckets o ->
  exists o' c', moveAll target (o, c) P = Some (o', c') /\ uniqueBuckets o'.
Proof.
  revert o c. induction P as [|t P IH]; cbn [moveAll]; intros o c K U.
  - eauto.
  - destruct (moveOne_unique o c t K U) as (o1 & c1 & E & K1 & U1 & _).
    rewrite E. apply IH; auto.
Qed.

Lemma moveAll_get (P : list Task) (o : TasksState) (c : bool) :
  NoDup (map id P) -> wfKeys o -> uniqueBuckets o ->
  exists o' c', moveAll target (o, c) P = Some (o', c') /\
    forall k l, Js.get o k = Some l ->
      Js.get o' k =
      Some (if String.eqb k target
            then l ++ filter (ownedElsewhere o target) P
            else filter (keptBy P) l).
Proof.
  revert o c. induction P as [|t P IH]; cbn [moveAll]; intros o c Hnd K U.
  - exists o, c. split; auto. intros k l G. rewrite G. f_equal.
    destruct (String.eqb k target); simpl; [now rewrite app_nil_r|].
    clear. induction l; simpl; congruence.
  - simpl in Hnd. inversion Hnd as [|? ? Hnotin Hnd']; subst.
    destruct (moveOne_unique o c t K U) as (o1 & c1 & E & K1 & U1 & G1).
    rewrite E. destruct (IH o1 c1 Hnd' K1 U1) as (o' & c' & E' & G').
    exists o', c'. split; auto. intros k l G.
    rewrite (G' k _ (G1 k l G)). f_equal.
    destruct (String.eqb k target) eqn:Ek.
    + assert (Hsame : filter (ownedElsewhere o1 target) P
                      = filter (ownedElsewhere o target) P).
      { apply filter_ext_in. intros t' Ht'.
        assert (Hne : id t' <> id t).
        { intros Heq. apply Hnotin. rewrite <- Heq. now apply in_map. }
        apply eq_true_iff_eq.
        rewrite (ownedElsewhere_true o1 t' (wfKeys_NoDup _ K1)).
        rewrite (ownedElsewhere_true o t' (wfKeys_NoDup _ K)).
        split; intros (d & Hd & (l' & Gd & Hin)); exists d; split; auto.
        - destruct (wfKeys_get o d K (wfKeys_weekday _ _ _ K1 Gd)) as [l0 G0].
          rewrite (G1 d l0 G0) in Gd.
          apply String.eqb_neq in Hd. rewrite Hd in Gd. injection Gd as <-.
          exists l0. split; auto. eapply in_ids_filter; eauto.
        - exists (filter (otherId t) l'). split.
          + rewrite (G1 d l' Gd). apply String.eqb_neq in Hd. now rewrite Hd.
          + apply in_ids_filter_otherId. auto. }
      rewrite Hsame. cbn [filter].
      destruct (ownedElsewhere o target t); [|reflexivity].
      rewrite <- app_assoc. reflexivity.
    + clear. induction l as [|a l IHl]; [reflexivity|].
      cbn [filter]. change (keptBy (t :: P) a) with (otherId t a && keptBy P a).
      destruct (otherId t a); cbn [filter andb]; rewrite IHl; reflexivity.
Qed.

End DropFacts.

(** ** Saving an edit: [saveLoop] *)

Section SaveFacts.

Variables (cur : Task) (fd : TaskFormData).

Lemma editOf_id (t : Task) : id (editOf cur fd t) = id t.
Proof. unfold editOf. destruct (id t =? id cur); reflexivity. Qed.

Lemma map_id_editOf (l : list Task) : map id (map (editOf cur fd) l) = map id l.
Proof. rewrite map_map. apply map_ext. apply editOf_id. Qed.

Lemma map_editOf_absent (l : list Task) :
  ~ In (id cur) (map id l) -> map (editOf cur fd) l = l.
Proof.
  induction l as [|a l IH]; simpl; intros H; auto.
  unfold editOf at 1. destruct (id a =? id cur) eqn:E.
  - apply Z.eqb_eq in E. exfalso. apply H. auto.
  - f_equal. apply IH. tauto.
Qed.

Lemma setAt_editOf (arr : list Task) (i : nat) (old : Task) :
  NoDup (map id arr) ->
  Js.findIndex (sameId cur) arr = Some i -> nth_error arr i = Some old ->
  Js.setAt arr i (applyForm fd old) = map (editOf cur fd) arr.
Proof.
  revert i. induction arr as [|a arr IH]; simpl; intros i Hnd F N; [discriminate|].
  inversion Hnd as [|? ? Hnotin Hnd']; subst.
  unfold sameId at 1 in F. unfold editOf at 1.
  destruct (id a =? id cur) eqn:E.
  - injection F as <-. simpl in N. injection N as <-. simpl. f_equal.
    symmetry. apply map_editOf_absent. apply Z.eqb_eq in E. congruence.
  - destruct (Js.findIndex (sameId cur) arr) as [i0|] eqn:F0; [|discriminate].
    injection F as <-. simpl in N. simpl. f_equal. now apply IH.
Qed.

Lemma saveLoop_spec (days : list string) (o : TasksState) :
  wfKeys o -> incl days weekdays ->
  (saveLoop days o cur fd = Some o /\
   forall d, In d days -> ~ inBucket o d (id cur))
  \/
  (exists d arr i old,
     In d days /\ Js.get o d = Some arr /\
     Js.findIndex (sameId cur) arr = Some i /\ nth_error arr i = Some old /\
     id old = id cur /\
     saveLoop days o cur fd = Some (Js.set o d (Js.setAt arr i (applyForm fd old)))).
Proof.
  intros K. induction days as [|day days IH]; simpl; intros Hincl.
  - left. split; auto.
  - destruct (wfKeys_get o day K (Hincl day (or_introl eq_refl))) as [arr G].
    rewrite G. destruct (Js.findIndex (sameId cur) arr) as [i|] eqn:F.
    + destruct (findIndex_Some _ _ _ F) as (old & N & P & _).
      rewrite N. right. exists day, arr, i, old. repeat split; auto.
      unfold sameId in P. now apply Z.eqb_eq in P.
    + destruct IH as [[E H]|(d & arr' & i & old & Hd & G' & F' & N & I & E)].
      { intros d Hd. apply Hincl. now right. }
      * left. split; auto. intros d [<-|Hd]; [|now apply H].
        intros (l & G' & Hin). rewrite G in G'. injection G' as <-.
        apply findIndex_None in F. apply some_sameId_false in F. contradiction.
      * right. exists d, arr', i, old. repeat split; auto.
Qed.

(** Without any assumption on ids: the loop ends, keeps the properties of
    the object and keeps the ids of every array in place. *)
Lemma saveLoop_total (o : TasksState) :
  wfKeys o ->
  exists o', saveLoop weekdays o cur fd = Some o' /\ wfKeys o' /\
    forall k l, Js.get o k = Some l ->
      exists l', Js.get o' k = Some l' /\ map id l' = map id l.
Proof.
  intros K.
  destruct (saveLoop_spec weekdays o K (incl_refl _))
    as [[E _]|(d & arr & i & old & Hd & G & F & N & I & E)].
  - exists o. repeat split; eauto.
  - eexists. split; [exact E|]. split; [now apply wfKeys_set|].
    intros k l Gk. rewrite get_set. destruct (String.eqb d k) eqn:Ek.
    + apply String.eqb_eq in Ek. subst k. rewrite G in Gk. injection Gk as <-.
      eexists. split; [reflexivity|]. now apply setAt_map with (y := old).
    + eauto.
Qed.

(** With unique buckets the loop is [editOf] applied to every entry. *)
Lemma saveLoop_unique (o : TasksState) :
  wfKeys o -> uniqueBuckets o ->
  exists o', saveLoop weekdays o cur fd = Some o' /\ wfKeys o' /\
    forall k l, Js.get o k = Some l -> Js.get o' k = Some (map (editOf cur fd) l).
Proof.
  intros K U.
  destruct (saveLoop_spec weekdays o K (incl_refl _))
    as [[E H]|(d & arr & i & old & Hd & G & F & N & I & E)].
  - exists o. repeat split; auto. intros k l Gk. rewrite Gk. f_equal. symmetry.
    apply map_editOf_absent. intros Hin.
    apply (H k); [eapply wfKeys_weekday; eauto|]. exists l. auto.
  - eexists. split; [exact E|]. split; [now apply wfKeys_set|].
    intros k l Gk. rewrite get_set. destruct (String.eqb d k) eqn:Ek.
    + apply String.eqb_eq in Ek. subst k. rewrite G in Gk. injection Gk as <-.
      f_equal. apply setAt_editOf; auto. apply (proj1 U d). auto.
    + rewrite Gk. f_equal. symmetry. apply map_editOf_absent. intros Hin.
      apply String.eqb_neq in Ek. apply Ek.
      apply (proj2 U d k (id cur)); [exists arr | exists l]; split; auto.
      rewrite <- I. apply nth_error_In in N. now apply in_map.
Qed.

End SaveFacts.

(** ** Pasting: fresh ids *)

Section PasteFacts.

Lemma allTaskIds_in (o : TasksState) (x : Z) :
  In x (allTaskIds o) <-> exists k l, In (k, l) o /\ In x (map id l).
Proof.
  unfold allTaskIds, Js.values. induction o as [|[k l] o IH]; simpl.
  - split; [tauto|]. intros (? & ? & [] & _).
  - rewrite map_app, in_app_iff, IH. split.
    + intros [H|(k' & l' & H1 & H2)]; [exists k, l; auto | exists k', l'; auto].
    + intros (k' & l' & [H1|H1] & H2).
      * injection H1 as <- <-. auto.
      * right. eauto.
Qed.

Lemma inSomeBucket_allTaskIds (o : TasksState) (x : Z) :
  inSomeBucket o x -> In x (allTaskIds o).
Proof.
  intros (d & l & G & Hin). apply allTaskIds_in. exists d, l.
  split; auto. now apply get_In.
Qed.

Lemma allTaskIds_inSomeBucket (o : TasksState) (y : Z) :
  NoDup (Js.keys o) -> In y (allTaskIds o) -> inSomeBucket o y.
Proof.
  intros Hnd H. apply allTaskIds_in in H. destruct H as (k & l & Hin & Hy).
  exists k, l. split; auto. now apply In_get.
Qed.

Lemma nextId_gt (o : TasksState) (x : Z) : In x (allTaskIds o) -> x < nextId o.
Proof.
  unfold nextId. destruct (allTaskIds o) as [|y rest]; simpl; [tauto|].
  intros [<-|H].
  - pose proof (max_ge_init rest y). lia.
  - pose proof (max_ge_elem rest y x H). lia.
Qed.

Lemma taskCopies_ids_range (clip : list Task) (n x : Z) :
  In x (map id (taskCopies n clip)) -> n <= x < n + Z.of_nat (List.length clip).
Proof.
  revert n. induction clip as [|t clip IH]; simpl; intros n; [tauto|].
  intros [<-|H]; [lia|]. apply IH in H. lia.
Qed.

Lemma taskCopies_ids_NoDup (clip : list Task) (n : Z) :
  NoDup (map id (taskCopies n clip)).
Proof.
  revert n. induction clip as [|t clip IH]; simpl; intros n; constructor; auto.
  intros H. apply taskCopies_ids_range in H. lia.
Qed.

Lemma taskCopies_length (clip : list Task) (n : Z) :
  List.length (taskCopies n clip) = List.length clip.
Proof. revert n. induction clip; simpl; auto. Qed.

Lemma taskCopies_nth (clip : list Task) (n : Z) (j : nat) (t : Task) :
  nth_error clip j = Some t ->
  nth_error (taskCopies n clip) j
  = Some (mkTask (n + Z.of_nat j) (title t) (description t) (points t)).
Proof.
  revert n j. induction clip as [|a clip IH]; intros n [|j]; simpl; try discriminate.
  - intros [= ->]. now rewrite Z.add_0_r.
  - intros H. rewrite (IH (n + 1) j H). do 2 f_equal. lia.
Qed.

End PasteFacts.

(** ** The invariant is kept by every handler *)

Section Invariant.

Lemma folder_append (f new : list Task) :
  match new with [] => f | _ :: _ => f ++ new end = f ++ new.
Proof. destruct new; [now rewrite app_nil_r | reflexivity]. Qed.

Lemma notInFolder_true (f : list Task) (t : Task) :
  notInFolder f t = true <-> ~ In (id t) (map id f).
Proof.
  unfold notInFolder, Js.some. rewrite negb_true_iff.
  rewrite <- not_true_iff_false, existsb_exists, in_map_iff.
  split; intros H (a & H1 & H2); apply H; exists a.
  - split; auto. now apply Z.eqb_eq.
  - apply Z.eqb_eq in H2. auto.
Qed.

Lemma in_ids_notInFolder (f P : list Task) (x : Z) :
  In x (map id (filter (notInFolder f) P)) <->
  In x (map id P) /\ ~ In x (map id f).
Proof.
  split.
  - intros H. apply in_map_iff in H. destruct H as (t & <- & H).
    apply filter_In in H. destruct H as [H1 H2].
    apply notInFolder_true in H2. split; auto. now apply in_map.
  - intros [H Hn]. apply in_map_iff in H. destruct H as (t & <- & H).
    apply in_map. apply filter_In. split; auto. now apply notInFolder_true.
Qed.

Lemma folder_add_NoDup (f P : list Task) :
  NoDup (map id f) -> NoDup (map id P) ->
  NoDup (map id (f ++ filter (notInFolder f) P)).
Proof.
  intros Hf HP. rewrite map_app. apply NoDup_app. repeat split; auto.
  - now apply NoDup_ids_filter.
  - intros x Hx Hx'. apply in_ids_notInFolder in Hx'. tauto.
Qed.

Lemma NoDup_ids_snoc (l : list Task) (t : Task) :
  NoDup (map id l) -> ~ In (id t) (map id l) -> NoDup (map id (l ++ [t])).
Proof.
  intros H Hn. rewrite map_app. apply NoDup_app. repeat split; auto.
  - simpl. repeat constructor. simpl. tauto.
  - intros x Hx [<-|[]]. contradiction.
Qed.

(** Arrays that keep their ids keep the buckets unique. *)
Lemma uniqueBuckets_same_ids (o o' : TasksState) :
  wfKeys o -> wfKeys o' ->
  (forall k l, Js.get o k = Some l ->
     exists l', Js.get o' k = Some l' /\ map id l' = map id l) ->
  (uniqueBuckets o -> uniqueBuckets o') /\
  (forall d x, inBucket o' d x <-> inBucket o d x).
Proof.
  intros K K' H.
  assert (Hb : forall d x, inBucket o' d x <-> inBucket o d x).
  { intros d x. split.
    - intros (l' & G' & Hin).
      destruct (wfKeys_get o d K (wfKeys_weekday _ _ _ K' G')) as [l G].
      destruct (H d l G) as (l2 & G2 & E). rewrite G' in G2. injection G2 as <-.
      exists l. split; auto. now rewrite <- E.
    - intros (l & G & Hin). destruct (H d l G) as (l' & G' & E).
      exists l'. split; auto. now rewrite E. }
  split; auto. intros [U1 U2]. split.
  - intros d l' G'.
    destruct (wfKeys_get o d K (wfKeys_weekday _ _ _ K' G')) as [l G].
    destruct (H d l G) as (l2 & G2 & E). rewrite G' in G2. injection G2 as <-.
    rewrite E. eauto.
  - intros d1 d2 x H1 H2. apply Hb in H1. apply Hb in H2. eauto.
Qed.

Lemma selectTask_sel_NoDup (task : Task) (c : bool) (s : State) :
  NoDup (map id (selectedTasks s)) ->
  NoDup (map id (selectedTasks (selectTask task c s))).
Proof.
  intros H. unfold selectTask. cbn [selectedTasks]. destruct c.
  - destruct (Js.some (sameId task) (selectedTasks s)) eqn:S.
    + now apply NoDup_ids_filter.
    + apply NoDup_ids_snoc; auto. now apply some_sameId_false.
  - destruct (selectedTasks s) as [|t0 [|t1 rest]]; simpl;
      try destruct (id t0 =? id task); repeat constructor; simpl; tauto.
Qed.

Lemma handleDragStart_NoDup (task : Task) (s : State) :
  NoDup (map id (selectedTasks s)) ->
  NoDup (map id (selectedTasks (handleDragStart task s))) /\
  NoDup (map id (payloadOf (draggedTask (handleDragStart task s)))).
Proof.
  intros H. unfold handleDragStart.
  destruct (Js.some (sameId task) (selectedTasks s) && (1 <? List.length (selectedTasks s))%nat);
    cbn [selectedTasks draggedTask payloadOf payloadTasks]; split; auto.
  - destruct (negb _ || _); auto. repeat constructor. simpl. tauto.
  - repeat constructor. simpl. tauto.
Qed.

Lemma cut_Inv (s : State) : Inv s -> Inv (cutSelectedTasks s).
Proof.
  intros I. unfold cutSelectedTasks.
  destruct (selectedTasks s) as [|t0 sel] eqn:Hsel; auto.
  destruct I as [K U F S D C]. rewrite Hsel in S.
  destruct (cutAll_spec (t0 :: sel) (tasks s) K U) as (K' & U' & G').
  constructor; cbn [tasks folder selectedTasks draggedTask clipboard clipboardMode]; auto.
  - constructor.
  - intros _. split; auto.
    intros x Hx (d & l' & Gd & Hin).
    destruct (wfKeys_get (tasks s) d K (wfKeys_weekday _ _ _ K' Gd)) as [l G].
    rewrite (G' d l G) in Gd. injection Gd as <-.
    apply in_map_iff in Hin. destruct Hin as (a & <- & Ha).
    apply filter_In in Ha. destruct Ha as [_ Ha].
    apply keptBy_true in Ha. contradiction.
Qed.

Lemma paste_Inv (day : string) (s s' : State) :
  Inv s -> pasteTasksToDay day s = Some s' -> Inv s'.
Proof.
  intros I. unfold pasteTasksToDay.
  destruct (clipboard s) as [|c0 clip] eqn:Hclip; [intros [= <-]; auto|].
  destruct I as [K U F S D C]. rewrite Hclip in C.
  destruct (clipboardMode s) eqn:M.
  - (* copy *)
    destruct (Js.get (tasks s) day) as [old|] eqn:G; [|discriminate].
    intros [= <-].
    pose proof (wfKeys_weekday _ _ _ K G) as Hday.
    assert (Hfresh : forall x, In x (map id (taskCopies (nextId (tasks s)) (c0 :: clip))) ->
                               ~ inSomeBucket (tasks s) x).
    { intros x Hx Hb. apply taskCopies_ids_range in Hx.
      apply inSomeBucket_allTaskIds, nextId_gt in Hb. lia. }
    constructor; cbn [tasks folder selectedTasks draggedTask clipboard clipboardMode]; auto.
    + now apply wfKeys_set.
    + apply uniqueBuckets_set; auto.
      * rewrite map_app. apply NoDup_app. repeat split.
        -- apply (proj1 U day). auto.
        -- apply (taskCopies_ids_NoDup (c0 :: clip)).
        -- intros x Hx Hx'. apply (Hfresh x Hx'). exists day, old. auto.
      * intros x d' Hx Hd' Hb. rewrite map_app, in_app_iff in Hx.
        destruct Hx as [Hx|Hx].
        -- apply Hd'. apply (proj2 U d' day x); auto. exists old. auto.
        -- apply (Hfresh x Hx). exists d'. auto.
    + discriminate.
  - (* cut *)
    destruct (Js.get (tasks s) day) as [old|] eqn:G; [|discriminate].
    intros [= <-].
    pose proof (wfKeys_weekday _ _ _ K G) as Hday.
    destruct (C eq_refl) as [Cnd Cfresh].
    constructor; cbn [tasks folder selectedTasks draggedTask clipboard clipboardMode]; auto.
    + now apply wfKeys_set.
    + apply uniqueBuckets_set; auto.
      * rewrite map_app. apply NoDup_app; [apply (proj1 U day); auto | exact Cnd |].
        intros x Hx Hx'. apply (Cfresh x Hx'). exists day, old. auto.
      * intros x d' Hx Hd' Hb. rewrite map_app, in_app_iff in Hx.
        destruct Hx as [Hx|Hx].
        -- apply Hd'. apply (proj2 U d' day x); auto. exists old. auto.
        -- apply (Cfresh x Hx). exists d'. auto.
    + discriminate.
Qed.

Lemma save_Inv (s s' : State) : Inv s -> saveChanges s = Some s' -> Inv s'.
Proof.
  intros I. unfold saveChanges.
  destruct (currentTask s) as [cur|]; [|intros [= <-]; auto].
  destruct I as [K U F S D C].
  destruct (saveLoop_total cur (formData s) (tasks s) K) as (o' & E & K' & G').
  rewrite E. intros [= <-].
  destruct (uniqueBuckets_same_ids (tasks s) o' K K' G') as [HU Hb].
  constructor; cbn [tasks folder selectedTasks draggedTask clipboard clipboardMode]; auto.
  - now rewrite map_id_editOf.
  - now rewrite map_id_editOf.
  - intros M. destruct (C M) as [C1 C2]. split; auto.
    intros x Hx (d & Hd). apply (C2 x Hx). exists d. now apply Hb.
Qed.

Lemma dayDrop_Inv (day : string) (s s' : State) :
  In day weekdays -> Inv s -> handleDayDrop day s = Some s' -> Inv s'.
Proof.
  intros Hday I. unfold handleDayDrop.
  destruct (draggedTask s) as [p|]; [|intros [= <-]; auto].
  destruct I as [K U F S D C].
  destruct (moveAll_total day Hday (payloadTasks p) (tasks s) false K)
    as (o' & c' & E & K' & Hc & Hids).
  destruct (moveAll_unique day Hday (payloadTasks p) (tasks s) false K U)
    as (o2 & c2 & E2 & U').
  rewrite E in E2. injection E2 as <- <-.
  rewrite E. cbn [fst snd]. intros [= <-].
  assert (Ht : (if c' then o' else tasks s) = o').
  { destruct c'; auto. symmetry. auto. }
  rewrite Ht.
  constructor; cbn [tasks folder selectedTasks draggedTask clipboard clipboardMode payloadOf]; auto.
  - constructor.
  - intros M. destruct (C M) as [C1 C2]. split; auto.
    intros x Hx Hb. apply (C2 x Hx). now apply Hids.
Qed.

End Invariant.

(** ** Reachable states *)

Section Reachability.

Lemma NoDup_app_disjoint {A} (l1 l2 : list A) (x : A) :
  NoDup (l1 ++ l2) -> In x l1 -> ~ In x l2.
Proof.
  induction l1 as [|a l1 IH]; simpl; [tauto|].
  intros H [->|Hin] Hx.
  - inversion H as [|? ? Hn _]; subst. apply Hn. apply in_or_app. auto.
  - inversion H; subst. now apply IH.
Qed.

Lemma inBucket_cons (k : string) (l : list Task) (o : TasksState) (d : string) (x : Z) :
  inBucket ((k, l) :: o) d x <->
  (k = d /\ In x (map id l)) \/ (k <> d /\ inBucket o d x).
Proof.
  unfold inBucket. simpl. destruct (String.eqb k d) eqn:E.
  - apply String.eqb_eq in E. subst. split.
    + intros (l' & [= <-] & H). auto.
    + intros [[_ H]|[H _]]; [eauto | congruence].
  - apply String.eqb_neq in E. split.
    + intros H. auto.
    + intros [[H _]|[_ H]]; [congruence | auto].
Qed.

(** An object whose arrays, one after the other, repeat no id. *)
Lemma uniqueBuckets_of_NoDup (o : TasksState) :
  NoDup (allTaskIds o) -> uniqueBuckets o.
Proof.
  induction o as [|[k l] o IH]; intros H.
  - split; [discriminate|]. intros d1 d2 x (l & G & _). discriminate.
  - assert (E : allTaskIds ((k, l) :: o) = map id l ++ allTaskIds o).
    { unfold allTaskIds, Js.values. simpl. now rewrite map_app. }
    rewrite E in H.
    destruct (IH (NoDup_app_remove_l _ _ H)) as [U1 U2].
    pose proof (NoDup_app_remove_r _ _ H) as Hl.
    assert (Hdis : forall d x, In x (map id l) -> ~ inBucket o d x).
    { intros d x Hx Hb. apply (NoDup_app_disjoint _ _ x H Hx).
      apply inSomeBucket_allTaskIds. exists d. auto. }
    split.
    + intros day l'. simpl. destruct (String.eqb k day); [intros [= <-]; auto|apply U1].
    + intros d1 d2 x H1 H2. apply inBucket_cons in H1. apply inBucket_cons in H2.
      destruct H1 as [[<- H1]|[N1 H1]]; destruct H2 as [[<- H2]|[N2 H2]]; auto.
      * exfalso. eapply Hdis; eauto.
      * exfalso. eapply Hdis; eauto.
      * eauto.
Qed.

Lemma initialState_Inv : Inv initialState.
Proof.
  assert (U : uniqueBuckets initialTasks).
  { apply uniqueBuckets_of_NoDup. vm_compute.
    repeat (constructor; [simpl; intros H; repeat destruct H as [H|H]; try discriminate; auto|]).
    constructor. }
  constructor; cbn [initialState tasks folder selectedTasks draggedTask clipboard
                    clipboardMode payloadOf map]; auto; try discriminate; constructor.
Qed.

(** Dropping on a name that is no weekday either raises or changes nothing. *)
Lemma moveAll_offday (target : string) (P : list Task) (o o' : TasksState) (c c' : bool) :
  wfKeys o -> ~ In target weekdays ->
  moveAll target (o, c) P = Some (o', c') -> o' = o /\ c' = c.
Proof.
  intros K Hoff. revert c'. induction P as [|t P IH]; cbn [moveAll]; intros c'.
  - intros [= <- <-]. auto.
  - assert (Hone : moveOne target (o, c) t = Some (o, c) \/ moveOne target (o, c) t = None).
    { unfold moveOne.
      destruct (findSourceDay_spec weekdays o t K (incl_refl _)) as (r & Hr & Hspec).
      rewrite Hr. destruct r as [src|]; auto.
      destruct Hspec as [Hsrc (arr & G & _)].
      rewrite (weekday_truthy src Hsrc). simpl.
      destruct (String.eqb src target) eqn:E; simpl; auto.
      apply String.eqb_neq in E. rewrite G, get_set_ne by auto.
      destruct (Js.get o target) as [l|] eqn:Gt; auto.
      exfalso. apply Hoff. eapply wfKeys_weekday; eauto. }
    destruct Hone as [-> | ->]; [apply IH | discriminate].
Qed.

Lemma run_Inv (op : Op) (s s' : State) : Inv s -> run op s = Some s' -> Inv s'.
Proof.
  intros I. destruct op; cbn [run].
  - intros [= <-]. destruct I. constructor; auto.
    now apply selectTask_sel_NoDup.
  - intros [= <-]. unfold copySelectedTasks.
    destruct (selectedTasks s) eqn:E; auto.
    destruct I as [K U F S D C]. rewrite E in S. constructor; auto.
    cbn [clipboardMode]. discriminate.
  - intros [= <-]. now apply cut_Inv.
  - now apply paste_Inv.
  - intros [= <-]. unfold addSelectedTasksToFolder.
    destruct (selectedTasks s) as [|t0 sel] eqn:E; auto.
    destruct I as [K U F S D C]. rewrite E in S. constructor; auto.
    + cbn [folder]. rewrite folder_append. now apply folder_add_NoDup.
    + constructor.
  - intros [= <-]. destruct I. constructor; auto.
    cbn [folder]. now apply NoDup_ids_filter.
  - intros [= <-]. destruct I. constructor; auto.
  - intros [= <-]. destruct I. constructor; auto.
  - intros [= <-]. destruct I. constructor; auto.
  - now apply save_Inv.
  - intros [= <-]. destruct I as [K U F S D C].
    destruct (handleDragStart_NoDup task s S) as [S' D'].
    constructor; auto; unfold handleDragStart;
      destruct (Js.some _ _ && _); auto.
  - destruct (in_dec string_dec day weekdays) as [Hday|Hoff].
    + now apply dayDrop_Inv.
    + unfold handleDayDrop. destruct (draggedTask s) as [p|] eqn:Ed; [|intros [= <-]; auto].
      destruct (moveAll day (tasks s, false) (payloadTasks p)) as [[o' c']|] eqn:E;
        [|discriminate].
      destruct (moveAll_offday day _ _ _ _ _ (inv_keys _ I) Hoff E) as [-> ->].
      intros [= <-]. destruct I. constructor; auto. constructor.
  - intros [= <-]. unfold handleFolderDrop.
    destruct (draggedTask s) as [p|] eqn:E; auto.
    destruct I as [K U F S D C]. rewrite E in D. constructor; auto.
    + cbn [folder]. rewrite folder_append. now apply folder_add_NoDup.
    + constructor.
Qed.

Lemma reachable_Inv (s : State) : reachable s -> Inv s.
Proof.
  induction 1 as [|s op s' _ IH _ Hrun].
  - apply initialState_Inv.
  - eapply run_Inv; eauto.
Qed.

(** Every event the page can deliver is handled without a [TypeError]. *)
Lemma run_total (op : Op) (s : State) :
  wfKeys (tasks s) -> enabled op s -> exists s', run op s = Some s'.
Proof.
  intros K. destruct op; cbn [run enabled]; eauto.
  - intros [Hday _]. unfold pasteTasksToDay.
    destruct (clipboard s); eauto.
    destruct (wfKeys_get _ _ K Hday) as [old ->].
    destruct (clipboardMode s); eauto.
  - intros _. unfold saveChanges. destruct (currentTask s) as [cur|]; eauto.
    destruct (saveLoop_total cur (formData s) (tasks s) K) as (o' & -> & _). eauto.
  - intros Hday. unfold handleDayDrop. destruct (draggedTask s) as [p|]; eauto.
    destruct (moveAll_total day Hday (payloadTasks p) (tasks s) false K)
      as (o' & c' & -> & _). eauto.
Qed.

End Reachability.

(** ** Replaying event sequences *)

Section Replay.

Lemma number_eqb_eq (a b : number) : number_eqb a b = true <-> a = b.
Proof.
  destruct a, b; simpl; try (split; [discriminate | congruence]);
    try (split; reflexivity).
  rewrite Z.eqb_eq. split; congruence.
Qed.

Lemma task_eqb_eq (a b : Task) : task_eqb a b = true <-> a = b.
Proof.
  unfold task_eqb.
  rewrite !andb_true_iff, !Z.eqb_eq, !String.eqb_eq, number_eqb_eq.
  destruct a, b; simpl. split.
  - intros [[[-> ->] ->] ->]. reflexivity.
  - intros [= -> -> -> ->]. auto.
Qed.

Lemma existsb_eqb_In (d : string) (l : list string) :
  existsb (String.eqb d) l = true -> In d l.
Proof.
  rewrite existsb_exists. intros (x & H & E). apply String.eqb_eq in E. now subst.
Qed.

Lemma nonEmpty_true {A} (l : list A) : nonEmpty l = true -> l <> [].
Proof. destruct l; simpl; congruence. Qed.

Lemma isSome_true {A} (x : option A) : isSome x = true -> x <> None.
Proof. destruct x; simpl; congruence. Qed.

Lemma renderedb_sound (s : State) (t : Task) : renderedb s t = true -> rendered s t.
Proof.
  unfold renderedb, rendered. rewrite existsb_exists.
  intros (day & Hday & H). destruct (Js.get (tasks s) day) as [l|] eqn:G; [|discriminate].
  apply existsb_exists in H. destruct H as (x & Hx & E).
  apply task_eqb_eq in E. subst x. eauto.
Qed.

Lemma enabledb_sound (op : Op) (s : State) : enabledb op s = true -> enabled op s.
Proof.
  destruct op; cbn [enabledb enabled]; rewrite ?andb_true_iff;
    auto using renderedb_sound, nonEmpty_true, existsb_eqb_In.
  - intros [H1 H2]. auto using nonEmpty_true, existsb_eqb_In.
  - rewrite existsb_exists. intros (t & H & E). apply Z.eqb_eq in E. eauto.
  - intros [H1 H2]. auto using isSome_true.
  - intros [[H1 H2] H3]. auto using isSome_true, existsb_eqb_In.
  - intros [H1 H2]. auto using isSome_true.
Qed.

Lemma replay_reachable (ops : list Op) (s s' : State) :
  reachable s -> replay ops s = Some s' -> reachable s'.
Proof.
  revert s. induction ops as [|op ops IH]; cbn [replay]; intros s R.
  - intros [= <-]. exact R.
  - destruct (enabledb op s) eqn:E; [|discriminate].
    destruct (run op s) as [s1|] eqn:Hrun; [|discriminate].
    apply IH. eapply reachable_step; eauto using enabledb_sound.
Qed.

End Replay.

(** ** The claims *)

(** C1. Uniqueness: in every reachable state no task id is in more than one
    bucket (nor twice in one bucket) and no task id is twice in the folder;
    whatever handler runs next, on whatever argument, the state it returns
    satisfies the same, and every event the page can deliver is handled
    without raising. *)
Theorem C1_uniqueness (s : State) :
  reachable s ->
  Uniqueness s /\
  (forall op s', run op s = Some s' -> Uniqueness s') /\
  (forall op, enabled op s -> exists s', run op s = Some s' /\ Uniqueness s').
Proof.
  intros R. pose proof (reachable_Inv s R) as I.
  assert (U : forall s0, Inv s0 -> Uniqueness s0).
  { intros s0 [K U0 F _ _ _]. split; auto. }
  split; [auto|]. split.
  - intros op s' Hrun. apply U. eapply run_Inv; eauto.
  - intros op En. destruct (run_total op s (inv_keys _ I) En) as [s' Hrun].
    exists s'. split; auto. apply U. eapply run_Inv; eauto.
Qed.

Lemma C1_uniqueness_witness :
  reachable initialState /\ Uniqueness initialState.
Proof.
  split; [exact reachable_init|].
  exact (proj1 (C1_uniqueness initialState reachable_init)).
Defined.

(** C2, as stated, fails in two ways.  When the paste goes back to the
    bucket the task was cut from, the task is not absent from it: after
    selecting task 1 (in "Lundi"), [cut()] and [pasteInto("Lundi")], task 1
    is in "Lundi" again.  And the record pasted is the selection's, which
    need not be the bucket's: after task 1 was dragged, edited to 21 points
    while the drag was pending, and dropped on "Mardi", the bucket holds
    task 1 with 2 points and the selection holds it with 21; [cut()] then
    [pasteInto("Lundi")] leaves the record with 21 points in "Lundi" and
    the record with 2 points in no bucket. *)
Lemma C2_counterexample :
  (let s := selectTask task1 false initialState in
   selectedTasks s <> [] /\ In "Lundi" weekdays /\ ~ cutPasteMoveLaw s "Lundi") /\
  (exists s s2,
     replay staleEvents initialState = Some s /\ reachable s /\
     hasTask (tasks s) "Mardi" task1 /\
     selectedTasks s = [mkTask 1 (title task1) (description task1) 21] /\
     pasteTasksToDay "Lundi" (cutSelectedTasks s) = Some s2 /\
     hasTask (tasks s2) "Lundi" (mkTask 1 (title task1) (description task1) 21) /\
     forall d, ~ hasTask (tasks s2) d task1).
Proof.
  split.
  - cbv zeta. split; [discriminate|]. split; [simpl; auto|].
    intros (s2 & E & _ & Habs & _).
    vm_compute in E. injection E as <-.
    apply (Habs task1 "Lundi").
    + simpl. auto.
    + eexists. split; [reflexivity|]. simpl. auto.
    + eexists. split; [reflexivity|]. simpl. auto.
  - destruct (replay staleEvents initialState) as [s|] eqn:E; [|discriminate].
    destruct (pasteTasksToDay "Lundi" (cutSelectedTasks s)) as [s2|] eqn:P;
      [|vm_compute in E; injection E as <-; discriminate].
    exists s, s2. split; [reflexivity|].
    split; [eapply replay_reachable; [exact reachable_init | exact E]|].
    vm_compute in E. injection E as <-.
    vm_compute in P. injection P as <-.
    split; [eexists; split; [reflexivity|]; simpl; auto|].
    split; [reflexivity|]. split; [reflexivity|].
    split; [eexists; split; [reflexivity|]; simpl; auto|].
    intros d (l & G & Hin). cbn [tasks Js.get] in G.
    repeat match type of G with
    | (if ?c then _ else _) = Some l =>
        destruct c;
        [injection G as <-; simpl in Hin;
         repeat (destruct Hin as [Hin|Hin]; [discriminate Hin|]); exact Hin|]
    end.
    discriminate.
Qed.

(** C2 (amended). In a state with unique buckets and a non-empty selection,
    [cut()] then [pasteInto(B)] removes from every bucket the records whose
    id is selected and appends to [B] the selection's record of each
    selected task (its id, title, description and points), whichever
    bucket [B] is, the bucket the task was cut from included; the other
    tasks of every bucket keep their order.  A bucket record that is the
    selected record is therefore in [B] unchanged, and in no other bucket.
    With a selection that names each id once, every record of a selected
    id in any bucket afterwards is the selection's record, in [B]: where
    the bucket held a different record of that id, the selection's replaces
    it.  The clipboard is empty, the mode is [copy] again, and a second
    paste changes nothing. *)
Theorem C2_cut_paste_move (s : State) (B : string) :
  wfKeys (tasks s) -> uniqueBuckets (tasks s) -> In B weekdays ->
  selectedTasks s <> [] ->
  exists s2,
    pasteTasksToDay B (cutSelectedTasks s) = Some s2 /\
    (forall t, In t (selectedTasks s) -> hasTask (tasks s2) B t) /\
    (forall t d, In t (selectedTasks s) -> d <> B ->
                 ~ inBucket (tasks s2) d (id t)) /\
    (forall d l, Js.get (tasks s) d = Some l ->
       Js.get (tasks s2) d =
       Some (if String.eqb d B
             then filter (keptBy (selectedTasks s)) l ++ selectedTasks s
             else filter (keptBy (selectedTasks s)) l)) /\
    (forall d b, hasTask (tasks s) d b -> In b (selectedTasks s) ->
       hasTask (tasks s2) B b /\
       forall d', d' <> B -> ~ inBucket (tasks s2) d' (id b)) /\
    (NoDup (map id (selectedTasks s)) ->
     forall d x, hasTask (tasks s2) d x ->
       In (id x) (map id (selectedTasks s)) ->
       d = B /\ In x (selectedTasks s)) /\
    clipboard s2 = [] /\ clipboardMode s2 = copy /\
    pasteTasksToDay B s2 = Some s2.
Proof.
  intros K U HB Hsel.
  destruct (selectedTasks s) as [|t0 sel] eqn:Esel; [congruence|]. clear Hsel.
  destruct (cutAll_spec (t0 :: sel) (tasks s) K U) as (K' & U' & G').
  destruct (wfKeys_get _ _ K HB) as [oldB GB].
  pose proof (G' B oldB GB) as GB'.
  unfold cutSelectedTasks, pasteTasksToDay. rewrite Esel.
  cbn [clipboard clipboardMode tasks]. rewrite GB'.
  eexists. split; [reflexivity|].
  cbn [tasks clipboard clipboardMode].
  set (o2 := Js.set (fold_left cutOne (t0 :: sel) (tasks s)) B
               (filter (keptBy (t0 :: sel)) oldB ++ t0 :: sel)).
  assert (Hget : forall d l, Js.get (tasks s) d = Some l ->
            Js.get o2 d =
            Some (if String.eqb d B
                  then filter (keptBy (t0 :: sel)) l ++ t0 :: sel
                  else filter (keptBy (t0 :: sel)) l)).
  { intros d l G. unfold o2. rewrite get_set, String.eqb_sym.
    destruct (String.eqb d B) eqn:E.
    - apply String.eqb_eq in E. subst. congruence.
    - now apply G'. }
  assert (K2 : wfKeys o2) by (unfold o2; now apply wfKeys_set).
  assert (In2 : forall t, In t (t0 :: sel) -> hasTask o2 B t).
  { intros t Ht. eexists. split; [apply get_set_eq|]. apply in_or_app. auto. }
  assert (Out2 : forall t d, In t (t0 :: sel) -> d <> B ->
                             ~ inBucket o2 d (id t)).
  { intros t d Ht Hd Hb. apply inBucket_set in Hb.
    destruct Hb as [[E _]|[_ (l' & Gd & Hin)]]; [congruence|].
    destruct (wfKeys_get _ d K (wfKeys_weekday _ _ _ K' Gd)) as [l G].
    rewrite (G' d l G) in Gd. injection Gd as <-.
    apply in_map_iff in Hin. destruct Hin as (a & Ea & Ha).
    apply filter_In in Ha. destruct Ha as [_ Ha].
    apply keptBy_true in Ha. apply Ha. rewrite Ea. now apply in_map. }
  split; [exact In2|]. split; [exact Out2|]. split; [exact Hget|].
  split; [|split].
  - intros d b _ Hb. split; [now apply In2|].
    intros d' Hd'. now apply Out2.
  - intros Hnd d x (l' & Gd & Hx) Hid.
    destruct (wfKeys_get _ d K (wfKeys_weekday _ _ _ K2 Gd)) as [l G].
    rewrite (Hget d l G) in Gd.
    assert (Hkept : ~ In x (filter (keptBy (t0 :: sel)) l)).
    { intros Hf. apply filter_In in Hf. destruct Hf as [_ Hf].
      apply keptBy_true in Hf. auto. }
    destruct (String.eqb d B) eqn:E; injection Gd as <-.
    + apply String.eqb_eq in E. split; [exact E|].
      apply in_app_or in Hx. destruct Hx as [Hx|Hx]; [contradiction | exact Hx].
    + contradiction.
  - repeat split; auto.
Qed.

Lemma C2_cut_paste_move_witness :
  exists s2,
    pasteTasksToDay "Mardi" (cutSelectedTasks (selectTask task1 false initialState))
    = Some s2 /\
    hasTask (tasks s2) "Mardi" task1 /\ ~ inBucket (tasks s2) "Lundi" 1 /\
    clipboard s2 = [].
Proof.
  destruct (C2_cut_paste_move (selectTask task1 false initialState) "Mardi")
    as (s2 & E & _ & _ & _ & H1 & _ & H4 & _).
  - reflexivity.
  - apply (inv_buckets _ initialState_Inv).
  - simpl. auto.
  - discriminate.
  - exists s2. split; [exact E|].
    destruct (H1 "Lundi" task1) as [Hin Hout].
    + eexists. split; [reflexivity|]. simpl. auto.
    + simpl. auto.
    + split; [exact Hin|]. split; [|exact H4].
      apply (Hout "Lundi"). discriminate.
Defined.

Section CopyPaste.

Lemma taskCopies_duplicates (clip : list Task) (n : Z) :
  duplicatesOf clip (taskCopies n clip).
Proof.
  revert n. induction clip as [|t clip IH]; simpl; intros n; constructor.
  - repeat split.
  - apply IH.
Qed.

Lemma taskCopies_ids_in (clip : list Task) (n x : Z) :
  n <= x < n + Z.of_nat (List.length clip) -> In x (map id (taskCopies n clip)).
Proof.
  revert n. induction clip as [|t clip IH]; intros n H.
  - simpl in H. lia.
  - cbn [taskCopies map id]. destruct (Z.eq_dec x n) as [->|Hne]; [left; auto|].
    right. apply IH. cbn [List.length] in H. lia.
Qed.

Lemma duplicatesOf_In (sel copies : list Task) (t : Task) :
  duplicatesOf sel copies -> In t sel ->
  exists c, In c copies /\ sameContent t c.
Proof.
  induction 1 as [|a c sel copies Hac _ IH]; simpl; [tauto|].
  intros [<-|Hin].
  - exists c. auto.
  - destruct (IH Hin) as (c' & Hc' & Hs). exists c'. auto.
Qed.

(** A paste in copy mode, field by field. *)
Lemma paste_copy_mode (B : string) (s : State) (old : list Task) :
  clipboard s <> [] -> clipboardMode s = copy ->
  Js.get (tasks s) B = Some old ->
  exists s',
    pasteTasksToDay B s = Some s' /\
    tasks s' = Js.set (tasks s) B (old ++ taskCopies (nextId (tasks s)) (clipboard s)) /\
    clipboard s' = clipboard s /\ clipboardMode s' = copy /\
    selectedTasks s' = selectedTasks s /\ folder s' = folder s /\
    draggedTask s' = draggedTask s.
Proof.
  intros Hc Hm G. unfold pasteTasksToDay.
  destruct (clipboard s) as [|c0 clip] eqn:E; [congruence|].
  rewrite Hm, G. eexists. split; [reflexivity|].
  cbn [tasks clipboard clipboardMode selectedTasks folder draggedTask].
  repeat split; auto.
Qed.

End CopyPaste.

(** C3, as stated, fails in two ways.  A duplicate can get an id the state
    already uses: with task 8 in the folder and cut from the buckets and
    task 1 selected, [copy()] and two [pasteInto("Lundi")] give the first
    duplicate of task 1 the id 8 of the task in the folder.  And the
    duplicates carry the content of the selection's record, which need not
    be the bucket's: after task 1 was dragged, edited to 21 points while
    the drag was pending, and dropped on "Mardi", the bucket holds task 1
    with 2 points, and both duplicates have 21 points. *)
Lemma C3_counterexample :
  (exists s,
     replay folderEvents initialState = Some s /\ reachable s /\
     selectedTasks s <> [] /\ In "Lundi" weekdays /\
     In task8 (folder s) /\
     ~ copyPasteLaw s "Lundi") /\
  (exists s s2 s3,
     replay staleEvents initialState = Some s /\ reachable s /\
     hasTask (tasks s) "Mardi" task1 /\
     pasteTasksToDay "Lundi" (copySelectedTasks s) = Some s2 /\
     pasteTasksToDay "Lundi" s2 = Some s3 /\
     hasTask (tasks s3) "Mardi" task1 /\
     hasTask (tasks s3) "Lundi" (mkTask 9 (title task1) (description task1) 21) /\
     hasTask (tasks s3) "Lundi" (mkTask 10 (title task1) (description task1) 21)).
Proof.
  split.
  - destruct (replay folderEvents initialState) as [s|] eqn:E; [|discriminate].
    exists s. split; [reflexivity|].
    split; [eapply replay_reachable; [exact reachable_init | exact E]|].
    vm_compute in E. injection E as <-.
    split; [discriminate|]. split; [simpl; auto|]. split; [simpl; auto|].
    intros (s2 & s3 & old & new & E2 & E3 & G & G3 & _ & Fresh & _).
    vm_compute in E2. injection E2 as <-.
    vm_compute in E3. injection E3 as <-.
    cbn in G. injection G as <-.
    cbn in G3. injection G3 as G3.
    apply (Fresh 8).
    + rewrite <- G3. simpl. auto.
    + unfold idInState. cbn [folder]. do 4 right. left. simpl. auto.
  - destruct (replay staleEvents initialState) as [s|] eqn:E; [|discriminate].
    destruct (pasteTasksToDay "Lundi" (copySelectedTasks s)) as [s2|] eqn:P2;
      [|vm_compute in E; injection E as <-; discriminate].
    destruct (pasteTasksToDay "Lundi" s2) as [s3|] eqn:P3;
      [|vm_compute in E; injection E as <-; vm_compute in P2; injection P2 as <-;
        discriminate].
    exists s, s2, s3. split; [reflexivity|].
    split; [eapply replay_reachable; [exact reachable_init | exact E]|].
    vm_compute in E. injection E as <-.
    vm_compute in P2. injection P2 as <-.
    vm_compute in P3. injection P3 as <-.
    split; [eexists; split; [reflexivity|]; simpl; auto|].
    split; [reflexivity|]. split; [reflexivity|].
    split; [eexists; split; [reflexivity|]; simpl; auto|].
    split; eexists; (split; [reflexivity|]); simpl; auto.
Qed.

(** C3 (amended). Copy/paste duplication law: with a non-empty selection,
    [copy()] followed by two [pasteInto(B)] appends to [B], after what it
    held, one duplicate per selected task for each paste ([c1], then
    [c2]), with the title, description and points of the selection's
    record of the task; the ids of all duplicates are pairwise distinct and
    greater than every id held by a bucket; every bucket keeps the records
    it held, so the originals stay where they were, unchanged; the
    clipboard still holds the selected tasks in mode [copy], and a third
    paste succeeds and appends again ([c3]).  Nothing is said of the ids
    outside the buckets: a duplicate may get the id of a task that is only
    in the folder or was only in the clipboard. *)
Theorem C3_copy_paste_twice (s : State) (B : string) :
  wfKeys (tasks s) -> In B weekdays -> selectedTasks s <> [] ->
  exists s2 s3 s4 old c1 c2 c3,
    pasteTasksToDay B (copySelectedTasks s) = Some s2 /\
    pasteTasksToDay B s2 = Some s3 /\
    pasteTasksToDay B s3 = Some s4 /\
    Js.get (tasks s) B = Some old /\
    Js.get (tasks s3) B = Some (old ++ c1 ++ c2) /\
    Js.get (tasks s4) B = Some (old ++ c1 ++ c2 ++ c3) /\
    (forall d, d <> B -> Js.get (tasks s3) d = Js.get (tasks s) d) /\
    duplicatesOf (selectedTasks s) c1 /\
    duplicatesOf (selectedTasks s) c2 /\
    duplicatesOf (selectedTasks s) c3 /\
    NoDup (map id (c1 ++ c2 ++ c3)) /\
    (forall x, In x (map id (c1 ++ c2 ++ c3)) -> ~ inSomeBucket (tasks s) x) /\
    clipboard s3 = selectedTasks s /\ clipboard s3 <> [] /\
    clipboardMode s3 = copy /\
    selectedTasks s3 = selectedTasks s /\ folder s3 = folder s /\
    (forall x y, In x (map id (c1 ++ c2 ++ c3)) ->
                 inSomeBucket (tasks s) y -> y < x) /\
    (forall d b, hasTask (tasks s) d b -> hasTask (tasks s3) d b) /\
    (forall t, In t (selectedTasks s) ->
       exists x1 x2,
         In x1 c1 /\ In x2 c2 /\ sameContent t x1 /\ sameContent t x2 /\
         id x1 <> id x2 /\
         forall d, hasTask (tasks s) d t ->
           hasTask (tasks s3) d t /\ id x1 <> id t /\ id x2 <> id t).
Proof.
  intros K HB Hsel.
  destruct (wfKeys_get _ _ K HB) as [old G].
  set (s1 := copySelectedTasks s).
  assert (H1 : tasks s1 = tasks s /\ clipboard s1 = selectedTasks s /\
               clipboardMode s1 = copy /\
               selectedTasks s1 = selectedTasks s /\ folder s1 = folder s).
  { unfold s1, copySelectedTasks.
    destruct (selectedTasks s) eqn:E; [congruence|]. cbn. rewrite ?E. auto. }
  destruct H1 as (T1 & C1 & M1 & S1 & F1).
  set (sel := selectedTasks s) in *.
  (* first paste *)
  destruct (paste_copy_mode B s1 old) as (s2 & E2 & T2 & C2 & M2 & S2 & F2 & _);
    try congruence.
  rewrite C1, T1 in T2. set (n1 := nextId (tasks s)) in *.
  set (c1 := taskCopies n1 sel) in *.
  assert (K2 : wfKeys (tasks s2)) by (rewrite T2; now apply wfKeys_set).
  assert (G2 : Js.get (tasks s2) B = Some (old ++ c1)) by (rewrite T2; apply get_set_eq).
  (* second paste *)
  destruct (paste_copy_mode B s2 (old ++ c1)) as (s3 & E3 & T3 & C3 & M3 & S3 & F3 & _);
    try congruence.
  rewrite C2, C1 in T3. set (n2 := nextId (tasks s2)) in *.
  set (c2 := taskCopies n2 sel) in *.
  assert (K3 : wfKeys (tasks s3)) by (rewrite T3; now apply wfKeys_set).
  assert (G3 : Js.get (tasks s3) B = Some ((old ++ c1) ++ c2))
    by (rewrite T3; apply get_set_eq).
  (* third paste *)
  destruct (paste_copy_mode B s3 ((old ++ c1) ++ c2)) as (s4 & E4 & T4 & C4 & _);
    try congruence.
  rewrite C3, C2, C1 in T4. set (n3 := nextId (tasks s3)) in *.
  set (c3 := taskCopies n3 sel) in *.
  (* the three ranges of ids follow one another *)
  assert (Hlen : (0 < Z.of_nat (List.length sel))%Z).
  { destruct sel; [congruence|]. cbn [List.length]. lia. }
  assert (N12 : n1 + Z.of_nat (List.length sel) <= n2).
  { assert (n1 + Z.of_nat (List.length sel) - 1 < n2); [|lia].
    apply nextId_gt, inSomeBucket_allTaskIds. exists B, (old ++ c1).
    split; auto. rewrite map_app. apply in_or_app. right.
    apply taskCopies_ids_in. lia. }
  assert (N23 : n2 + Z.of_nat (List.length sel) <= n3).
  { assert (n2 + Z.of_nat (List.length sel) - 1 < n3); [|lia].
    apply nextId_gt, inSomeBucket_allTaskIds. exists B, ((old ++ c1) ++ c2).
    split; auto. rewrite map_app. apply in_or_app. right.
    apply taskCopies_ids_in. lia. }
  assert (R : forall x, In x (map id (c1 ++ c2 ++ c3)) -> n1 <= x).
  { intros x Hx. rewrite !map_app, !in_app_iff in Hx.
    destruct Hx as [Hx|[Hx|Hx]]; apply taskCopies_ids_range in Hx; lia. }
  assert (Above1 : forall x y, In x (map id (c1 ++ c2 ++ c3)) ->
                               inSomeBucket (tasks s) y -> y < x).
  { intros x y Hx Hy. apply R in Hx.
    apply inSomeBucket_allTaskIds, nextId_gt in Hy. fold n1 in Hy. lia. }
  assert (Far : forall d, d <> B -> Js.get (tasks s3) d = Js.get (tasks s) d).
  { intros d Hd. rewrite T3, get_set_ne by congruence.
    rewrite T2, get_set_ne by congruence. reflexivity. }
  assert (Stay : forall d b, hasTask (tasks s) d b -> hasTask (tasks s3) d b).
  { intros d b (l & Gd & Hb). destruct (string_dec d B) as [->|Hd].
    - rewrite G in Gd. injection Gd as <-.
      exists ((old ++ c1) ++ c2). split; [exact G3|].
      apply in_or_app. left. apply in_or_app. now left.
    - exists l. split; [now rewrite Far | exact Hb]. }
  exists s2, s3, s4, old, c1, c2, c3.
  split; [exact E2|]. split; [exact E3|]. split; [exact E4|]. split; [exact G|].
  split; [now rewrite <- app_assoc in G3|].
  split; [rewrite T4, get_set_eq; now rewrite <- !app_assoc|].
  split; [exact Far|].
  split; [apply taskCopies_duplicates|].
  split; [apply taskCopies_duplicates|].
  split; [apply taskCopies_duplicates|].
  split.
  { rewrite !map_app. apply NoDup_app; [apply taskCopies_ids_NoDup| |].
    - apply NoDup_app; [apply taskCopies_ids_NoDup|apply taskCopies_ids_NoDup|].
      intros x Hx Hx'. apply taskCopies_ids_range in Hx, Hx'. lia.
    - intros x Hx Hx'. rewrite in_app_iff in Hx'. apply taskCopies_ids_range in Hx.
      destruct Hx' as [Hx'|Hx']; apply taskCopies_ids_range in Hx'; lia. }
  split.
  { intros x Hx Hb. pose proof (Above1 x x Hx Hb). lia. }
  do 5 (split; [congruence|]).
  split; [exact Above1|]. split; [exact Stay|].
  intros t Ht.
  destruct (duplicatesOf_In sel c1 t (taskCopies_duplicates sel n1) Ht)
    as (x1 & Hx1 & Hs1).
  destruct (duplicatesOf_In sel c2 t (taskCopies_duplicates sel n2) Ht)
    as (x2 & Hx2 & Hs2).
  pose proof (taskCopies_ids_range _ _ _ (in_map id _ _ Hx1)) as R1.
  pose proof (taskCopies_ids_range _ _ _ (in_map id _ _ Hx2)) as R2.
  exists x1, x2. do 4 (split; [assumption|]). split; [lia|].
  intros d Hd. split; [now apply Stay|].
  assert (Hlt : id t < n1).
  { apply nextId_gt, inSomeBucket_allTaskIds.
    destruct Hd as (l & Gd & Hin). exists d, l. split; auto. now apply in_map. }
  lia.
Qed.

Lemma C3_copy_paste_twice_witness :
  exists s3,
    (s2 <- pasteTasksToDay "Mardi" (copySelectedTasks (selectTask task1 false initialState)) ;;
     pasteTasksToDay "Mardi" s2) = Some s3 /\
    clipboard s3 = [task1] /\ clipboardMode s3 = copy /\
    hasTask (tasks s3) "Lundi" task1.
Proof.
  destruct (C3_copy_paste_twice (selectTask task1 false initialState) "Mardi")
    as (s2 & s3 & s4 & old & c1 & c2 & c3 & E2 & E3 & _ & _ & _ & _ & _ & _ & _ & _
        & _ & _ & Hc & _ & Hm & _ & _ & _ & Hstay & _).
  - reflexivity.
  - simpl. auto.
  - discriminate.
  - exists s3. rewrite E2. split; [exact E3|]. split; [exact Hc|].
    split; [exact Hm|]. apply Hstay.
    eexists. split; [reflexivity|]. simpl. auto.
Defined.

Section IdAllocation.

(** What the allocation does guarantee: a copy-mode paste gives ids above
    every id held by a bucket. *)
Lemma paste_ids_above_buckets (o : TasksState) (clip : list Task) (n x : Z) :
  In n (map id (taskCopies (nextId o) clip)) -> inSomeBucket o x -> x < n.
Proof.
  intros Hn Hx. apply taskCopies_ids_range in Hn.
  apply inSomeBucket_allTaskIds, nextId_gt in Hx. lia.
Qed.

End IdAllocation.

(** C4. Id monotonicity fails on the code: the next id is one more than the
    largest id held by a bucket, so an id that left the buckets is given
    again.  After task 8 was added to the folder and cut, and task 1 copied,
    the paste into "Lundi" allocates id 8 for the duplicate of task 1 while
    the folder still holds the original task 8. *)
Theorem C4_paste_reuses_folder_id :
  exists s s',
    replay reuseEvents initialState = Some s /\ reachable s /\
    clipboard s = [task1] /\ clipboardMode s = copy /\
    In task8 (folder s) /\
    nextId (tasks s) = 8 /\
    pasteTasksToDay "Lundi" s = Some s' /\
    hasTask (tasks s') "Lundi"
      (mkTask 8 (title task1) (description task1) (points task1)) /\
    In task8 (folder s').
Proof.
  destruct (replay reuseEvents initialState) as [s|] eqn:E; [|discriminate].
  destruct (pasteTasksToDay "Lundi" s) as [s'|] eqn:P;
    [|vm_compute in E; injection E as <-; discriminate].
  exists s, s'. split; [reflexivity|].
  split; [eapply replay_reachable; [exact reachable_init | exact E]|].
  vm_compute in E. injection E as <-.
  vm_compute in P. injection P as <-.
  repeat split; try reflexivity; simpl; auto.
  eexists. split; [reflexivity|]. simpl. auto.
Qed.

Section Removal.

Lemma cutOne_keeps (o : TasksState) (t : Task) (x : Z) :
  wfKeys o -> inSomeBucket o x -> x <> id t -> inSomeBucket (cutOne o t) x.
Proof.
  intros K (d & l & G & Hin) Hx. unfold cutOne.
  destruct (find _ (Js.keys o)) as [src|] eqn:F; [|exists d, l; auto].
  destruct (cutOne_source o t src F) as (arr & Gsrc & _).
  rewrite (weekday_truthy src (wfKeys_weekday _ _ _ K Gsrc)), Gsrc.
  exists d. apply inBucket_set. destruct (string_dec src d) as [<-|N].
  - left. split; auto. rewrite Gsrc in G. injection G as <-.
    apply in_ids_filter_otherId. auto.
  - right. split; auto. exists l. auto.
Qed.

Lemma cutAll_keeps (sel : list Task) (o : TasksState) (x : Z) :
  wfKeys o -> inSomeBucket o x -> ~ In x (map id sel) ->
  inSomeBucket (fold_left cutOne sel o) x.
Proof.
  revert o. induction sel as [|t sel IH]; simpl; intros o K Hx Hn; auto.
  apply IH; [now apply cutOne_keys | | tauto].
  apply cutOne_keeps; [assumption | assumption |]. intros E. apply Hn. auto.
Qed.

Lemma cutAll_keys (sel : list Task) (o : TasksState) :
  wfKeys o -> wfKeys (fold_left cutOne sel o).
Proof.
  revert o. induction sel as [|t sel IH]; simpl; intros o K; auto.
  apply IH. now apply cutOne_keys.
Qed.

End Removal.

(** ** Ids that left the state do not come back *)

Section Lost.

Lemma rendered_inSomeBucket (s : State) (t : Task) :
  rendered s t -> inSomeBucket (tasks s) (id t).
Proof.
  intros (day & l & _ & G & Hin). exists day, l. split; auto. now apply in_map.
Qed.

Lemma cutOne_sub (o : TasksState) (t : Task) (y : Z) :
  inSomeBucket (cutOne o t) y -> inSomeBucket o y.
Proof.
  unfold cutOne. destruct (find _ (Js.keys o)) as [src|]; auto.
  destruct (Js.truthy src); auto.
  destruct (Js.get o src) as [arr|] eqn:G; auto.
  intros (d & H). apply inBucket_set in H. destruct H as [[<- H]|[_ H]].
  - exists src, arr. split; auto. eapply in_ids_filter; eauto.
  - exists d. auto.
Qed.

Lemma cutAll_sub (sel : list Task) (o : TasksState) (y : Z) :
  inSomeBucket (fold_left cutOne sel o) y -> inSomeBucket o y.
Proof.
  revert o. induction sel as [|t sel IH]; simpl; intros o H; auto.
  apply cutOne_sub with (t := t). auto.
Qed.

Lemma set_append_keeps (o : TasksState) (day : string) (old new : list Task) (y : Z) :
  Js.get o day = Some old -> inSomeBucket o y ->
  inSomeBucket (Js.set o day (old ++ new)) y.
Proof.
  intros G (d & l & Gd & Hin). exists d. apply inBucket_set.
  destruct (string_dec day d) as [<-|N]; [left|right]; split; auto.
  - rewrite G in Gd. injection Gd as <-. rewrite map_app. apply in_or_app. auto.
  - exists l. auto.
Qed.

Lemma set_append_ids (o : TasksState) (day : string) (old new : list Task) (y : Z) :
  Js.get o day = Some old -> inSomeBucket (Js.set o day (old ++ new)) y ->
  inSomeBucket o y \/ In y (map id new).
Proof.
  intros G (d & H). apply inBucket_set in H. destruct H as [[<- H]|[_ H]].
  - rewrite map_app, in_app_iff in H. destruct H as [H|H]; auto.
    left. exists day, old. auto.
  - left. exists d. auto.
Qed.

Lemma selectTask_ids (task : Task) (c : bool) (s : State) (y : Z) :
  In y (map id (selectedTasks (selectTask task c s))) ->
  In y (map id (selectedTasks s)) \/ y = id task.
Proof.
  unfold selectTask. cbn [selectedTasks]. destruct c.
  - destruct (Js.some (sameId task) (selectedTasks s)).
    + intros H. left. eapply in_ids_filter; eauto.
    + rewrite map_app, in_app_iff. simpl. intuition.
  - destruct (selectedTasks s) as [|t0 [|t1 rest]];
      try destruct (id t0 =? id task); simpl; intuition.
Qed.

Lemma handleDragStart_ids (task : Task) (s : State) (y : Z) :
  In y (map id (selectedTasks (handleDragStart task s))) \/
  In y (map id (payloadOf (draggedTask (handleDragStart task s)))) ->
  In y (map id (selectedTasks s)) \/ y = id task.
Proof.
  unfold handleDragStart.
  destruct (Js.some (sameId task) (selectedTasks s) && _);
    cbn [selectedTasks draggedTask payloadOf payloadTasks].
  - tauto.
  - destruct (negb _ || _); simpl; intuition.
Qed.

Ltac idcases H :=
  unfold idInState in H;
  cbn [tasks clipboard selectedTasks draggedTask folder currentTask payloadOf] in H;
  destruct H as [H|[H|[H|[H|[H|H]]]]].

Ltac old_id :=
  first [ left; unfold idInState; tauto
        | match goal with H : In _ (map id []) |- _ => destruct H end ].

Lemma Above_intro (x : Z) (s s' : State) :
  Above x s -> wfKeys (tasks s') ->
  (forall y, idInState s' y -> idInState s y \/ x < y) ->
  (selectedTasks s' <> [] -> exists y, inSomeBucket (tasks s') y) ->
  (clipboardMode s' = copy -> clipboard s' <> [] ->
   exists y, inSomeBucket (tasks s') y) ->
  Above x s'.
Proof.
  intros A K H S C. constructor; auto.
  intros y Hy. destruct (H y Hy) as [Hs|Hlt]; auto. now apply (above_ids _ _ A).
Qed.

Lemma Above_step (x : Z) (op : Op) (s s' : State) :
  Above x s -> enabled op s -> run op s = Some s' -> Above x s'.
Proof.
  intros A En Hrun. pose proof A as [K Ids Sel Clip].
  destruct op; cbn [run enabled] in *.
  - (* select *)
    injection Hrun as <-. pose proof (rendered_inSomeBucket _ _ En) as R.
    apply (Above_intro x s); [exact A | exact K | | | exact Clip].
    + intros y H. idcases H; try old_id.
      apply selectTask_ids in H. destruct H as [H| ->]; old_id.
    + intros _. eauto.
  - (* copy *)
    injection Hrun as <-. unfold copySelectedTasks.
    destruct (selectedTasks s) as [|t0 sel] eqn:E; [exact A|].
    apply (Above_intro x s); cbn [tasks selectedTasks clipboard clipboardMode];
      [exact A | exact K | | exact Sel | ].
    + intros y H. idcases H; first [old_id | rewrite <- E in H; old_id].
    + intros _ _. apply Sel. congruence.
  - (* cut *)
    injection Hrun as <-. unfold cutSelectedTasks.
    destruct (selectedTasks s) as [|t0 sel] eqn:E; [exact A|].
    apply (Above_intro x s); cbn [tasks selectedTasks clipboard clipboardMode];
      [exact A | now apply cutAll_keys | | congruence | discriminate].
    intros y H.
    idcases H;
      first [old_id | apply cutAll_sub in H; old_id | rewrite <- E in H; old_id].
  - (* paste *)
    destruct En as [Hday Hclip]. unfold pasteTasksToDay in Hrun.
    destruct (clipboard s) as [|c0 clip] eqn:E; [congruence|].
    destruct (wfKeys_get _ _ K Hday) as [old G]. rewrite G in Hrun.
    destruct (clipboardMode s) eqn:M; injection Hrun as <-;
      (apply (Above_intro x s); cbn [tasks selectedTasks clipboard clipboardMode];
       [exact A | now apply wfKeys_set | | | ]).
    + intros y H. idcases H; try first [old_id | rewrite <- E in H; old_id].
      apply (set_append_ids _ _ _ _ _ G) in H. destruct H as [H|H]; [old_id|].
      right. destruct (Clip eq_refl) as [z Hz]; [congruence|].
      pose proof (Ids z (or_introl Hz)).
      pose proof (paste_ids_above_buckets (tasks s) (c0 :: clip) y z H Hz). lia.
    + intros Hs. destruct (Sel Hs) as [z Hz]. exists z.
      now apply set_append_keeps.
    + intros _ _. destruct (Clip eq_refl) as [z Hz]; [congruence|]. exists z.
      now apply set_append_keeps.
    + intros y H. idcases H; try old_id.
      apply (set_append_ids _ _ _ _ _ G) in H. destruct H as [H|H]; [old_id|].
      rewrite <- E in H. old_id.
    + intros Hs. destruct (Sel Hs) as [z Hz]. exists z.
      now apply set_append_keeps.
    + congruence.
  - (* add to folder *)
    injection Hrun as <-. unfold addSelectedTasksToFolder.
    destruct (selectedTasks s) as [|t0 sel] eqn:E; [exact A|].
    apply (Above_intro x s); cbn [tasks selectedTasks clipboard clipboardMode];
      [exact A | exact K | | congruence | exact Clip].
    intros y H. idcases H; try old_id.
    rewrite folder_append, map_app, in_app_iff in H.
    destruct H as [H|H]; [old_id|].
    apply in_ids_notInFolder in H. destruct H as [H _].
    rewrite <- E in H. old_id.
  - (* remove from folder *)
    injection Hrun as <-.
    apply (Above_intro x s); [exact A | exact K | | exact Sel | exact Clip].
    intros y H. idcases H; try old_id. apply in_ids_filter in H. old_id.
  - (* open the edit surface *)
    injection Hrun as <-. pose proof (rendered_inSomeBucket _ _ En) as R.
    apply (Above_intro x s); [exact A | exact K | | exact Sel | exact Clip].
    intros y H. idcases H; try old_id.
    destruct H as (c & [= <-] & <-). old_id.
  - (* close it *)
    injection Hrun as <-.
    apply (Above_intro x s); [exact A | exact K | | exact Sel | exact Clip].
    intros y H. idcases H; try old_id. destruct H as (c & H & _). discriminate.
  - (* form change *)
    injection Hrun as <-.
    apply (Above_intro x s); [exact A | exact K | | exact Sel | exact Clip].
    intros y H. idcases H; old_id.
  - (* save *)
    unfold saveChanges in Hrun. destruct (currentTask s) as [cur|] eqn:C;
      [|injection Hrun as <-; exact A].
    destruct (saveLoop_total cur (formData s) (tasks s) K) as (o' & E & K' & G').
    rewrite E in Hrun. injection Hrun as <-.
    destruct (uniqueBuckets_same_ids (tasks s) o' K K' G') as [_ Hb].
    assert (Hsome : forall z, inSomeBucket (tasks s) z -> inSomeBucket o' z).
    { intros z (d & Hd). exists d. now apply Hb. }
    apply (Above_intro x s); cbn [tasks selectedTasks clipboard clipboardMode];
      [exact A | exact K' | | | ].
    + intros y H. idcases H; try old_id.
      * destruct H as (d & Hd). apply Hb in Hd. left. left. exists d. auto.
      * rewrite map_id_editOf in H. old_id.
      * rewrite map_id_editOf in H. old_id.
      * destruct H as (c & H & _). discriminate.
    + intros Hs. destruct Sel as [z Hz]; eauto.
      intros Hnil. apply Hs. now rewrite Hnil.
    + intros M Hc. destruct (Clip M Hc) as [z Hz]. eauto.
  - (* drag start *)
    injection Hrun as <-. pose proof (rendered_inSomeBucket _ _ En) as R.
    assert (T : tasks (handleDragStart task s) = tasks s /\
                clipboard (handleDragStart task s) = clipboard s /\
                clipboardMode (handleDragStart task s) = clipboardMode s /\
                folder (handleDragStart task s) = folder s /\
                currentTask (handleDragStart task s) = currentTask s).
    { unfold handleDragStart. destruct (Js.some _ _ && _); repeat split. }
    destruct T as (T1 & T2 & T3 & T4 & T5).
    apply (Above_intro x s); rewrite ?T1, ?T2, ?T3;
      [exact A | exact K | | | exact Clip].
    + intros y H. unfold idInState in H. rewrite T1, T2, T4, T5 in H.
      destruct H as [H|[H|[H|[H|[H|H]]]]]; try old_id.
      * destruct (handleDragStart_ids task s y (or_introl H)) as [H'| ->]; old_id.
      * destruct (handleDragStart_ids task s y (or_intror H)) as [H'| ->]; old_id.
    + intros _. eauto.
  - (* drop on a day *)
    unfold handleDayDrop in Hrun. destruct (draggedTask s) as [p|] eqn:D;
      [|injection Hrun as <-; exact A].
    destruct (moveAll_total day En (payloadTasks p) (tasks s) false K)
      as (o' & c' & E & K' & Hc & Hids).
    rewrite E in Hrun. injection Hrun as <-. cbn [fst snd].
    assert (T : (if c' then o' else tasks s) = o').
    { destruct c'; auto. now rewrite (Hc eq_refl). }
    rewrite T.
    apply (Above_intro x s); cbn [tasks selectedTasks clipboard clipboardMode];
      [exact A | exact K' | | | ].
    + intros y H. idcases H; try old_id.
      apply Hids in H. old_id.
    + intros Hs. destruct (Sel Hs) as [z Hz]. exists z. now apply Hids.
    + intros M Hcl. destruct (Clip M Hcl) as [z Hz]. exists z. now apply Hids.
  - (* drop on the folder *)
    injection Hrun as <-. unfold handleFolderDrop.
    destruct (draggedTask s) as [p|] eqn:D; [|exact A].
    apply (Above_intro x s); cbn [tasks selectedTasks clipboard clipboardMode];
      [exact A | exact K | | exact Sel | exact Clip].
    intros y H. idcases H; try old_id.
    rewrite folder_append, map_app, in_app_iff in H.
    destruct H as [H|H]; [old_id|].
    apply in_ids_notInFolder in H. destruct H as [H _].
    left. unfold idInState. rewrite D. cbn [payloadOf]. tauto.
Qed.

Lemma evolves_Above (x : Z) (s0 s : State) :
  Above x s0 -> evolves s0 s -> Above x s.
Proof.
  intros A. induction 1 as [|s op s' _ IH En Hrun]; auto.
  eapply Above_step; eauto.
Qed.

End Lost.

(** C5, as stated, fails: a cut task waits in the clipboard, and the next
    copy replaces the clipboard.  After cutting task 1 and copying task 2,
    id 1 is in no bucket and not in the clipboard, nor anywhere else in the
    state, and no later event of the page brings it back. *)
Lemma C5_counterexample :
  exists s,
    replay lossEvents initialState = Some s /\ reachable s /\
    inSomeBucket (tasks initialState) 1 /\
    ~ conserved initialState s /\
    ~ idInState s 1 /\
    forall s', evolves s s' -> ~ idInState s' 1.
Proof.
  destruct (replay lossEvents initialState) as [s|] eqn:E; [|discriminate].
  exists s. split; [reflexivity|].
  split; [eapply replay_reachable; [exact reachable_init | exact E]|].
  vm_compute in E. injection E as <-.
  assert (In1 : inSomeBucket (tasks initialState) 1).
  { exists "Lundi". eexists. split; [reflexivity|]. simpl. auto. }
  match goal with |- _ /\ ~ conserved _ ?st /\ _ => set (s := st) end.
  assert (A : Above 1 s).
  { constructor.
    - reflexivity.
    - intros y H. unfold idInState, s in H.
      cbn [tasks clipboard selectedTasks draggedTask folder currentTask payloadOf] in H.
      destruct H as [H|[H|[H|[H|[H|H]]]]].
      + apply inSomeBucket_allTaskIds in H. vm_compute in H.
        repeat destruct H as [H|H]; try (subst y; reflexivity). destruct H.
      + simpl in H. destruct H as [<-|[]]. reflexivity.
      + simpl in H. destruct H as [<-|[]]. reflexivity.
      + destruct H.
      + destruct H.
      + destruct H as (c & H & _). discriminate.
    - intros _. exists 2, "Lundi". eexists. split; [reflexivity|]. simpl. auto.
    - intros _ _. exists 2, "Lundi". eexists. split; [reflexivity|]. simpl. auto. }
  assert (Later : forall s', evolves s s' -> ~ idInState s' 1).
  { intros s' Ev H. pose proof (above_ids _ _ (evolves_Above 1 _ _ A Ev) 1 H). lia. }
  pose proof (Later _ (evolves_refl _)) as Now.
  split; [exact In1|]. split; [|split; [exact Now | exact Later]].
  intros C. apply Now. unfold idInState. destruct (C 1 In1) as [H|H]; auto.
Qed.

Section Held.

(** No handler adds or deletes a property of the buckets object. *)
Lemma run_keys (op : Op) (s s' : State) :
  wfKeys (tasks s) -> run op s = Some s' -> wfKeys (tasks s').
Proof.
  intros K Hrun.
  destruct op; cbn [run] in Hrun; try (injection Hrun as <-); try exact K.
  - unfold copySelectedTasks. destruct (selectedTasks s); exact K.
  - unfold cutSelectedTasks. destruct (selectedTasks s) as [|t0 sel]; [exact K|].
    cbn [tasks]. now apply cutAll_keys.
  - unfold pasteTasksToDay in Hrun.
    destruct (clipboard s) as [|c0 clip]; [injection Hrun as <-; exact K|].
    destruct (clipboardMode s); destruct (Js.get (tasks s) day) as [old|] eqn:G;
      try discriminate; injection Hrun as <-; cbn [tasks];
      apply wfKeys_set; auto; exact (wfKeys_weekday _ _ _ K G).
  - unfold addSelectedTasksToFolder. destruct (selectedTasks s); exact K.
  - unfold saveChanges in Hrun.
    destruct (currentTask s) as [cur|]; [|injection Hrun as <-; exact K].
    destruct (saveLoop_total cur (formData s) (tasks s) K) as (o' & E & K' & _).
    rewrite E in Hrun. injection Hrun as <-. exact K'.
  - unfold handleDragStart. destruct (Js.some _ _ && _); exact K.
  - unfold handleDayDrop in Hrun.
    destruct (draggedTask s) as [p|]; [|injection Hrun as <-; exact K].
    destruct (moveAll day (tasks s, false) (payloadTasks p)) as [[o' c']|] eqn:E;
      [|discriminate].
    injection Hrun as <-. cbn [tasks fst snd].
    destruct (in_dec string_dec day weekdays) as [Hday|Hoff].
    + destruct (moveAll_total day Hday (payloadTasks p) (tasks s) false K)
        as (o2 & c2 & E2 & K2 & _).
      rewrite E in E2. injection E2 as <- <-. destruct c'; [exact K2 | exact K].
    + destruct (moveAll_offday day _ _ _ _ _ K Hoff E) as [-> ->]. exact K.
  - unfold handleFolderDrop. destruct (draggedTask s); exact K.
Qed.

(** Only the cut takes an id out of the buckets, and the cut puts it in the
    clipboard. *)
Lemma run_keeps_bucket_ids (op : Op) (s s' : State) (x : Z) :
  wfKeys (tasks s) -> run op s = Some s' -> inSomeBucket (tasks s) x ->
  inSomeBucket (tasks s') x \/
  (op = OpCut /\ clipboardMode s' = cut /\ In x (map id (clipboard s'))).
Proof.
  intros K Hrun Hx.
  destruct op; cbn [run] in Hrun; try (injection Hrun as <-).
  - left. exact Hx.
  - left. unfold copySelectedTasks. destruct (selectedTasks s); exact Hx.
  - unfold cutSelectedTasks. destruct (selectedTasks s) as [|t0 sel] eqn:Esel; [left; exact Hx|].
    cbn [tasks clipboard clipboardMode].
    destruct (in_dec Z.eq_dec x (map id (t0 :: sel))) as [Hin|Hout].
    + right. repeat split; auto.
    + left. now apply cutAll_keeps.
  - left. unfold pasteTasksToDay in Hrun.
    destruct (clipboard s) as [|c0 clip]; [injection Hrun as <-; exact Hx|].
    destruct Hx as (d & Hd).
    assert (Hset : forall old new, Js.get (tasks s) day = Some old ->
                   inSomeBucket (Js.set (tasks s) day (old ++ new)) x).
    { intros old new G. exists d. apply inBucket_set.
      destruct (string_dec day d) as [<-|N]; [left|right]; split; auto.
      destruct Hd as (l & G' & Hin). rewrite G in G'. injection G' as <-.
      rewrite map_app. apply in_or_app. auto. }
    destruct (clipboardMode s); destruct (Js.get (tasks s) day) as [old|] eqn:G;
      try discriminate; injection Hrun as <-; cbn [tasks]; now apply Hset.
  - left. unfold addSelectedTasksToFolder. destruct (selectedTasks s); exact Hx.
  - left. exact Hx.
  - left. exact Hx.
  - left. exact Hx.
  - left. exact Hx.
  - left. unfold saveChanges in Hrun.
    destruct (currentTask s) as [cur|]; [|injection Hrun as <-; exact Hx].
    destruct (saveLoop_total cur (formData s) (tasks s) K) as (o' & E & K' & G').
    rewrite E in Hrun. injection Hrun as <-. cbn [tasks].
    destruct Hx as (d & Hd). exists d.
    now apply (proj2 (uniqueBuckets_same_ids (tasks s) o' K K' G')).
  - left. unfold handleDragStart. destruct (Js.some _ _ && _); exact Hx.
  - left. unfold handleDayDrop in Hrun.
    destruct (draggedTask s) as [p|]; [|injection Hrun as <-; exact Hx].
    destruct (moveAll day (tasks s, false) (payloadTasks p)) as [[o' c']|] eqn:E;
      [|discriminate].
    injection Hrun as <-. cbn [tasks fst snd].
    destruct (in_dec string_dec day weekdays) as [Hday|Hoff].
    + destruct (moveAll_total day Hday (payloadTasks p) (tasks s) false K)
        as (o2 & c2 & E2 & _ & Hc & Hids).
      rewrite E in E2. injection E2 as <- <-.
      destruct c'; [now apply Hids | exact Hx].
    + destruct (moveAll_offday day _ _ _ _ _ K Hoff E) as [-> ->]. exact Hx.
  - left. unfold handleFolderDrop. destruct (draggedTask s); exact Hx.
Qed.

(** A paste in cut mode returns every id of the clipboard to the target
    bucket. *)
Lemma paste_returns (day : string) (s : State) (x : Z) :
  wfKeys (tasks s) -> In day weekdays ->
  clipboardMode s = cut -> In x (map id (clipboard s)) ->
  exists s', pasteTasksToDay day s = Some s' /\ inBucket (tasks s') day x.
Proof.
  intros K Hday Hm Hx. destruct (wfKeys_get _ _ K Hday) as [old G].
  unfold pasteTasksToDay.
  destruct (clipboard s) as [|c0 clip] eqn:E; [destruct Hx|].
  rewrite Hm, G. eexists. split; [reflexivity|]. cbn [tasks].
  eexists. split; [apply get_set_eq|]. rewrite map_app. apply in_or_app. auto.
Qed.

(** An id held by the state is held after every operation, unless the
    operation replaces the clipboard while no bucket holds the id. *)
Lemma run_held (op : Op) (s s' : State) (x : Z) :
  wfKeys (tasks s) -> run op s = Some s' -> held s x ->
  held s' x \/ (overwrites op s /\ ~ inSomeBucket (tasks s) x).
Proof.
  intros K Hrun H.
  destruct (in_dec Z.eq_dec x (allTaskIds (tasks s))) as [Hin|Hout].
  { left. apply allTaskIds_inSomeBucket in Hin; [|now apply wfKeys_NoDup].
    destruct (run_keeps_bucket_ids op s s' x K Hrun Hin) as [Hb|(_ & Hm & Hc)];
      [left | right]; auto. }
  assert (Hno : ~ inSomeBucket (tasks s) x).
  { intros Hb. apply Hout. now apply inSomeBucket_allTaskIds. }
  destruct H as [Hb|[Hm Hc]]; [contradiction|].
  assert (Same : forall st, clipboard st = clipboard s ->
                 clipboardMode st = clipboardMode s -> held st x).
  { intros st E1 E2. right. rewrite E1, E2. auto. }
  destruct op; cbn [run] in Hrun; try (injection Hrun as <-);
    try (left; apply Same; reflexivity).
  - unfold copySelectedTasks.
    destruct (selectedTasks s) as [|t0 sel] eqn:Esel;
      [left; apply Same; reflexivity|].
    right. split; [|exact Hno]. split; [now left|]. rewrite Esel. discriminate.
  - unfold cutSelectedTasks.
    destruct (selectedTasks s) as [|t0 sel] eqn:Esel;
      [left; apply Same; reflexivity|].
    right. split; [|exact Hno]. split; [now right|]. rewrite Esel. discriminate.
  - left. left. unfold pasteTasksToDay in Hrun.
    destruct (clipboard s) as [|c0 clip] eqn:E; [destruct Hc|].
    rewrite Hm in Hrun.
    destruct (Js.get (tasks s) day) as [old|] eqn:G; [|discriminate].
    injection Hrun as <-. cbn [tasks]. exists day.
    eexists. split; [apply get_set_eq|]. rewrite map_app. apply in_or_app. auto.
  - left. unfold addSelectedTasksToFolder.
    destruct (selectedTasks s); apply Same; reflexivity.
  - left. unfold saveChanges in Hrun.
    destruct (currentTask s) as [cur|]; [|injection Hrun as <-; apply Same; reflexivity].
    destruct (saveLoop weekdays (tasks s) cur (formData s)); [|discriminate].
    injection Hrun as <-. apply Same; reflexivity.
  - left. unfold handleDragStart. destruct (Js.some _ _ && _); apply Same; reflexivity.
  - left. unfold handleDayDrop in Hrun.
    destruct (draggedTask s) as [p|]; [|injection Hrun as <-; apply Same; reflexivity].
    destruct (moveAll day (tasks s, false) (payloadTasks p)); [|discriminate].
    injection Hrun as <-. apply Same; reflexivity.
  - left. unfold handleFolderDrop. destruct (draggedTask s); apply Same; reflexivity.
Qed.

(** The same along a sequence of operations. *)
Lemma runAll_held (x : Z) (ops : list Op) (s s' : State) :
  wfKeys (tasks s) -> runAll ops s = Some s' -> spared x ops s ->
  held s x -> held s' x.
Proof.
  revert s. induction ops as [|op ops IH]; cbn [runAll spared]; intros s K Hrun Hsp H.
  - injection Hrun as <-. exact H.
  - destruct (run op s) as [s1|] eqn:E; [|discriminate].
    destruct Hsp as [Hkeep Hrest].
    apply (IH s1); auto.
    + eapply run_keys; eauto.
    + destruct (run_held op s s1 x K E H) as [H1|Hlost]; [exact H1 | contradiction].
Qed.

End Held.

(** C5 (amended). A task id that a bucket holds, or that the clipboard
    holds in mode [cut], is still held in one of these two ways after every
    operation, with one exception: a copy or a cut of a non-empty selection
    replaces the clipboard, and an id that no bucket holds is then lost.
    Along every sequence of operations in which the clipboard is never
    replaced while no bucket holds the id, the id stays held.  The cut is
    the only operation that takes an id out of the buckets, and it puts the
    id in the clipboard in mode [cut] (with unique buckets, every selected
    id is then in no bucket); from there a paste into any weekday returns
    it to that bucket.  [removeFromFolder] deletes the folder entries of
    the id and leaves the buckets as they are. *)
Theorem C5_removal_paths (s : State) (x : Z) :
  wfKeys (tasks s) -> held s x ->
  (forall op s', run op s = Some s' ->
     held s' x \/ (overwrites op s /\ ~ inSomeBucket (tasks s) x)) /\
  (forall ops s', runAll ops s = Some s' -> spared x ops s -> held s' x) /\
  (forall op s', run op s = Some s' -> inSomeBucket (tasks s) x ->
     inSomeBucket (tasks s') x \/
     (op = OpCut /\ clipboardMode s' = cut /\ In x (map id (clipboard s')) /\
      forall day, In day weekdays ->
        exists s2, pasteTasksToDay day s' = Some s2 /\
                   inBucket (tasks s2) day x)) /\
  (uniqueBuckets (tasks s) -> In x (map id (selectedTasks s)) ->
   ~ inSomeBucket (tasks (cutSelectedTasks s)) x /\
   clipboardMode (cutSelectedTasks s) = cut /\
   In x (map id (clipboard (cutSelectedTasks s)))) /\
  (forall day, In day weekdays ->
     clipboardMode s = cut -> In x (map id (clipboard s)) ->
     exists s', pasteTasksToDay day s = Some s' /\ inBucket (tasks s') day x) /\
  (forall i, tasks (removeFromFolder i s) = tasks s /\
             ~ In i (map id (folder (removeFromFolder i s)))).
Proof.
  intros K H. split; [|split; [|split; [|split; [|split]]]].
  - intros op s' Hrun. now apply run_held.
  - intros ops s' Hrun Hsp. now apply (runAll_held x ops s).
  - intros op s' Hrun Hx.
    destruct (run_keeps_bucket_ids op s s' x K Hrun Hx) as [Hb|(Hop & Hm & Hc)];
      [left; exact Hb|].
    right. do 3 (split; [assumption|]). intros day Hday.
    apply paste_returns; auto. eapply run_keys; eauto.
  - intros U Hsel. unfold cutSelectedTasks.
    destruct (selectedTasks s) as [|t0 sel] eqn:Esel; [destruct Hsel|].
    cbn [tasks clipboard clipboardMode]. split; [|split; [reflexivity | exact Hsel]].
    destruct (cutAll_spec (t0 :: sel) (tasks s) K U) as (K' & _ & G').
    intros (d & l' & Gd & Hin).
    destruct (wfKeys_get _ d K (wfKeys_weekday _ _ _ K' Gd)) as [l G].
    rewrite (G' d l G) in Gd. injection Gd as <-.
    apply in_map_iff in Hin. destruct Hin as (a & <- & Ha).
    apply filter_In in Ha. destruct Ha as [_ Ha].
    apply keptBy_true in Ha. contradiction.
  - intros day Hday Hm Hc. now apply paste_returns.
  - intros i. split; [reflexivity|]. unfold removeFromFolder. cbn [folder].
    intros Hin. apply in_map_iff in Hin. destruct Hin as (t & E & Hin).
    apply filter_In in Hin. destruct Hin as [_ Hb].
    rewrite E, Z.eqb_refl in Hb. discriminate.
Qed.

Lemma C5_removal_paths_witness :
  let s := cutSelectedTasks (selectTask task1 false initialState) in
  held s 1 /\
  exists s',
    runAll [OpSelect task2 false; OpPaste "Mardi"; OpSelect task2 false; OpCopy] s
    = Some s' /\
    held s' 1.
Proof.
  cbv zeta.
  assert (H : held (cutSelectedTasks (selectTask task1 false initialState)) 1).
  { right. split; [reflexivity|]. simpl. auto. }
  split; [exact H|].
  destruct (C5_removal_paths (cutSelectedTasks (selectTask task1 false initialState)) 1)
    as (_ & Trace & _); [reflexivity | exact H |].
  eexists. split; [reflexivity|].
  apply (Trace [OpSelect task2 false; OpPaste "Mardi"; OpSelect task2 false; OpCopy]).
  - reflexivity.
  - cbn [spared run]. split; [intros [[[E|E] _] _]; discriminate|].
    change (pasteTasksToDay "Mardi" ?st) with (run (OpPaste "Mardi") st).
    split; [intros [[[E|E] _] _]; discriminate|].
    cbn. split; [intros [[[E|E] _] _]; discriminate|].
    split; [|exact I]. intros [_ Hno]. apply Hno.
    exists "Mardi". eexists. split; [reflexivity|]. simpl. auto.
Defined.

Section DropOnBucket.

Variable target : string.
Hypothesis target_day : In target weekdays.

(** A payload whose tasks are all owned by the target, or by no bucket,
    leaves the pair [(newTasks, changed)] as it is. *)
Lemma moveAll_stay (P : list Task) (o : TasksState) (c : bool) :
  wfKeys o ->
  (forall t, In t P ->
     findSourceDay weekdays o t = Some (Some target) \/
     findSourceDay weekdays o t = Some None) ->
  moveAll target (o, c) P = Some (o, c).
Proof.
  intros K. induction P as [|t P IH]; cbn [moveAll]; intros H; auto.
  destruct (moveOne_cases target target_day o c t K)
    as [[E _]|(src & sa & ta & F & Hne & _)].
  - rewrite E. apply IH. intros t' Ht'. apply H. now right.
  - exfalso. destruct (H t (or_introl eq_refl)) as [F'|F']; rewrite F in F'.
    + injection F' as ->. congruence.
    + discriminate.
Qed.

(** The handler, reduced to the loop over the payload. *)
Lemma handleDayDrop_fields (s : State) (p : DraggedPayload) :
  wfKeys (tasks s) -> draggedTask s = Some p ->
  exists s' c',
    handleDayDrop target s = Some s' /\
    moveAll target (tasks s, false) (payloadTasks p) = Some (tasks s', c') /\
    wfKeys (tasks s') /\
    draggedTask s' = None /\
    folder s' = folder s /\ selectedTasks s' = selectedTasks s /\
    clipboard s' = clipboard s /\ clipboardMode s' = clipboardMode s.
Proof.
  intros K D. unfold handleDayDrop. rewrite D.
  destruct (moveAll_total target target_day (payloadTasks p) (tasks s) false K)
    as (o' & c' & E & K' & Hc & _).
  rewrite E. eexists. exists c'. split; [reflexivity|].
  cbn [tasks fst snd draggedTask folder selectedTasks clipboard clipboardMode].
  assert (T : (if c' then o' else tasks s) = o').
  { destruct c'; auto. now rewrite (Hc eq_refl). }
  rewrite T. repeat split; auto.
Qed.

End DropOnBucket.

(** C6. [dropOnBucket] on a weekday [target] with a pending payload whose
    tasks are [P] (the tasks of a multi-selection payload, or the one task
    of a single payload): the handler returns, the payload is cleared and
    no other field than the buckets changes.  (a) If every task of [P] is
    owned by [target] (the scan stops at [target]) or by no bucket, the
    buckets are unchanged.  (b) A single payload task found in another
    bucket [src] is removed from [src] and appended to [target] only if
    [target] holds no task with its id; nothing else moves.  (c) With
    unique buckets and a payload that names each id once, [target] keeps
    its tasks in order and receives at its end the tasks of [P] that
    another bucket owned, in payload order, and every other bucket loses
    exactly the ids of [P].  (d) With unique buckets, a payload whose ids
    are all in [target] changes no bucket. *)
Theorem C6_dropOnBucket (s : State) (target : string) (P : list Task) :
  wfKeys (tasks s) -> In target weekdays ->
  draggedTask s = Some (multiTasks P) \/
  (exists t, P = [t] /\ draggedTask s = Some (singleTask t)) ->
  exists s',
    handleDayDrop target s = Some s' /\
    draggedTask s' = None /\
    folder s' = folder s /\ selectedTasks s' = selectedTasks s /\
    clipboard s' = clipboard s /\ clipboardMode s' = clipboardMode s /\
    ((forall t, In t P ->
        findSourceDay weekdays (tasks s) t = Some (Some target) \/
        findSourceDay weekdays (tasks s) t = Some None) ->
     tasks s' = tasks s) /\
    (forall t src srcArr tgtArr,
       draggedTask s = Some (singleTask t) ->
       findSourceDay weekdays (tasks s) t = Some (Some src) -> src <> target ->
       Js.get (tasks s) src = Some srcArr ->
       Js.get (tasks s) target = Some tgtArr ->
       Js.get (tasks s') src = Some (filter (otherId t) srcArr) /\
       Js.get (tasks s') target =
         Some (if Js.some (sameId t) tgtArr then tgtArr else tgtArr ++ [t]) /\
       forall d, d <> src -> d <> target ->
                 Js.get (tasks s') d = Js.get (tasks s) d) /\
    (uniqueBuckets (tasks s) -> NoDup (map id P) ->
     forall d l, Js.get (tasks s) d = Some l ->
       Js.get (tasks s') d =
       Some (if String.eqb d target
             then l ++ filter (ownedElsewhere (tasks s) target) P
             else filter (keptBy P) l)) /\
    (uniqueBuckets (tasks s) ->
     (forall t, In t P -> inBucket (tasks s) target (id t)) ->
     tasks s' = tasks s).
Proof.
  intros K Ht HP.
  assert (D : exists p, draggedTask s = Some p /\ payloadTasks p = P).
  { destruct HP as [D|(t & -> & D)]; eexists; split; try exact D; reflexivity. }
  clear HP. destruct D as (p & D & <-).
  destruct (handleDayDrop_fields target Ht s p K D)
    as (s' & c' & E & M & _ & D' & F' & S' & C' & CM').
  exists s'. do 6 (split; [assumption|]).
  assert (Stay : (forall t, In t (payloadTasks p) ->
                    findSourceDay weekdays (tasks s) t = Some (Some target) \/
                    findSourceDay weekdays (tasks s) t = Some None) ->
                 tasks s' = tasks s).
  { intros H. rewrite (moveAll_stay target Ht _ _ false K H) in M. congruence. }
  split; [exact Stay|]. split; [|split].
  - intros t src srcArr tgtArr Dt F Hne Gs Gt.
    assert (p = singleTask t) as -> by congruence.
    cbn [payloadTasks moveAll] in M.
    destruct (moveOne_cases target Ht (tasks s) false t K)
      as [[_ [Fs|[Fs _]]]|(src' & sa & ta & Fs & _ & _ & Gs' & _ & Gt' & E')];
      rewrite F in Fs; try discriminate.
    + injection Fs as ->. congruence.
    + injection Fs as <-. rewrite Gs in Gs'. rewrite Gt in Gt'.
      injection Gs' as <-. injection Gt' as <-.
      rewrite E' in M. injection M as M _. rewrite <- M. unfold movedTo.
      destruct (Js.some (sameId t) tgtArr) eqn:Sm.
      * rewrite get_set_eq. split; auto. split.
        -- rewrite get_set_ne; auto.
        -- intros d H1 H2. rewrite get_set_ne; auto.
      * split; [rewrite get_set_ne, get_set_eq; auto|].
        split; [apply get_set_eq|].
        intros d H1 H2. rewrite !get_set_ne; auto.
  - intros U Hnd d l G.
    destruct (moveAll_get target Ht (payloadTasks p) (tasks s) false Hnd K U)
      as (o2 & c2 & E2 & G2).
    rewrite M in E2. injection E2 as <- <-. now apply G2.
  - intros U Hin. apply Stay. intros t Hp. left.
    destruct (findSourceDay_spec weekdays (tasks s) t K (incl_refl _))
      as (r & Hr & Hspec).
    rewrite Hr. destruct r as [d|].
    + destruct Hspec as [_ Hd]. do 2 f_equal.
      apply (proj2 U d target (id t)); auto.
    + exfalso. apply (Hspec target Ht). auto.
Qed.

Lemma C6_dropOnBucket_witness :
  let s := handleDragStart task1
             (selectTask task2 true (selectTask task1 false initialState)) in
  draggedTask s = Some (multiTasks [task1; task2]) /\
  exists s',
    handleDayDrop "Mardi" s = Some s' /\ draggedTask s' = None /\
    Js.get (tasks s') "Lundi" = Some [] /\
    Js.get (tasks s') "Mardi" =
      Some [mkTask 3 "Conception UI" "Créer les maquettes" 8;
            mkTask 4 "Revue de code" "Revue des PR en attente" 3;
            task1; task2].
Proof.
  cbv zeta. split; [reflexivity|].
  destruct (C6_dropOnBucket
              (handleDragStart task1
                 (selectTask task2 true (selectTask task1 false initialState)))
              "Mardi" [task1; task2])
    as (s' & E & D & _ & _ & _ & _ & _ & _ & Hall & _).
  - reflexivity.
  - simpl. auto.
  - left. reflexivity.
  - exists s'. split; [exact E|]. split; [exact D|].
    assert (U : uniqueBuckets initialTasks).
    { apply (inv_buckets _ initialState_Inv). }
    assert (N : NoDup (map id [task1; task2])).
    { repeat constructor; simpl; intuition discriminate. }
    split.
    + rewrite (Hall U N "Lundi" _ eq_refl). reflexivity.
    + rewrite (Hall U N "Mardi" _ eq_refl). reflexivity.
Defined.

Section EditFacts.

Variables (cur : Task) (fd : TaskFormData).

Lemma editOf_editedEntry (t : Task) : editedEntry cur fd t (editOf cur fd t).
Proof.
  unfold editedEntry, editOf, applyForm, edited.
  destruct (id t =? id cur) eqn:E.
  - apply Z.eqb_eq in E. rewrite E. repeat split; auto. congruence.
  - apply Z.eqb_neq in E. repeat split; auto. congruence.
Qed.

Lemma map_editOf_editedList (l : list Task) : editedList cur fd l (map (editOf cur fd) l).
Proof.
  induction l as [|a l IH]; simpl; constructor; auto using editOf_editedEntry.
Qed.

Lemma editedList_In (l l' : list Task) (t' : Task) :
  editedList cur fd l l' -> In t' l' -> id t' = id cur -> t' = edited fd (id cur).
Proof.
  induction 1 as [|a a' l l' (Hid & He & _) _ IH]; simpl; [tauto|].
  intros [<-|Hin] E; auto. apply He. congruence.
Qed.

Lemma editedList_ids (l l' : list Task) :
  editedList cur fd l l' -> map id l' = map id l.
Proof.
  induction 1 as [|a a' l l' (Hid & _) _ IH]; simpl; congruence.
Qed.

End EditFacts.

(** C7. Edit propagation: with an edit in progress on the task [cur] and
    unique buckets, [commitEdit] returns and rewrites every array of the
    buckets, the selection and the folder position by position: each entry
    keeps its id and its place, the entries with the id of [cur] get the
    title, description and points of the form, the others are untouched.
    Hence the bucket entry, the selection entry and the folder entry of the
    edited task are the same record.  The clipboard, its mode and the drag
    payload are unchanged, and the edit surface is closed. *)
Theorem C7_commitEdit (s : State) (cur : Task) :
  wfKeys (tasks s) -> uniqueBuckets (tasks s) -> currentTask s = Some cur ->
  exists s',
    saveChanges s = Some s' /\
    (forall d l, Js.get (tasks s) d = Some l ->
       exists l', Js.get (tasks s') d = Some l' /\ editedList cur (formData s) l l') /\
    editedList cur (formData s) (selectedTasks s) (selectedTasks s') /\
    editedList cur (formData s) (folder s) (folder s') /\
    (forall d tb ts tf,
       hasTask (tasks s') d tb -> In ts (selectedTasks s') -> In tf (folder s') ->
       id tb = id cur -> id ts = id cur -> id tf = id cur ->
       tb = edited (formData s) (id cur) /\ ts = tb /\ tf = tb) /\
    clipboard s' = clipboard s /\ clipboardMode s' = clipboardMode s /\
    draggedTask s' = draggedTask s /\
    isModalOpen s' = false /\ currentTask s' = None.
Proof.
  intros K U C. unfold saveChanges. rewrite C.
  destruct (saveLoop_unique cur (formData s) (tasks s) K U) as (o' & E & K' & G').
  rewrite E. eexists. split; [reflexivity|].
  cbn [tasks folder selectedTasks clipboard clipboardMode draggedTask isModalOpen currentTask].
  assert (B : forall d l, Js.get (tasks s) d = Some l ->
              exists l', Js.get o' d = Some l' /\ editedList cur (formData s) l l').
  { intros d l G. exists (map (editOf cur (formData s)) l).
    split; [now apply G' | apply map_editOf_editedList]. }
  split; [exact B|].
  split; [apply map_editOf_editedList|]. split; [apply map_editOf_editedList|].
  split; [|repeat split; reflexivity].
  intros d tb ts tf (l' & Gd & Hb) Hs Hf Eb Es Ef.
  destruct (wfKeys_get _ d K (wfKeys_weekday _ _ _ K' Gd)) as [l G].
  destruct (B d l G) as (l2 & G2 & EL). rewrite Gd in G2. injection G2 as <-.
  rewrite (editedList_In cur (formData s) _ _ tb EL Hb Eb).
  rewrite (editedList_In cur (formData s) _ _ ts (map_editOf_editedList _ _ _) Hs Es).
  rewrite (editedList_In cur (formData s) _ _ tf (map_editOf_editedList _ _ _) Hf Ef).
  auto.
Qed.

Lemma C7_commitEdit_witness :
  let s := handleFormChange "points" "21"
             (openEditModal task1
                (selectTask task1 false
                   (addSelectedTasksToFolder (selectTask task1 false initialState)))) in
  exists s',
    saveChanges s = Some s' /\
    selectedTasks s' = [mkTask 1 (title task1) (description task1) 21] /\
    folder s' = [mkTask 1 (title task1) (description task1) 21] /\
    clipboard s' = [].
Proof.
  cbv zeta.
  match goal with |- exists s', saveChanges ?st = _ /\ _ =>
    destruct (C7_commitEdit st task1) as (s' & E & _ & _ & _ & _ & Hc & _)
  end.
  - reflexivity.
  - apply (inv_buckets _ initialState_Inv).
  - reflexivity.
  - exists s'. split; [exact E|].
    vm_compute in E. injection E as <-. repeat split.
Defined.

Section FolderFacts.

Lemma notInFolder_after_add (f P : list Task) (t : Task) :
  In t P -> notInFolder (f ++ filter (notInFolder f) P) t = false.
Proof.
  intros Hin. apply not_true_iff_false. rewrite notInFolder_true.
  intros H. apply H. rewrite map_app, in_app_iff.
  destruct (in_dec Z.eq_dec (id t) (map id f)) as [Hf|Hf]; [auto|].
  right. apply in_ids_notInFolder. split; auto. now apply in_map.
Qed.

Lemma filter_all_false {A} (p : A -> bool) (l : list A) :
  (forall x, In x l -> p x = false) -> filter p l = [].
Proof.
  induction l as [|a l IH]; simpl; intros H; auto.
  rewrite (H a (or_introl eq_refl)). apply IH. auto.
Qed.

End FolderFacts.

(** C8. Folder additive idempotence: with a non-empty selection,
    [addSelectionToFolder] appends to the folder, in selection order,
    exactly the selected tasks whose id the folder does not hold, clears
    the selection whether or not anything was appended, and touches nothing
    else; done again with the same selection it leaves the folder as it is;
    a folder and a selection without repeated ids give a folder without
    repeated ids.  [dropOnFolder] appends by the same rule the tasks [P] of
    the pending payload (the tasks of a multi-selection payload, or the one
    task of a single payload), clears the payload and leaves buckets and
    selection unchanged. *)
Theorem C8_folder_add (s : State) :
  selectedTasks s <> [] ->
  (let s1 := addSelectedTasksToFolder s in
   folder s1 = folder s ++ filter (notInFolder (folder s)) (selectedTasks s) /\
   (forall t, In t (filter (notInFolder (folder s)) (selectedTasks s)) <->
              In t (selectedTasks s) /\ ~ In (id t) (map id (folder s))) /\
   selectedTasks s1 = [] /\
   tasks s1 = tasks s /\ clipboard s1 = clipboard s /\
   clipboardMode s1 = clipboardMode s /\ draggedTask s1 = draggedTask s /\
   (forall s2, folder s2 = folder s1 -> selectedTasks s2 = selectedTasks s ->
               folder (addSelectedTasksToFolder s2) = folder s1 /\
               selectedTasks (addSelectedTasksToFolder s2) = []) /\
   (NoDup (map id (folder s)) -> NoDup (map id (selectedTasks s)) ->
    NoDup (map id (folder s1)))) /\
  (forall s0 P,
     draggedTask s0 = Some (multiTasks P) \/
     (exists t, P = [t] /\ draggedTask s0 = Some (singleTask t)) ->
     let s3 := handleFolderDrop s0 in
     folder s3 = folder s0 ++ filter (notInFolder (folder s0)) P /\
     (forall t, In t (filter (notInFolder (folder s0)) P) <->
                In t P /\ ~ In (id t) (map id (folder s0))) /\
     draggedTask s3 = None /\
     tasks s3 = tasks s0 /\ selectedTasks s3 = selectedTasks s0 /\
     clipboard s3 = clipboard s0 /\ clipboardMode s3 = clipboardMode s0).
Proof.
  intros Hsel.
  assert (Mem : forall f P t, In t (filter (notInFolder f) P) <->
                              In t P /\ ~ In (id t) (map id f)).
  { intros f P t. rewrite filter_In, notInFolder_true. tauto. }
  split.
  - cbv zeta. unfold addSelectedTasksToFolder.
    destruct (selectedTasks s) as [|t0 sel] eqn:E; [congruence|].
    cbn [folder selectedTasks tasks clipboard clipboardMode draggedTask].
    rewrite folder_append.
    split; [reflexivity|]. split; [apply Mem|].
    do 5 (split; [reflexivity|]). split.
    + intros s2 F2 S2. rewrite F2, S2.
      rewrite (filter_all_false (notInFolder _) (t0 :: sel)).
      * split; reflexivity.
      * intros x Hx. now apply notInFolder_after_add.
    + intros Hf Hs. now apply folder_add_NoDup.
  - intros s0 P HP.
    assert (D : exists p, draggedTask s0 = Some p /\ payloadTasks p = P).
    { destruct HP as [D|(t & -> & D)]; eexists; split; try exact D; reflexivity. }
    clear HP. destruct D as (p & D & <-).
    cbv zeta. unfold handleFolderDrop. rewrite D.
    cbn [folder selectedTasks tasks clipboard clipboardMode draggedTask].
    rewrite folder_append. split; [reflexivity|]. split; [apply Mem|].
    repeat split; reflexivity.
Qed.

Lemma C8_folder_add_witness :
  let s := selectTask task1 false initialState in
  let s2 := selectTask task2 true s in
  folder (addSelectedTasksToFolder s) = [task1] /\
  selectedTasks (addSelectedTasksToFolder s) = [] /\
  folder (addSelectedTasksToFolder
            (selectTask task1 false (addSelectedTasksToFolder s))) = [task1] /\
  folder (handleFolderDrop (handleDragStart task2 (addSelectedTasksToFolder s)))
  = [task1; task2] /\
  folder (handleFolderDrop (handleDragStart task1 (addSelectedTasksToFolder s2)))
  = [task1; task2] /\
  folder (handleFolderDrop (handleDragStart task1 s2)) = [task1; task2].
Proof.
  cbv zeta.
  destruct (C8_folder_add (selectTask task1 false initialState))
    as [(F & _ & S & _ & _ & _ & _ & Again & _) Drop].
  - discriminate.
  - split; [exact F|]. split; [exact S|]. split; [|split; [|split]].
    + apply (Again (selectTask task1 false
                      (addSelectedTasksToFolder (selectTask task1 false initialState))));
        reflexivity.
    + apply (Drop (handleDragStart task2
                     (addSelectedTasksToFolder (selectTask task1 false initialState)))
                  [task2]).
      right. exists task2. split; reflexivity.
    + apply (Drop (handleDragStart task1
                     (addSelectedTasksToFolder
                        (selectTask task2 true (selectTask task1 false initialState))))
                  [task1]).
      right. exists task1. split; reflexivity.
    + apply (Drop (handleDragStart task1
                     (selectTask task2 true (selectTask task1 false initialState)))
                  [task1; task2]).
      left. reflexivity.
Defined.

Section SelectFacts.

Lemma NoDup_singleton_set (l : list Z) (a : Z) :
  NoDup l -> (forall x, In x l <-> x = a) -> l = [a].
Proof.
  intros Hnd H. destruct l as [|b l].
  - exfalso. apply (proj2 (H a) eq_refl).
  - assert (b = a) by (apply H; simpl; auto). subst b.
    destruct l as [|c l]; auto.
    assert (c = a) by (apply H; simpl; auto). subst c.
    inversion Hnd as [|? ? Hn _]; subst. exfalso. apply Hn. simpl. auto.
Qed.

End SelectFacts.

(** C9. [select]: with the modifier, a task whose id is selected is removed
    from the selection and one whose id is not is added at its end, the
    entries with other ids staying as and where they are; without the
    modifier, the selection becomes empty if its set of ids is exactly that
    of the task, and the task alone otherwise.  No other field changes.
    (The selection is kept as a list that names each id once.) *)
Theorem C9_select (s : State) (t : Task) :
  NoDup (map id (selectedTasks s)) ->
  (let s1 := selectTask t true s in
   (In (id t) (map id (selectedTasks s)) ->
      ~ In (id t) (map id (selectedTasks s1))) /\
   (~ In (id t) (map id (selectedTasks s)) ->
      selectedTasks s1 = selectedTasks s ++ [t]) /\
   (forall x, x <> id t ->
      (In x (map id (selectedTasks s1)) <-> In x (map id (selectedTasks s)))) /\
   filter (otherId t) (selectedTasks s1) = filter (otherId t) (selectedTasks s) /\
   NoDup (map id (selectedTasks s1)) /\
   sameButSelection s s1) /\
  (let s0 := selectTask t false s in
   ((forall x, In x (map id (selectedTasks s)) <-> x = id t) ->
      selectedTasks s0 = []) /\
   (~ (forall x, In x (map id (selectedTasks s)) <-> x = id t) ->
      selectedTasks s0 = [t]) /\
   sameButSelection s s0).
Proof.
  intros Hnd. split; cbv zeta.
  - assert (FF : forall l, filter (otherId t) (filter (otherId t) l) = filter (otherId t) l).
    { induction l as [|a l IH]; simpl; auto.
      destruct (otherId t a) eqn:E; simpl; rewrite ?E, IH; auto. }
    split; [|split; [|split; [|split; [|split]]]].
    + intros Hin. unfold selectTask. cbn [selectedTasks].
      rewrite (proj2 (some_sameId t _) Hin).
      rewrite in_ids_filter_otherId. tauto.
    + intros Hout. unfold selectTask. cbn [selectedTasks].
      now rewrite (proj2 (some_sameId_false t _) Hout).
    + intros x Hx. unfold selectTask. cbn [selectedTasks].
      destruct (Js.some (sameId t) (selectedTasks s)).
      * rewrite in_ids_filter_otherId. tauto.
      * rewrite map_app, in_app_iff. simpl. split; [|tauto].
        intros [H|[H|[]]]; [auto|congruence].
    + unfold selectTask. cbn [selectedTasks].
      destruct (Js.some (sameId t) (selectedTasks s)); [apply FF|].
      rewrite filter_app. simpl. unfold otherId at 2.
      rewrite Z.eqb_refl. simpl. apply app_nil_r.
    + now apply selectTask_sel_NoDup.
    + repeat split.
  - split; [|split].
    + intros Hset. unfold selectTask. cbn [selectedTasks].
      pose proof (NoDup_singleton_set _ _ Hnd Hset) as E.
      destruct (selectedTasks s) as [|t0 [|t1 rest]]; try discriminate.
      simpl in E. injection E as E. now rewrite E, Z.eqb_refl.
    + intros Hnot. unfold selectTask. cbn [selectedTasks].
      destruct (selectedTasks s) as [|t0 [|t1 rest]]; auto.
      destruct (id t0 =? id t) eqn:E; auto.
      apply Z.eqb_eq in E. exfalso. apply Hnot. intros x. simpl.
      rewrite E. split; [intros [H|[]]; auto | auto].
    + repeat split.
Qed.

Lemma C9_select_witness :
  let s := selectTask task1 false initialState in
  selectedTasks (selectTask task2 true s) = [task1; task2] /\
  selectedTasks (selectTask task1 false s) = [] /\
  selectedTasks (selectTask task2 false s) = [task2].
Proof.
  cbv zeta.
  destruct (C9_select (selectTask task1 false initialState) task2) as [(_ & A & _) (_ & B & _)].
  - repeat constructor. simpl. tauto.
  - destruct (C9_select (selectTask task1 false initialState) task1) as [_ (C & _)].
    + repeat constructor. simpl. tauto.
    + split; [|split].
      * apply A. simpl. intros [H|[]]. discriminate.
      * apply C. intros x. simpl. split; [intros [H|[]]; auto | auto].
      * apply B. intros H. specialize (H 1). simpl in H.
        assert (E : 1 = 2) by (apply H; auto). discriminate.
Defined.

Section StalePayload.

Lemma NoDup_ids_inj (l : list Task) (a b : Task) :
  NoDup (map id l) -> In a l -> In b l -> id a = id b -> a = b.
Proof.
  induction l as [|c l IH]; simpl; [tauto|].
  intros Hnd Ha Hb E. inversion Hnd as [|? ? Hn Hnd']; subst.
  destruct Ha as [->|Ha]; destruct Hb as [->|Hb]; auto.
  - exfalso. apply Hn. rewrite E. now apply in_map.
  - exfalso. apply Hn. rewrite <- E. now apply in_map.
Qed.


End StalePayload.



(** * Further properties of the handlers *)

Section ReachableShape.

Lemma selectionInBuckets_step (op : Op) (s s' : State) :
  wfKeys (tasks s) -> selectionInBuckets s ->
  enabled op s -> run op s = Some s' -> selectionInBuckets s'.
Proof.
  intros K S En Hrun. unfold selectionInBuckets in *.
  destruct op; cbn [run enabled] in *.
  - injection Hrun as <-. intros x H.
    apply selectTask_ids in H. destruct H as [H| ->]; [now apply S|].
    now apply rendered_inSomeBucket.
  - injection Hrun as <-. unfold copySelectedTasks.
    destruct (selectedTasks s) eqn:E; [rewrite E; exact S|]. exact S.
  - injection Hrun as <-. unfold cutSelectedTasks.
    destruct (selectedTasks s) eqn:E; [rewrite E; exact S|].
    cbn [selectedTasks]. intros x [].
  - unfold pasteTasksToDay in Hrun.
    destruct (clipboard s); [injection Hrun as <-; exact S|].
    destruct (clipboardMode s); destruct (Js.get (tasks s) day) as [old|] eqn:G;
      try discriminate; injection Hrun as <-; cbn [tasks selectedTasks];
      intros x H; apply set_append_keeps; auto.
  - injection Hrun as <-. unfold addSelectedTasksToFolder.
    destruct (selectedTasks s) eqn:E; [rewrite E; exact S|].
    cbn [selectedTasks]. intros x [].
  - injection Hrun as <-. exact S.
  - injection Hrun as <-. exact S.
  - injection Hrun as <-. exact S.
  - injection Hrun as <-. exact S.
  - unfold saveChanges in Hrun. destruct (currentTask s) as [cur|];
      [|injection Hrun as <-; exact S].
    destruct (saveLoop_total cur (formData s) (tasks s) K) as (o' & E & K' & G').
    rewrite E in Hrun. injection Hrun as <-. cbn [tasks selectedTasks].
    destruct (uniqueBuckets_same_ids (tasks s) o' K K' G') as [_ Hb].
    intros x H. rewrite map_id_editOf in H.
    destruct (S x H) as (d & Hd). exists d. now apply Hb.
  - injection Hrun as <-. pose proof (rendered_inSomeBucket _ _ En) as R.
    assert (T : tasks (handleDragStart task s) = tasks s).
    { unfold handleDragStart. destruct (Js.some _ _ && _); reflexivity. }
    rewrite T. intros x H.
    destruct (handleDragStart_ids task s x (or_introl H)) as [H'| ->]; auto.
  - unfold handleDayDrop in Hrun. destruct (draggedTask s) as [p|];
      [|injection Hrun as <-; exact S].
    destruct (moveAll_total day En (payloadTasks p) (tasks s) false K)
      as (o' & c' & E & K' & Hc & Hids).
    rewrite E in Hrun. injection Hrun as <-. cbn [tasks selectedTasks fst snd].
    intros x H. destruct c'; [apply Hids|]; auto.
  - injection Hrun as <-. unfold handleFolderDrop.
    destruct (draggedTask s); exact S.
Qed.

Lemma reachable_selectionInBuckets (s : State) :
  reachable s -> selectionInBuckets s.
Proof.
  induction 1 as [|s op s' R IH En Hrun].
  - intros x [].
  - eapply selectionInBuckets_step; eauto.
    apply (inv_keys _ (reachable_Inv s R)).
Qed.

End ReachableShape.

(** X1. In every state the page can reach, the object of the buckets has
    exactly the seven weekdays as its properties, in their order; the
    selection and the pending drag payload name each id once; and while the
    clipboard is in mode [cut], the tasks it holds have ids that are in no
    bucket and are pairwise distinct. *)
Theorem X1_reachable_shape (s : State) :
  reachable s ->
  Js.keys (tasks s) = weekdays /\
  NoDup (map id (selectedTasks s)) /\
  NoDup (map id (payloadOf (draggedTask s))) /\
  (clipboardMode s = cut ->
   NoDup (map id (clipboard s)) /\
   forall t, In t (clipboard s) -> ~ inSomeBucket (tasks s) (id t)).
Proof.
  intros R. destruct (reachable_Inv s R) as [K _ _ S D C].
  repeat split; auto.
  - now apply C.
  - intros t Ht. apply (proj2 (C H)). now apply in_map.
Qed.

Lemma X1_reachable_shape_witness :
  Js.keys (tasks initialState) = weekdays /\
  NoDup (map id (selectedTasks initialState)).
Proof.
  destruct (X1_reachable_shape initialState reachable_init) as (K & S & _).
  split; [exact K | exact S].
Defined.

(** X2. In every state the page can reach, every selected task has the id
    of a task that is in some bucket: no handler leaves a selection entry
    behind for a task that left the buckets. *)
Theorem X2_selection_in_buckets (s : State) (t : Task) :
  reachable s -> In t (selectedTasks s) -> inSomeBucket (tasks s) (id t).
Proof.
  intros R Ht. apply (reachable_selectionInBuckets s R). now apply in_map.
Qed.

Lemma X2_selection_in_buckets_witness :
  inSomeBucket (tasks (selectTask task1 false initialState)) (id task1).
Proof.
  apply (X2_selection_in_buckets (selectTask task1 false initialState) task1).
  - apply (replay_reachable [OpSelect task1 false] initialState);
      [exact reachable_init | reflexivity].
  - simpl. auto.
Defined.

Section DragStart.

Lemma drag_ids_agree (task : Task) (s : State) :
  map id (payloadOf (draggedTask (handleDragStart task s)))
  = map id (selectedTasks (handleDragStart task s)) /\
  In (id task) (map id (selectedTasks (handleDragStart task s))).
Proof.
  unfold handleDragStart.
  destruct (Js.some (sameId task) (selectedTasks s)) eqn:Sel.
  - destruct (1 <? List.length (selectedTasks s))%nat eqn:Len;
      cbn [andb negb orb draggedTask selectedTasks payloadOf payloadTasks].
    + split; auto. now apply some_sameId.
    + apply Nat.ltb_ge in Len.
      destruct (selectedTasks s) as [|t0 [|t1 rest]] eqn:E.
      * discriminate.
      * simpl in Sel. rewrite orb_false_r in Sel. unfold sameId in Sel.
        apply Z.eqb_eq in Sel. simpl. rewrite Sel. auto.
      * simpl in Len. lia.
  - cbn [andb negb orb draggedTask selectedTasks payloadOf payloadTasks].
    simpl. auto.
Qed.

End DragStart.

(** X3. [beginDrag] always leaves the payload and the selection with the
    same ids in the same order, the dragged task's id among them, and
    touches neither the buckets, the folder nor the clipboard.  The payload
    is the whole selection exactly when the task is selected with others;
    otherwise it is the dragged task alone. *)
Theorem X3_drag_payload_is_selection (task : Task) (s : State) :
  let s1 := handleDragStart task s in
  map id (payloadOf (draggedTask s1)) = map id (selectedTasks s1) /\
  In (id task) (map id (selectedTasks s1)) /\
  tasks s1 = tasks s /\ folder s1 = folder s /\
  clipboard s1 = clipboard s /\ clipboardMode s1 = clipboardMode s /\
  (isSelected s task = true /\ (1 < List.length (selectedTasks s))%nat ->
   draggedTask s1 = Some (multiTasks (selectedTasks s)) /\
   selectedTasks s1 = selectedTasks s) /\
  (~ (isSelected s task = true /\ (1 < List.length (selectedTasks s))%nat) ->
   draggedTask s1 = Some (singleTask task)).
Proof.
  cbv zeta. unfold handleDragStart, isSelected.
  destruct (Js.some (sameId task) (selectedTasks s)) eqn:Sel.
  - destruct (1 <? List.length (selectedTasks s))%nat eqn:Len;
      cbn [andb negb orb tasks folder clipboard clipboardMode draggedTask
           selectedTasks payloadOf payloadTasks].
    + apply Nat.ltb_lt in Len.
      repeat match goal with |- _ /\ _ => split end; auto.
      * now apply some_sameId.
      * intros Hn. exfalso. apply Hn. auto.
    + apply Nat.ltb_ge in Len.
      destruct (selectedTasks s) as [|t0 [|t1 rest]] eqn:E.
      * discriminate.
      * simpl in Sel. rewrite orb_false_r in Sel. unfold sameId in Sel.
        apply Z.eqb_eq in Sel. simpl. rewrite Sel.
        repeat match goal with |- _ /\ _ => split end; auto.
        intros [_ Hl]. simpl in Hl. lia.
      * simpl in Len. lia.
  - cbn [andb negb orb tasks folder clipboard clipboardMode draggedTask
         selectedTasks payloadOf payloadTasks].
    repeat match goal with |- _ /\ _ => split end; simpl; auto.
    intros [Hs _]. discriminate.
Qed.

Section SelectTwice.

Lemma filter_otherId_snoc (t : Task) (l : list Task) :
  ~ In (id t) (map id l) -> filter (otherId t) (l ++ [t]) = l.
Proof.
  intros H. rewrite filter_app, (filter_otherId_absent t l H). simpl.
  unfold otherId. rewrite Z.eqb_refl. simpl. apply app_nil_r.
Qed.

End SelectTwice.

(** X4. The modifier click is its own inverse on an unselected task: two
    modifier clicks on a task whose id is not selected give back the very
    same state.  On any task, two modifier clicks leave the set of selected
    ids as it was. *)
Theorem X4_ctrl_click_twice (t : Task) (s : State) :
  (~ In (id t) (map id (selectedTasks s)) ->
   selectTask t true (selectTask t true s) = s) /\
  (forall x, In x (map id (selectedTasks (selectTask t true (selectTask t true s))))
             <-> In x (map id (selectedTasks s))).
Proof.
  split.
  - intros H. destruct s as [ts f d sel c m o cur fd]. cbn [selectedTasks] in H.
    unfold selectTask. cbn [selectedTasks tasks folder draggedTask clipboard
                            clipboardMode isModalOpen currentTask formData].
    rewrite (proj2 (some_sameId_false t sel) H).
    assert (S2 : Js.some (sameId t) (sel ++ [t]) = true).
    { apply some_sameId. rewrite map_app. apply in_or_app. right. simpl. auto. }
    rewrite S2, (filter_otherId_snoc t sel H). reflexivity.
  - intros x. unfold selectTask. cbn [selectedTasks].
    destruct (Js.some (sameId t) (selectedTasks s)) eqn:S1.
    + assert (S2 : Js.some (sameId t) (filter (otherId t) (selectedTasks s)) = false).
      { apply some_sameId_false. rewrite in_ids_filter_otherId. tauto. }
      rewrite S2, map_app, in_app_iff, in_ids_filter_otherId. simpl.
      apply some_sameId in S1.
      destruct (Z.eq_dec x (id t)) as [->|N]; [tauto|].
      split; [intros [[H _]|[H|[]]]; [auto|congruence] | tauto].
    + apply some_sameId_false in S1.
      assert (S2 : Js.some (sameId t) (selectedTasks s ++ [t]) = true).
      { apply some_sameId. rewrite map_app. apply in_or_app. right. simpl. auto. }
      rewrite S2, (filter_otherId_snoc t _ S1). tauto.
Qed.

Lemma X4_ctrl_click_twice_witness :
  selectTask task1 true (selectTask task1 true initialState) = initialState.
Proof.
  apply (proj1 (X4_ctrl_click_twice task1 initialState)). simpl. tauto.
Defined.

Section EditSession.

Lemma formChanges_fields (chs : list (string * string)) (s : State) :
  tasks (formChanges chs s) = tasks s /\
  folder (formChanges chs s) = folder s /\
  draggedTask (formChanges chs s) = draggedTask s /\
  selectedTasks (formChanges chs s) = selectedTasks s /\
  clipboard (formChanges chs s) = clipboard s /\
  clipboardMode (formChanges chs s) = clipboardMode s /\
  isModalOpen (formChanges chs s) = isModalOpen s /\
  currentTask (formChanges chs s) = currentTask s.
Proof.
  unfold formChanges. revert s. induction chs as [|[n v] chs IH]; intros s.
  - repeat split.
  - cbn [fold_left fst snd].
    destruct (IH (handleFormChange n v s)) as (A & B & C & D & E & F & G & H).
    rewrite A, B, C, D, E, F, G, H. repeat split.
Qed.

Lemma setAt_same {A} (l : list A) (i : nat) (x : A) :
  nth_error l i = Some x -> Js.setAt l i x = l.
Proof.
  revert i. induction l as [|a l IH]; intros [|i]; simpl; try discriminate.
  - intros [= ->]. reflexivity.
  - intros H. f_equal. now apply IH.
Qed.

Lemma set_same (o : TasksState) (k : string) (v : list Task) :
  Js.get o k = Some v -> Js.set o k v = o.
Proof.
  induction o as [|[k0 v0] o IH]; simpl; [discriminate|].
  destruct (String.eqb k0 k) eqn:E.
  - intros [= ->]. reflexivity.
  - intros H. f_equal. now apply IH.
Qed.

Lemma applyForm_own (t : Task) :
  applyForm (mkForm (title t) (description t) (points t)) t = t.
Proof. destruct t. reflexivity. Qed.

End EditSession.

(** X5. An edit that is cancelled changes no task: opening the edit surface
    on a task, typing any sequence of changes into the form and closing the
    surface leaves buckets, folder, selection, clipboard and drag payload as
    they were; until the surface is closed the task being edited stays the
    one it was opened on. *)
Theorem X5_cancelled_edit (t : Task) (chs : list (string * string)) (s : State) :
  let editing := formChanges chs (openEditModal t s) in
  let s' := closeModal editing in
  currentTask editing = Some t /\ isModalOpen editing = true /\
  tasks s' = tasks s /\ folder s' = folder s /\
  selectedTasks s' = selectedTasks s /\
  clipboard s' = clipboard s /\ clipboardMode s' = clipboardMode s /\
  draggedTask s' = draggedTask s /\
  isModalOpen s' = false /\ currentTask s' = None.
Proof.
  cbv zeta.
  destruct (formChanges_fields chs (openEditModal t s))
    as (A & B & C & D & E & F & G & H).
  unfold closeModal.
  cbn [tasks folder selectedTasks clipboard clipboardMode draggedTask
       isModalOpen currentTask].
  rewrite A, B, C, D, E, F, G, H. repeat split.
Qed.

(** X6. Saving an edit without having changed the form is harmless: if the
    buckets are unique and the edit surface is opened on a task as a bucket
    holds it, saving at once leaves the object of the buckets exactly as it
    was, and makes every selection and folder entry with that id equal to
    the bucket's task. *)
Theorem X6_unchanged_edit (s : State) (t : Task) (src : string) :
  wfKeys (tasks s) -> uniqueBuckets (tasks s) -> hasTask (tasks s) src t ->
  exists s',
    saveChanges (openEditModal t s) = Some s' /\
    tasks s' = tasks s /\
    (forall x, In x (selectedTasks s') -> id x = id t -> x = t) /\
    (forall x, In x (folder s') -> id x = id t -> x = t) /\
    map id (selectedTasks s') = map id (selectedTasks s) /\
    map id (folder s') = map id (folder s) /\
    clipboard s' = clipboard s /\ draggedTask s' = draggedTask s /\
    isModalOpen s' = false /\ currentTask s' = None.
Proof.
  intros K U (lsrc & Gsrc & Ht).
  set (fd := mkForm (title t) (description t) (points t)).
  assert (Hloop : saveLoop weekdays (tasks s) t fd = Some (tasks s)).
  { destruct (saveLoop_spec t fd weekdays (tasks s) K (incl_refl _))
      as [[E _]|(d & arr & i & old & Hd & G & F & N & I & E)]; [exact E|].
    rewrite E. f_equal.
    assert (d = src).
    { apply (proj2 U d src (id t)); [exists arr | exists lsrc]; split; auto.
      - rewrite <- I. apply in_map. eapply nth_error_In; eauto.
      - now apply in_map. }
    subst d. rewrite Gsrc in G. injection G as <-.
    assert (old = t).
    { apply (NoDup_ids_inj lsrc); auto.
      - apply (proj1 U src). auto.
      - eapply nth_error_In; eauto. }
    subst old. unfold fd. rewrite applyForm_own.
    rewrite (setAt_same _ _ _ N). now apply set_same. }
  assert (He : forall l x, In x (map (editOf t fd) l) -> id x = id t -> x = t).
  { intros l x Hx Ex.
    rewrite (editedList_In t fd l _ x (map_editOf_editedList t fd l) Hx Ex).
    unfold edited, fd. destruct t. reflexivity. }
  unfold saveChanges, openEditModal.
  cbn [currentTask formData tasks folder selectedTasks clipboard clipboardMode
       draggedTask]. fold fd. rewrite Hloop.
  eexists. split; [reflexivity|].
  cbn [tasks folder selectedTasks clipboard draggedTask isModalOpen currentTask].
  split; [reflexivity|]. split; [apply He|]. split; [apply He|].
  rewrite !map_id_editOf. repeat split.
Qed.

Lemma X6_unchanged_edit_witness :
  exists s',
    saveChanges (openEditModal task1 initialState) = Some s' /\
    tasks s' = tasks initialState.
Proof.
  destruct (X6_unchanged_edit initialState task1 "Lundi") as (s' & E & T & _).
  - reflexivity.
  - apply (inv_buckets _ initialState_Inv).
  - eexists. split; [reflexivity|]. simpl. auto.
  - exists s'. split; [exact E | exact T].
Defined.

Section MissingDay.

Lemma get_None (o : TasksState) (k : string) :
  ~ In k (Js.keys o) -> Js.get o k = None.
Proof.
  intros H. destruct (Js.get o k) as [l|] eqn:G; auto.
  exfalso. apply H. eapply get_Some_key; eauto.
Qed.

Lemma moveOne_offday (target : string) (o : TasksState) (c : bool) (t : Task) :
  wfKeys o -> ~ In target weekdays ->
  (moveOne target (o, c) t = None /\ inSomeBucket o (id t)) \/
  (moveOne target (o, c) t = Some (o, c) /\ ~ inSomeBucket o (id t)).
Proof.
  intros K Hoff. unfold moveOne.
  destruct (findSourceDay_spec weekdays o t K (incl_refl _)) as (r & Hr & Hspec).
  rewrite Hr. destruct r as [src|].
  - left. destruct Hspec as [Hsrc Hin]. split; [|exists src; auto].
    destruct Hin as (arr & G & _).
    rewrite (weekday_truthy src Hsrc). simpl.
    destruct (String.eqb src target) eqn:E.
    + apply String.eqb_eq in E. subst. contradiction.
    + apply String.eqb_neq in E. simpl. rewrite G, get_set_ne by auto.
      rewrite get_None; auto. unfold wfKeys in K. now rewrite K.
  - right. split; auto. intros (d & l & G & Hin).
    apply (Hspec d); [eapply wfKeys_weekday; eauto | exists l; auto].
Qed.

Lemma moveAll_offday_None (target : string) (P : list Task) (o : TasksState) (c : bool) :
  wfKeys o -> ~ In target weekdays ->
  (moveAll target (o, c) P = None <->
   exists t, In t P /\ inSomeBucket o (id t)).
Proof.
  intros K Hoff. induction P as [|t P IH]; cbn [moveAll].
  - split; [discriminate | intros (t & [] & _)].
  - destruct (moveOne_offday target o c t K Hoff) as [[E Hin]|[E Hout]]; rewrite E.
    + split; auto. intros _. exists t. split; simpl; auto.
    + rewrite IH. split.
      * intros (t' & H1 & H2). exists t'. split; simpl; auto.
      * intros (t' & [<-|H1] & H2); [contradiction|]. eauto.
Qed.

End MissingDay.

(** X7. [pasteTasksToDay] raises (the read of [newTasks[day]] is
    [undefined]) exactly when the clipboard is not empty and the name is
    not one of the weekdays; with an empty clipboard any name is accepted
    and nothing happens.  A paste that raises has changed nothing: the
    clipboard is not cleared. *)
Theorem X7_paste_raises_iff (day : string) (s : State) :
  wfKeys (tasks s) ->
  (pasteTasksToDay day s = None <-> clipboard s <> [] /\ ~ In day weekdays) /\
  (clipboard s = [] -> pasteTasksToDay day s = Some s).
Proof.
  intros K. unfold pasteTasksToDay. split.
  - destruct (clipboard s) as [|c0 clip].
    + split; [discriminate | intros [H _]; congruence].
    + destruct (Js.get (tasks s) day) as [old|] eqn:G.
      * pose proof (wfKeys_weekday _ _ _ K G).
        destruct (clipboardMode s); split; try discriminate; intros [_ H']; contradiction.
      * assert (~ In day weekdays).
        { intros Hd. destruct (wfKeys_get _ _ K Hd) as [l Gl]. congruence. }
        destruct (clipboardMode s); split; auto; intros _; split; auto; discriminate.
  - intros ->. reflexivity.
Qed.

Lemma X7_paste_raises_iff_witness :
  pasteTasksToDay "Lundy" (copySelectedTasks (selectTask task1 false initialState))
  = None.
Proof.
  apply (proj1 (X7_paste_raises_iff "Lundy"
                  (copySelectedTasks (selectTask task1 false initialState))
                  eq_refl)).
  split; [discriminate|].
  simpl. intros H. repeat destruct H as [H|H]; try discriminate. exact H.
Defined.

(** X8. [handleDayDrop] raises exactly when the target is not one of the
    weekdays and some task of the pending payload has its id in a bucket
    (the read of [newTasks[targetDayName]] is [undefined]); without a
    pending payload, or when no payload task is in any bucket, the handler
    returns for any name. *)
Theorem X8_drop_raises_iff (day : string) (s : State) :
  wfKeys (tasks s) ->
  (handleDayDrop day s = None <->
   ~ In day weekdays /\
   exists p t, draggedTask s = Some p /\ In t (payloadTasks p) /\
               inSomeBucket (tasks s) (id t)).
Proof.
  intros K. unfold handleDayDrop.
  destruct (in_dec string_dec day weekdays) as [Hday|Hoff].
  - split; [|intros [H _]; contradiction].
    destruct (draggedTask s) as [p|]; [|discriminate].
    destruct (moveAll_total day Hday (payloadTasks p) (tasks s) false K)
      as (o' & c' & E & _). rewrite E. discriminate.
  - destruct (draggedTask s) as [p|].
    + pose proof (moveAll_offday_None day (payloadTasks p) (tasks s) false K Hoff) as M.
      destruct (moveAll day (tasks s, false) (payloadTasks p)) as [r|].
      * split; [discriminate|]. intros [_ (p' & t & [= <-] & H1 & H2)].
        assert (Some r = None) by (apply M; eauto). discriminate.
      * split; auto. intros _. split; auto.
        destruct (proj1 M eq_refl) as (t & H1 & H2). eauto.
    + split; [discriminate|]. intros [_ (p & t & H & _)]. discriminate.
Qed.

Lemma X8_drop_raises_iff_witness :
  handleDayDrop "Lundy" (handleDragStart task1 initialState) = None.
Proof.
  apply (proj2 (X8_drop_raises_iff "Lundy" (handleDragStart task1 initialState) eq_refl)).
  split.
  - simpl. intros H. repeat destruct H as [H|H]; try discriminate. exact H.
  - exists (singleTask task1), task1. split; [reflexivity|]. split; [simpl; auto|].
    exists "Lundi". eexists. split; [reflexivity|]. simpl. auto.
Defined.

Section Totals.

(** Up to 2^53 every integer is a number. *)
Lemma ofInteger_exact (z : Z) : Z.abs z <= 2 ^ 53 -> Js.ofInteger z = Num z.
Proof.
  intros H. destruct (Z.eq_dec (Z.abs z) (2 ^ 53)) as [E|N].
  - destruct (Z.abs_eq_or_opp z) as [Ez|Ez]; rewrite Ez in E.
    + subst z. reflexivity.
    + assert (z = - 2 ^ 53) as -> by lia. reflexivity.
  - unfold Js.ofInteger, Js.round64.
    assert (L : (Z.abs z <? 2 ^ 53) = true) by (apply Z.ltb_lt; lia).
    cbv zeta. rewrite L.
    assert (L2 : (2 ^ 1024 <=? Z.abs z) = false).
    { apply Z.leb_gt. eapply Z.le_lt_trans; [exact H|]. reflexivity. }
    now rewrite L2.
Qed.

Lemma plus_exact (a b : Z) :
  Z.abs (a + b) <= 2 ^ 53 -> Js.plus (Num a) (Num b) = Num (a + b).
Proof. intros H. cbn [Js.plus]. now apply ofInteger_exact. Qed.

Lemma magnitude_nonneg (l : list Task) (m : Z) : magnitude l = Some m -> 0 <= m.
Proof.
  revert m. induction l as [|t l IH]; cbn [magnitude]; intros m.
  - intros [= <-]. lia.
  - destruct (points t) as [z| | |]; try discriminate.
    destruct (magnitude l) as [m'|]; [|discriminate].
    intros [= <-]. specialize (IH m' eq_refl). lia.
Qed.

(** While the absolute values stay within 2^53, the running sum of the
    [reduce] is the exact sum. *)
Lemma total_exact (l : list Task) (m a : Z) :
  magnitude l = Some m -> Z.abs a + m <= 2 ^ 53 ->
  fold_left (fun sum task => Js.plus sum (points task)) l (Num a)
  = Num (a + exactTotal l).
Proof.
  revert m a. induction l as [|t l IH]; cbn [magnitude exactTotal fold_left]; intros m a.
  - intros _ _. now rewrite Z.add_0_r.
  - destruct (points t) as [z| | |]; try discriminate.
    destruct (magnitude l) as [m'|] eqn:M; [|discriminate].
    intros [= <-] H. pose proof (magnitude_nonneg l m' M) as Hm.
    rewrite plus_exact by lia.
    rewrite (IH m' (a + z) eq_refl) by lia. f_equal. lia.
Qed.

Lemma pointsTotal_exact (l : list Task) (m : Z) :
  magnitude l = Some m -> m <= 2 ^ 53 -> pointsTotal l = Num (exactTotal l).
Proof.
  intros M H. unfold pointsTotal. now rewrite (total_exact l m 0 M).
Qed.

(** Beyond 2^53 the sum is rounded: a point added to 2^53 is lost, twice
    over. *)
Lemma pointsTotal_rounded :
  pointsTotal [mkTask 1 "a" "" (2 ^ 53); mkTask 2 "b" "" 1; mkTask 3 "c" "" 1]
  = Num (2 ^ 53).
Proof. reflexivity. Qed.

Lemma magnitude_app (a b : list Task) :
  magnitude (a ++ b) =
  match magnitude a, magnitude b with
  | Some x, Some y => Some (x + y)
  | _, _ => None
  end.
Proof.
  induction a as [|t a IH]; cbn [app magnitude].
  - destruct (magnitude b); reflexivity.
  - rewrite IH. destruct (points t) as [z| | |]; try reflexivity.
    destruct (magnitude a) as [x|]; [|reflexivity].
    destruct (magnitude b) as [y|]; [|reflexivity].
    f_equal. lia.
Qed.

Lemma exactTotal_app (a b : list Task) :
  exactTotal (a ++ b) = exactTotal a + exactTotal b.
Proof.
  induction a as [|t a IH]; cbn [app exactTotal]; [reflexivity|].
  rewrite IH. destruct (points t); lia.
Qed.

Lemma magnitude_taskCopies (clip : list Task) (n : Z) :
  magnitude (taskCopies n clip) = magnitude clip.
Proof.
  revert n. induction clip as [|t clip IH]; intros n; [reflexivity|].
  cbn [taskCopies magnitude points]. now rewrite IH.
Qed.

Lemma exactTotal_taskCopies (clip : list Task) (n : Z) :
  exactTotal (taskCopies n clip) = exactTotal clip.
Proof.
  revert n. induction clip as [|t clip IH]; intros n; [reflexivity|].
  cbn [taskCopies exactTotal points]. now rewrite IH.
Qed.

Lemma magnitude_filter (p : Task -> bool) (l : list Task) (m : Z) :
  magnitude l = Some m ->
  exists m', magnitude (filter p l) = Some m' /\ m' <= m.
Proof.
  revert m. induction l as [|t l IH]; cbn [magnitude filter]; intros m.
  - intros [= <-]. exists 0. split; [reflexivity | lia].
  - destruct (points t) as [z| | |] eqn:P; try discriminate.
    destruct (magnitude l) as [m0|]; [|discriminate].
    intros [= <-]. destruct (IH m0 eq_refl) as (m' & E & Hle).
    destruct (p t); cbn [magnitude].
    + rewrite P, E. eexists. split; [reflexivity | lia].
    + exists m'. split; [exact E | lia].
Qed.

Lemma exactTotal_remove (t : Task) (l : list Task) :
  NoDup (map id l) -> In t l ->
  exactTotal (filter (otherId t) l) = exactTotal l - exactTotal [t].
Proof.
  induction l as [|a l IH]; cbn [map filter]; [simpl; tauto|].
  intros Hnd Hin. inversion Hnd as [|? ? Hn Hnd']; subst.
  destruct Hin as [->|Hin].
  - unfold otherId at 1. rewrite Z.eqb_refl. cbn [negb].
    rewrite (filter_otherId_absent t l Hn). cbn [exactTotal].
    destruct (points t); lia.
  - unfold otherId at 1. destruct (id a =? id t) eqn:E.
    + apply Z.eqb_eq in E. exfalso. apply Hn. rewrite E. now apply in_map.
    + cbn [negb exactTotal]. rewrite IH by auto. cbn [exactTotal].
      destruct (points a), (points t); lia.
Qed.

End Totals.

(** X9. A paste adds the points of the clipboard to the total shown for the
    target day, in both clipboard modes (with an empty clipboard the sum
    added is 0), as long as the points of the day and of the clipboard are
    finite and their absolute values add up to at most 2^53, so that the
    sums of the page are exact.  The total of every other day is as it
    was, whatever the points. *)
Theorem X9_paste_adds_points (day : string) (s : State) (old : list Task) (m : Z) :
  Js.get (tasks s) day = Some old ->
  magnitude (old ++ clipboard s) = Some m -> m <= 2 ^ 53 ->
  exists s',
    pasteTasksToDay day s = Some s' /\
    dayTotal s day = Some (Num (exactTotal old)) /\
    dayTotal s' day = Some (Num (exactTotal old + exactTotal (clipboard s))) /\
    forall d, d <> day -> dayTotal s' d = dayTotal s d.
Proof.
  intros G M Hm. rewrite magnitude_app in M.
  destruct (magnitude old) as [mo|] eqn:Mo; [|discriminate].
  destruct (magnitude (clipboard s)) as [mc|] eqn:Mc; [|discriminate].
  injection M as <-.
  pose proof (magnitude_nonneg _ _ Mo) as Ho.
  pose proof (magnitude_nonneg _ _ Mc) as Hc.
  assert (Told : pointsTotal old = Num (exactTotal old)).
  { apply (pointsTotal_exact old mo Mo). lia. }
  assert (Tnew : forall new, magnitude new = Some mc ->
                   exactTotal new = exactTotal (clipboard s) ->
                   pointsTotal (old ++ new)
                   = Num (exactTotal old + exactTotal (clipboard s))).
  { intros new Mn En. rewrite (pointsTotal_exact (old ++ new) (mo + mc)).
    - now rewrite exactTotal_app, En.
    - now rewrite magnitude_app, Mo, Mn.
    - exact Hm. }
  unfold dayTotal. rewrite G. unfold pasteTasksToDay.
  destruct (clipboard s) as [|c0 clip] eqn:E.
  - exists s. rewrite G. split; [reflexivity|]. split; [now rewrite Told|].
    split; auto. rewrite Told. cbn [exactTotal]. now rewrite Z.add_0_r.
  - rewrite G. destruct (clipboardMode s); eexists; (split; [reflexivity|]);
      (split; [now rewrite Told|]);
      cbn [tasks]; rewrite get_set_eq;
      (split; [|intros d Hd; rewrite get_set_ne; auto]).
    + rewrite Tnew; auto.
      * now rewrite magnitude_taskCopies.
      * apply exactTotal_taskCopies.
    + rewrite Tnew; auto.
Qed.

Lemma X9_paste_adds_points_witness :
  exists s',
    pasteTasksToDay "Mardi" (copySelectedTasks (selectTask task1 false initialState))
    = Some s' /\
    dayTotal s' "Mardi" = Some (Num (11 + 2)).
Proof.
  destruct (X9_paste_adds_points "Mardi"
              (copySelectedTasks (selectTask task1 false initialState))
              [mkTask 3 "Conception UI" "Créer les maquettes" 8;
               mkTask 4 "Revue de code" "Revue des PR en attente" 3] 13)
    as (s' & E & _ & T & _).
  - reflexivity.
  - reflexivity.
  - discriminate.
  - exists s'. split; [exact E | exact T].
Defined.

Section NextId.

Lemma taskCopies_ids (clip : list Task) (n : Z) :
  map id (taskCopies n clip) = idsFrom n (List.length clip).
Proof.
  revert n. induction clip as [|t clip IH]; intros n; [reflexivity|].
  cbn [taskCopies map id List.length idsFrom]. now rewrite IH.
Qed.

Lemma max_attained (l : list Z) (x : Z) : In (Js.max x l) (x :: l).
Proof.
  unfold Js.max. revert x. induction l as [|a l IH]; intros x; simpl; [auto|].
  pose proof (IH (Z.max x a)) as H.
  destruct (Z.max_spec x a) as [[_ E]|[_ E]]; rewrite E in *;
    destruct H as [H|H]; auto.
Qed.

Lemma nextId_eq (o : TasksState) (m : Z) :
  In (m - 1) (allTaskIds o) -> (forall y, In y (allTaskIds o) -> y < m) ->
  nextId o = m.
Proof.
  intros Hin Hlt. pose proof (nextId_gt o (m - 1) Hin) as Hgt.
  assert (In (nextId o - 1) (allTaskIds o)).
  { unfold nextId. destruct (allTaskIds o) as [|x rest]; [destruct Hin|].
    replace (Js.max x rest + 1 - 1) with (Js.max x rest) by lia.
    apply max_attained. }
  apply Hlt in H. lia.
Qed.

End NextId.

(** X10. A copy-mode paste appends to the day one duplicate per clipboard
    task, in clipboard order, with the title, description and points of
    that task, numbers them consecutively from the next id, and moves the
    next id forward by exactly the number of pasted tasks.  (The ids
    involved are at most 2^53, where the page's [nextId++] is exact.) *)
Theorem X10_paste_advances_next_id (day : string) (s : State) :
  wfKeys (tasks s) -> In day weekdays ->
  clipboard s <> [] -> clipboardMode s = copy ->
  nextId (tasks s) + Z.of_nat (List.length (clipboard s)) <= 2 ^ 53 ->
  exists s' old new,
    pasteTasksToDay day s = Some s' /\
    Js.get (tasks s) day = Some old /\
    Js.get (tasks s') day = Some (old ++ new) /\
    duplicatesOf (clipboard s) new /\
    map id new = idsFrom (nextId (tasks s)) (List.length (clipboard s)) /\
    nextId (tasks s') = nextId (tasks s) + Z.of_nat (List.length (clipboard s)).
Proof.
  intros K Hday Hc Hm _. destruct (wfKeys_get _ _ K Hday) as [old G].
  destruct (paste_copy_mode day s old Hc Hm G) as (s' & E & T & _).
  set (n := nextId (tasks s)) in *. set (new := taskCopies n (clipboard s)) in *.
  assert (Hlen : (0 < List.length (clipboard s))%nat).
  { destruct (clipboard s); [congruence | simpl; lia]. }
  exists s', old, new. split; [exact E|]. split; [exact G|].
  split; [rewrite T; apply get_set_eq|].
  split; [apply taskCopies_duplicates|]. split; [apply taskCopies_ids|].
  rewrite T. apply nextId_eq.
  - apply inSomeBucket_allTaskIds. exists day, (old ++ new).
    split; [apply get_set_eq|]. rewrite map_app. apply in_or_app. right.
    apply taskCopies_ids_in. lia.
  - intros y Hy.
    apply allTaskIds_inSomeBucket in Hy;
      [|apply wfKeys_NoDup; now apply wfKeys_set].
    apply (set_append_ids _ _ _ _ _ G) in Hy. destruct Hy as [Hy|Hy].
    + apply inSomeBucket_allTaskIds, nextId_gt in Hy. fold n in Hy. lia.
    + apply taskCopies_ids_range in Hy. lia.
Qed.

Lemma X10_paste_advances_next_id_witness :
  exists s' new,
    pasteTasksToDay "Mardi"
      (copySelectedTasks (selectTask task2 true (selectTask task1 false initialState)))
    = Some s' /\
    hasTask (tasks s') "Mardi" (mkTask 9 (title task1) (description task1) 2) /\
    hasTask (tasks s') "Mardi" (mkTask 10 (title task2) (description task2) 5) /\
    duplicatesOf [task1; task2] new /\ map id new = [9; 10] /\
    nextId (tasks s') = 9 + 2.
Proof.
  destruct (X10_paste_advances_next_id "Mardi"
              (copySelectedTasks
                 (selectTask task2 true (selectTask task1 false initialState))))
    as (s' & old & new & E & _ & _ & Hd & Hi & N).
  - reflexivity.
  - simpl. auto.
  - discriminate.
  - reflexivity.
  - discriminate.
  - exists s', new. split; [exact E|].
    split; [|split; [|split; [exact Hd|split; [exact Hi | exact N]]]].
    + vm_compute in E. injection E as <-.
      eexists. split; [reflexivity|]. simpl. auto.
    + vm_compute in E. injection E as <-.
      eexists. split; [reflexivity|]. simpl. auto 6.
Defined.

Section FolderRemoval.

Lemma filter_id_absent (i : Z) (l : list Task) :
  ~ In i (map id l) -> filter (fun task => negb (id task =? i)) l = l.
Proof.
  induction l as [|a l IH]; simpl; intros H; auto.
  destruct (id a =? i) eqn:E.
  - apply Z.eqb_eq in E. exfalso. apply H. auto.
  - simpl. f_equal. apply IH. tauto.
Qed.

Lemma in_filter_id (i : Z) (l : list Task) (x : Task) :
  In x (filter (fun task => negb (id task =? i)) l) <-> In x l /\ id x <> i.
Proof.
  rewrite filter_In, negb_true_iff, Z.eqb_neq. tauto.
Qed.

End FolderRemoval.

(** X11. [removeFromFolder] leaves no entry with the id in the folder (all
    of them go, should there be several), keeps every other entry, in the
    order the folder had them, changes no other field of the state, and is
    the identity on a state whose folder does not hold the id. *)
Theorem X11_remove_from_folder (i : Z) (s : State) :
  let s' := removeFromFolder i s in
  ~ In i (map id (folder s')) /\
  (forall x, In x (folder s') <-> In x (folder s) /\ id x <> i) /\
  withoutId i (folder s) (folder s') /\
  (forall l1 l2, folder s = l1 ++ l2 ->
     exists l1' l2', folder s' = l1' ++ l2' /\
       withoutId i l1 l1' /\ withoutId i l2 l2') /\
  (forall j, j <> i ->
     filter (fun task => id task =? j) (folder s')
     = filter (fun task => id task =? j) (folder s)) /\
  sameButFolder s s' /\
  (~ In i (map id (folder s)) -> s' = s).
Proof.
  cbv zeta. unfold removeFromFolder, sameButFolder.
  cbn [folder tasks selectedTasks clipboard draggedTask clipboardMode
       isModalOpen currentTask formData].
  assert (W : forall l, withoutId i l (filter (fun task => negb (id task =? i)) l)).
  { induction l as [|a l IH]; cbn [filter]; [constructor|].
    destruct (id a =? i) eqn:E; cbn [negb].
    - apply Z.eqb_eq in E. now apply withoutId_drop.
    - apply Z.eqb_neq in E. now apply withoutId_keep. }
  split; [|split; [|split; [|split; [|split]]]].
  - intros H. apply in_map_iff in H. destruct H as (x & <- & H).
    apply in_filter_id in H. tauto.
  - intros x. apply in_filter_id.
  - apply W.
  - intros l1 l2 E. rewrite E, filter_app. eexists. eexists.
    split; [reflexivity|]. split; apply W.
  - intros j Hj. induction (folder s) as [|a l IH]; [reflexivity|].
    cbn [filter]. destruct (id a =? i) eqn:E; cbn [negb filter].
    + apply Z.eqb_eq in E. rewrite IH.
      destruct (id a =? j) eqn:E2; auto. apply Z.eqb_eq in E2. congruence.
    + rewrite IH. reflexivity.
  - repeat split. intros H. rewrite (filter_id_absent i _ H).
    destruct s. reflexivity.
Qed.

(** X12. Adding a task to the folder and removing it again is a round
    trip: when the selection is one task whose id the folder does not hold,
    [addSelectionToFolder] followed by [removeFromFolder] of that id gives
    back the folder as it was, the buckets being untouched throughout. *)
Theorem X12_folder_add_then_remove (s : State) (t : Task) :
  selectedTasks s = [t] -> ~ In (id t) (map id (folder s)) ->
  let s' := removeFromFolder (id t) (addSelectedTasksToFolder s) in
  In t (folder (addSelectedTasksToFolder s)) /\
  folder s' = folder s /\ tasks s' = tasks s /\
  clipboard s' = clipboard s /\ clipboardMode s' = clipboardMode s.
Proof.
  intros Hsel Hout. cbv zeta. unfold removeFromFolder, addSelectedTasksToFolder.
  rewrite Hsel. cbn [folder tasks clipboard clipboardMode].
  rewrite folder_append. cbn [filter].
  rewrite (proj2 (notInFolder_true (folder s) t) Hout).
  split; [apply in_or_app; right; simpl; auto|].
  split; [|repeat split].
  rewrite filter_app, (filter_id_absent _ _ Hout). simpl.
  rewrite Z.eqb_refl. simpl. apply app_nil_r.
Qed.

Lemma X12_folder_add_then_remove_witness :
  folder (removeFromFolder 1
            (addSelectedTasksToFolder (selectTask task1 false initialState))) = [].
Proof.
  apply (X12_folder_add_then_remove (selectTask task1 false initialState) task1).
  - reflexivity.
  - simpl. tauto.
Defined.

(** X13. Dragging one card to another day moves exactly that card: with
    unique buckets, a task [t] of day [src] that is not part of a
    selection of several tasks, and another day [B], [beginDrag(t)]
    followed by [dropOnBucket(B)] takes [t] out of [src], whose other tasks
    keep their order, puts [t] at the end of [B] and leaves every other
    day as it was; the total shown for [src] goes down by the points of
    [t] and the total of [B] goes up by them, as long as the points summed
    are finite and their absolute values add up to at most 2^53, so that
    the sums of the page are exact; the payload is consumed and [t] is the
    selection. *)
Theorem X13_drag_then_drop (s : State) (t : Task) (src B : string)
    (lsrc lB : list Task) :
  wfKeys (tasks s) -> uniqueBuckets (tasks s) ->
  Js.get (tasks s) src = Some lsrc -> In t lsrc ->
  Js.get (tasks s) B = Some lB -> B <> src ->
  ~ (isSelected s t = true /\ (1 < List.length (selectedTasks s))%nat) ->
  exists s',
    handleDayDrop B (handleDragStart t s) = Some s' /\
    Js.get (tasks s') src = Some (filter (otherId t) lsrc) /\
    (forall x, In x (filter (otherId t) lsrc) <-> In x lsrc /\ x <> t) /\
    Js.get (tasks s') B = Some (lB ++ [t]) /\
    (forall d, d <> src -> d <> B -> Js.get (tasks s') d = Js.get (tasks s) d) /\
    (forall m, magnitude lsrc = Some m -> m <= 2 ^ 53 ->
       dayTotal s src = Some (Num (exactTotal lsrc)) /\
       dayTotal s' src = Some (Num (exactTotal lsrc - exactTotal [t]))) /\
    (forall m, magnitude (lB ++ [t]) = Some m -> m <= 2 ^ 53 ->
       dayTotal s B = Some (Num (exactTotal lB)) /\
       dayTotal s' B = Some (Num (exactTotal lB + exactTotal [t]))) /\
    draggedTask s' = None /\ map id (selectedTasks s') = [id t].
Proof.
  intros K U Gs Ht GB Hne Hsingle.
  pose proof (wfKeys_weekday _ _ _ K GB) as HB.
  assert (Hnd : NoDup (map id lsrc)) by (apply (proj1 U src); auto).
  assert (Hin : inBucket (tasks s) src (id t)).
  { exists lsrc. split; auto. now apply in_map. }
  (* beginDrag: a single payload *)
  assert (D : tasks (handleDragStart t s) = tasks s /\
              draggedTask (handleDragStart t s) = Some (singleTask t) /\
              map id (selectedTasks (handleDragStart t s)) = [id t]).
  { unfold handleDragStart, isSelected in *.
    destruct (Js.some (sameId t) (selectedTasks s)) eqn:Sel.
    - destruct (1 <? List.length (selectedTasks s))%nat eqn:Len.
      + exfalso. apply Hsingle. split; auto. now apply Nat.ltb_lt.
      + cbn [andb negb orb tasks draggedTask selectedTasks]. repeat split.
        apply Nat.ltb_ge in Len.
        destruct (selectedTasks s) as [|t0 [|t1 rest]]; try discriminate.
        * simpl in Sel. rewrite orb_false_r in Sel. unfold sameId in Sel.
          apply Z.eqb_eq in Sel. simpl. now rewrite Sel.
        * simpl in Len. lia.
    - cbn [andb negb orb tasks draggedTask selectedTasks]. repeat split. }
  destruct D as (T1 & D1 & S1).
  assert (K1 : wfKeys (tasks (handleDragStart t s))) by now rewrite T1.
  destruct (handleDayDrop_fields B HB _ _ K1 D1)
    as (s' & c' & E & M & _ & D' & _ & S' & _).
  rewrite T1 in M. cbn [payloadTasks moveAll] in M.
  destruct (moveOne_cases B HB (tasks s) false t K)
    as [[_ Hstay]|(src' & sa & ta & _ & Hne' & _ & Gs' & Hin' & Gt' & E')].
  { exfalso. destruct Hstay as [F|[_ F]].
    - destruct (findSourceDay_spec weekdays (tasks s) t K (incl_refl _))
        as (r & Hr & Hspec).
      rewrite F in Hr. injection Hr as <-. destruct Hspec as [_ HinB].
      apply Hne. apply (proj2 U B src (id t)); auto.
    - apply (F src); [exact (wfKeys_weekday _ _ _ K Gs) | exact Hin]. }
  assert (src' = src).
  { apply (proj2 U src' src (id t)); auto. exists sa. auto. }
  subst src'. rewrite Gs in Gs'. rewrite GB in Gt'.
  injection Gs' as <-. injection Gt' as <-.
  rewrite E' in M. injection M as M _.
  destruct (movedTo_unique B (tasks s) src lsrc lB t K U (not_eq_sym Hne) Gs Hin' GB)
    as [_ G'].
  rewrite M in G'.
  assert (Gsrc' : Js.get (tasks s') src = Some (filter (otherId t) lsrc)).
  { rewrite (G' src lsrc Gs). apply not_eq_sym, String.eqb_neq in Hne.
    now rewrite Hne. }
  assert (GB' : Js.get (tasks s') B = Some (lB ++ [t])).
  { rewrite (G' B lB GB). now rewrite String.eqb_refl. }
  exists s'. split; [exact E|]. split; [exact Gsrc'|]. split.
  { intros x. rewrite filter_In. unfold otherId. rewrite negb_true_iff, Z.eqb_neq.
    split; intros [Hx Hn]; split; auto.
    - congruence.
    - intros Eid. apply Hn. apply (NoDup_ids_inj lsrc); auto. }
  split; [exact GB'|]. split.
  { intros d Hd1 Hd2. destruct (Js.get (tasks s) d) as [l|] eqn:Gd.
    - rewrite (G' d l Gd). apply String.eqb_neq in Hd2. rewrite Hd2. f_equal.
      apply filter_otherId_absent. intros Hx. apply Hd1.
      apply (proj2 U d src (id t)); auto. exists l. auto.
    - assert (K' : wfKeys (tasks s')).
      { rewrite <- M. apply movedTo_keys; auto.
        exact (wfKeys_weekday _ _ _ K Gs). }
      apply get_None. unfold wfKeys in K'. rewrite K'. intros Hk.
      destruct (wfKeys_get _ d K Hk) as [l Hl]. congruence. }
  split; [|split; [|split; [exact D' | now rewrite S']]].
  - intros m Mg Hm. unfold dayTotal. rewrite Gs, Gsrc'.
    destruct (magnitude_filter (otherId t) lsrc m Mg) as (m' & Mg' & Hle).
    rewrite (pointsTotal_exact lsrc m Mg Hm).
    rewrite (pointsTotal_exact _ m' Mg') by lia.
    now rewrite exactTotal_remove.
  - intros m Mg Hm. unfold dayTotal. rewrite GB, GB'.
    rewrite (pointsTotal_exact _ m Mg Hm), exactTotal_app.
    split; [|reflexivity].
    rewrite magnitude_app in Mg.
    destruct (magnitude lB) as [mB|] eqn:MB; [|discriminate].
    destruct (magnitude [t]) as [mt|] eqn:Mt; [|discriminate].
    injection Mg as <-. pose proof (magnitude_nonneg _ _ Mt).
    rewrite (pointsTotal_exact lB mB MB) by lia. reflexivity.
Qed.

Lemma X13_drag_then_drop_witness :
  exists s',
    handleDayDrop "Mardi" (handleDragStart task1 initialState) = Some s' /\
    Js.get (tasks s') "Lundi" = Some [task2] /\
    dayTotal s' "Lundi" = Some (Num (7 - 2)) /\
    dayTotal s' "Mardi" = Some (Num (11 + 2)).
Proof.
  destruct (X13_drag_then_drop initialState task1 "Lundi" "Mardi"
              [task1; task2]
              [mkTask 3 "Conception UI" "Créer les maquettes" 8;
               mkTask 4 "Revue de code" "Revue des PR en attente" 3])
    as (s' & E & G & _ & _ & _ & Tsrc & TB & _).
  - reflexivity.
  - apply (inv_buckets _ initialState_Inv).
  - reflexivity.
  - simpl. auto.
  - reflexivity.
  - discriminate.
  - simpl. intros [H _]. discriminate.
  - exists s'. split; [exact E|]. split; [exact G|]. split.
    + apply (Tsrc 7); [reflexivity | discriminate].
    + apply (TB 13); [reflexivity | discriminate].
Defined.

Section PointsField.













End PointsField.


Section Highlight.

Lemma cards_spec (days : list string) (o : TasksState) :
  wfKeys o -> incl days weekdays ->
  exists cs, cards days o = Some cs /\
    (forall x, In x (map id cs) <-> exists d, In d days /\ inBucket o d x) /\
    (uniqueBuckets o -> NoDup days -> NoDup (map id cs)).
Proof.
  intros K. induction days as [|day days IH]; intros Hincl.
  - exists []. split; [reflexivity|]. split.
    + simpl. split; [tauto | intros (d & [] & _)].
    + intros _ _. constructor.
  - destruct (wfKeys_get o day K (Hincl day (or_introl eq_refl))) as [arr G].
    destruct IH as (cs & E & Hmem & Hnd).
    { intros d Hd. apply Hincl. now right. }
    exists (arr ++ cs). cbn [cards]. rewrite G, E. split; [reflexivity|].
    assert (Hmem' : forall x, In x (map id (arr ++ cs)) <->
                              exists d, In d (day :: days) /\ inBucket o d x).
    { intros x. rewrite map_app, in_app_iff, Hmem. split.
      - intros [H|(d & Hd & Hb)].
        + exists day. split; simpl; auto. exists arr. auto.
        + exists d. split; simpl; auto.
      - intros (d & [<-|Hd] & Hb).
        + left. destruct Hb as (l & Gl & Hin). congruence.
        + right. eauto. }
    split; [exact Hmem'|].
    intros U Hdays. inversion Hdays as [|? ? Hnotin Hdays']; subst.
    rewrite map_app. apply NoDup_app.
    + apply (proj1 U day). auto.
    + now apply Hnd.
    + intros x Hx Hx'. apply Hmem in Hx'. destruct Hx' as (d & Hd & Hb).
      apply Hnotin. replace day with d; auto.
      apply (proj2 U d day x); auto. exists arr. auto.
Qed.

Lemma length_remove_id (c : Task) (sel : list Task) :
  NoDup (map id sel) -> In (id c) (map id sel) ->
  List.length sel = S (List.length (filter (otherId c) sel)).
Proof.
  induction sel as [|a sel IH]; simpl; [tauto|].
  intros Hnd Hin. inversion Hnd as [|? ? Hn Hnd']; subst.
  unfold otherId at 1. destruct (id a =? id c) eqn:E.
  - apply Z.eqb_eq in E. simpl. f_equal.
    rewrite filter_otherId_absent; auto. congruence.
  - apply Z.eqb_neq in E. simpl. f_equal. apply IH; auto.
    destruct Hin as [H|H]; [congruence | auto].
Qed.

Lemma highlight_count (cs sel : list Task) :
  NoDup (map id cs) -> NoDup (map id sel) ->
  (forall x, In x (map id sel) -> In x (map id cs)) ->
  List.length (filter (fun c => Js.some (sameId c) sel) cs) = List.length sel.
Proof.
  revert sel. induction cs as [|c cs IH]; intros sel Hcs Hsel Hsub.
  - destruct sel as [|a sel]; [reflexivity|].
    exfalso. apply (Hsub (id a)). simpl. auto.
  - inversion Hcs as [|? ? Hn Hcs']; subst. cbn [filter].
    destruct (Js.some (sameId c) sel) eqn:S.
    + apply some_sameId in S. cbn [List.length].
      rewrite (length_remove_id c sel Hsel S). f_equal.
      rewrite <- (IH (filter (otherId c) sel)); auto.
      * f_equal. apply filter_ext_in. intros c' Hc'.
        assert (Hne : id c' <> id c).
        { intros E. apply Hn. rewrite <- E. now apply in_map. }
        apply eq_true_iff_eq. rewrite !some_sameId, in_ids_filter_otherId. tauto.
      * now apply NoDup_ids_filter.
      * intros x Hx. apply in_ids_filter_otherId in Hx. destruct Hx as [Hx Hne].
        destruct (Hsub x Hx) as [H|H]; [congruence | exact H].
    + apply some_sameId_false in S. apply IH; auto.
      intros x Hx. destruct (Hsub x Hx) as [H|H]; [|exact H].
      exfalso. apply S. simpl in H. now rewrite H.
Qed.

End Highlight.

(** X15. What the page shows is consistent in every reachable state: all
    day columns render, no two cards have the same id (the cards' React
    keys are unique), and the number of highlighted cards is the number
    shown in the selection counter, [selectedTasks.length]. *)
Theorem X15_highlighted_cards (s : State) :
  reachable s ->
  exists cs,
    cards weekdays (tasks s) = Some cs /\
    NoDup (map id cs) /\
    List.length (filter (isSelected s) cs) = List.length (selectedTasks s).
Proof.
  intros R. destruct (reachable_Inv s R) as [K U _ S _ _].
  destruct (cards_spec weekdays (tasks s) K (incl_refl _)) as (cs & E & Hmem & Hnd).
  specialize (Hnd U weekdays_NoDup).
  exists cs. split; [exact E|]. split; [exact Hnd|].
  apply highlight_count; auto.
  intros x Hx. apply Hmem.
  destruct (reachable_selectionInBuckets s R x Hx) as (d & l & G & Hin).
  exists d. split; [eapply wfKeys_weekday; eauto | exists l; auto].
Qed.

Lemma X15_highlighted_cards_witness :
  exists cs,
    cards weekdays (tasks (selectTask task1 false initialState)) = Some cs /\
    List.length (filter (isSelected (selectTask task1 false initialState)) cs) = 1%nat.
Proof.
  destruct (X15_highlighted_cards (selectTask task1 false initialState))
    as (cs & E & _ & L).
  - apply (replay_reachable [OpSelect task1 false] initialState);
      [exact reachable_init | reflexivity].
  - exists cs. split; [exact E | exact L].
Defined.

Section DragToFolder.

Lemma folderDrop_fields (s : State) :
  tasks (handleFolderDrop s) = tasks s /\
  selectedTasks (handleFolderDrop s) = selectedTasks s /\
  clipboard (handleFolderDrop s) = clipboard s /\
  folder (handleFolderDrop s)
  = folder s ++ filter (notInFolder (folder s)) (payloadOf (draggedTask s)) /\
  (draggedTask s <> None -> draggedTask (handleFolderDrop s) = None).
Proof.
  unfold handleFolderDrop. destruct (draggedTask s) as [p|] eqn:D.
  - cbn [tasks selectedTasks clipboard folder draggedTask payloadOf].
    rewrite folder_append. repeat split.
  - cbn [payloadOf filter]. rewrite app_nil_r.
    repeat match goal with |- _ /\ _ => split end; congruence.
Qed.

Lemma folderDrop_holds_payload (s : State) (x : Z) :
  In x (map id (payloadOf (draggedTask s))) ->
  In x (map id (folder (handleFolderDrop s))).
Proof.
  intros H. destruct (folderDrop_fields s) as (_ & _ & _ & F & _).
  rewrite F, map_app, in_app_iff.
  destruct (in_dec Z.eq_dec x (map id (folder s))) as [Hf|Hf]; [auto|].
  right. apply in_ids_notInFolder. auto.
Qed.

End DragToFolder.

(** X16. Dragging a card to the folder is idempotent: after [beginDrag(t)]
    and [dropOnFolder()] the folder holds the id of [t]; dragging [t] to
    the folder a second time leaves the folder exactly as the first drop
    left it.  The buckets and the clipboard are the same after both
    rounds, and the payload is consumed. *)
Theorem X16_drag_to_folder_twice (t : Task) (s : State) :
  let s1 := handleFolderDrop (handleDragStart t s) in
  let s2 := handleFolderDrop (handleDragStart t s1) in
  In (id t) (map id (folder s1)) /\
  folder s2 = folder s1 /\
  tasks s2 = tasks s /\ clipboard s2 = clipboard s /\
  draggedTask s1 = None /\ draggedTask s2 = None.
Proof.
  cbv zeta.
  set (d1 := handleDragStart t s).
  set (s1 := handleFolderDrop d1).
  set (d2 := handleDragStart t s1).
  destruct (folderDrop_fields d1) as (T1 & S1 & C1 & F1 & P1).
  destruct (folderDrop_fields d2) as (T2 & S2 & C2 & F2 & P2).
  fold s1 in T1, S1, C1, F1, P1.
  assert (Hd : forall u st, draggedTask (handleDragStart u st) <> None).
  { intros u st. unfold handleDragStart.
    destruct (Js.some _ _ && _); discriminate. }
  assert (Hf : forall u st, tasks (handleDragStart u st) = tasks st /\
                            clipboard (handleDragStart u st) = clipboard st /\
                            folder (handleDragStart u st) = folder st).
  { intros u st. unfold handleDragStart.
    destruct (Js.some _ _ && _); repeat split; reflexivity. }
  destruct (Hf t s) as (Ht1 & Hc1 & _). destruct (Hf t s1) as (Ht2 & Hc2 & Hfo2).
  fold d1 in Ht1, Hc1. fold d2 in Ht2, Hc2, Hfo2. rewrite Hfo2 in F2.
  (* every id of the first payload is in the folder after the first drop *)
  assert (In1 : forall x, In x (map id (selectedTasks d1)) ->
                          In x (map id (folder s1))).
  { intros x H. apply folderDrop_holds_payload.
    unfold d1 in *. now rewrite (proj1 (drag_ids_agree t s)). }
  assert (Ht : In (id t) (map id (folder s1))).
  { apply In1. apply (proj2 (drag_ids_agree t s)). }
  split; [exact Ht|]. split.
  - rewrite F2. rewrite (filter_all_false _ (payloadOf (draggedTask d2))).
    + apply app_nil_r.
    + intros u Hu. apply not_true_iff_false. rewrite notInFolder_true.
      intros Hn. apply Hn.
      assert (Hid : In (id u) (map id (payloadOf (draggedTask d2))))
        by now apply in_map.
      destruct (handleDragStart_ids t s1 (id u) (or_intror Hid)) as [H|H].
      * apply In1. now rewrite <- S1.
      * now rewrite H.
  - rewrite T2, C2, Ht2, Hc2, T1, C1, Ht1, Hc1.
    repeat split; [apply P1 | apply P2]; apply Hd.
Qed.

(** X17. The clipboard is a snapshot that an edit does not reach: when an
    edit is saved while tasks wait in the clipboard, [commitEdit] rewrites
    the selection and the folder but leaves the clipboard as it is, so the
    paste that follows appends the clipboard's tasks with the content they
    had when they were cut or copied, also for the id that was edited: in
    mode [cut] the tasks themselves, in mode [copy] duplicates of them. *)
Theorem X17_clipboard_ignores_edit (s : State) (cur : Task) (B : string) :
  wfKeys (tasks s) -> In B weekdays ->
  currentTask s = Some cur -> clipboard s <> [] ->
  exists s1 s2 old,
    saveChanges s = Some s1 /\
    clipboard s1 = clipboard s /\ clipboardMode s1 = clipboardMode s /\
    selectedTasks s1 = map (editOf cur (formData s)) (selectedTasks s) /\
    folder s1 = map (editOf cur (formData s)) (folder s) /\
    pasteTasksToDay B s1 = Some s2 /\
    Js.get (tasks s1) B = Some old /\
    (clipboardMode s = cut ->
     Js.get (tasks s2) B = Some (old ++ clipboard s)) /\
    (clipboardMode s = copy ->
     exists copies, Js.get (tasks s2) B = Some (old ++ copies) /\
                    duplicatesOf (clipboard s) copies).
Proof.
  intros K HB C Hclip.
  destruct (saveLoop_total cur (formData s) (tasks s) K) as (o1 & E & K1 & _).
  destruct (wfKeys_get o1 B K1 HB) as [old G].
  assert (Hsave : saveChanges s =
            Some {| tasks := o1;
                    folder := map (editOf cur (formData s)) (folder s);
                    draggedTask := draggedTask s;
                    selectedTasks := map (editOf cur (formData s)) (selectedTasks s);
                    clipboard := clipboard s; clipboardMode := clipboardMode s;
                    isModalOpen := false; currentTask := None;
                    formData := formData s |}).
  { unfold saveChanges. now rewrite C, E. }
  destruct (clipboard s) as [|c0 clip] eqn:Ec; [congruence|].
  destruct (clipboardMode s) eqn:M;
    (eexists; eexists; exists old; split; [exact Hsave|]);
    cbn [clipboard clipboardMode tasks selectedTasks folder];
    do 4 (split; [reflexivity|]);
    unfold pasteTasksToDay; cbn [clipboard clipboardMode tasks]; rewrite G;
    (split; [reflexivity|]); (split; [reflexivity|]); cbn [tasks]; split;
    try discriminate; intros _.
  - eexists. split; [apply get_set_eq|].
    apply (taskCopies_duplicates (c0 :: clip)).
  - apply get_set_eq.
Qed.

Lemma X17_clipboard_ignores_edit_witness :
  let s := handleFormChange "points" "21"
             (openEditModal task1
                (cutSelectedTasks (selectTask task1 false initialState))) in
  exists s1 s2,
    saveChanges s = Some s1 /\ pasteTasksToDay "Mardi" s1 = Some s2 /\
    hasTask (tasks s2) "Mardi" task1.
Proof.
  cbv zeta.
  match goal with |- exists s1 s2, saveChanges ?st = _ /\ _ =>
    destruct (X17_clipboard_ignores_edit st task1 "Mardi")
      as (s1 & s2 & old & E1 & _ & _ & _ & _ & E2 & G1 & Hcut & _)
  end.
  - reflexivity.
  - simpl. auto.
  - reflexivity.
  - discriminate.
  - exists s1, s2. split; [exact E1|]. split; [exact E2|].
    eexists. split; [apply Hcut; reflexivity|].
    apply in_or_app. right. simpl. auto.
Defined.

Section PositiveIds.

Lemma reachable_evolves (s : State) : reachable s -> evolves initialState s.
Proof.
  induction 1 as [|s op s' _ IH En Hrun]; [constructor|].
  eapply evolves_step; eauto.
Qed.

Lemma initialState_Above : Above 0 initialState.
Proof.
  constructor.
  - reflexivity.
  - intros y H. unfold idInState in H.
    cbn [initialState tasks clipboard selectedTasks draggedTask folder
         currentTask payloadOf] in H.
    destruct H as [H|[H|[H|[H|[H|H]]]]];
      first [ now destruct H
            | destruct H as (c & H & _); discriminate
            | idtac ].
    apply inSomeBucket_allTaskIds in H. vm_compute in H.
    repeat destruct H as [H|H]; try (subst y; reflexivity). destruct H.
  - intros H. exfalso. apply H. reflexivity.
  - intros _ H. exfalso. apply H. reflexivity.
Qed.

End PositiveIds.

(** X18. In every state the page can reach, every task id, wherever it
    occurs (buckets, clipboard, selection, drag payload, folder, task being
    edited), is positive; and while there is a selection, or a copy waiting
    in the clipboard, some bucket is not empty, so the fallback [nextId = 1]
    of an empty week is never used for a paste. *)
Theorem X18_ids_positive (s : State) :
  reachable s ->
  (forall y, idInState s y -> 0 < y) /\
  (selectedTasks s <> [] \/ (clipboardMode s = copy /\ clipboard s <> []) ->
   allTaskIds (tasks s) <> [] /\ 1 < nextId (tasks s)).
Proof.
  intros R.
  destruct (evolves_Above 0 _ _ initialState_Above (reachable_evolves s R))
    as [K Ids Sel Clip].
  split; [exact Ids|].
  intros H.
  assert (Hy : exists y, inSomeBucket (tasks s) y).
  { destruct H as [H|[H1 H2]]; auto. }
  destruct Hy as [y Hy]. pose proof (Ids y (or_introl Hy)) as Hpos.
  pose proof (inSomeBucket_allTaskIds _ _ Hy) as Hin.
  split.
  - intros E. rewrite E in Hin. destruct Hin.
  - pose proof (nextId_gt _ _ Hin). lia.
Qed.

Lemma X18_ids_positive_witness :
  1 < nextId (tasks (selectTask task1 false initialState)).
Proof.
  apply (X18_ids_positive (selectTask task1 false initialState)).
  - apply (replay_reachable [OpSelect task1 false] initialState);
      [exact reachable_init | reflexivity].
  - left. discriminate.
Defined.
